(** * Token_Auth_Proxy: the token cache and the endpoint forwarders of
      [src/index.js], as a shallow embedding.

    The JavaScript of [index.js] is embedded as state-passing functions:
    the two module-level cells [cachedToken] and [tokenExpiresAt] live in
    a [State] record together with two observation logs (the outbound
    [fetch] calls and the [console.error] lines); an exception is the
    [Throw] completion of the monad [M].  The outside world (the clock,
    the network, the ECMAScript conversions between strings and numbers)
    is a parameter of the development, so every theorem holds for every
    behaviour of the network and of those conversions.

    Conventions of the model:
    - a JavaScript string is the [string] of its UTF-8 bytes;
      [js_length] counts its UTF-16 code units, as [.length] does;
    - a JavaScript number is a [JsNum]: [NaN], the two infinities, or a
      finite value carried as a rational, [-0] being identified with
      [0].  A sum or product that is not an integer is rounded to the
      nearest binary64 value, ties to even; one that is an integer is
      kept as it is, which is what binary64 does up to [2 ^ 53] in
      magnitude, far above any reading of the clock in milliseconds;
    - an object is an association list in insertion order. *)

From Stdlib Require Import String Ascii List ZArith QArith Bool Lia DecimalString.
From Stdlib Require Qcanon.
Import ListNotations.
Local Open Scope string_scope.
Local Open Scope Z_scope.

(** ** JavaScript values *)

Inductive JsNum : Type :=
| NaN
| NegInfinity
| PosInfinity
| Fin (q : Q).

#[local] Set Warnings "-register-all".

Inductive JsVal : Type :=
| VUndefined
| VNull
| VBool (b : bool)
| VNum (n : JsNum)
| VStr (s : string)
| VArr (items : list JsVal)
| VObj (fields : list (string * JsVal)).

(** A thrown value.  Everything thrown in [index.js] or by the libraries
    it calls is an [Error] object; [name] is the constructor's name. *)
Record JsError : Type := mkError { name : string; message : string }.

(** [new Error(msg)] *)
Definition new_Error (msg : string) : JsError := mkError "Error" msg.

Definition TypeError (msg : string) : JsError := mkError "TypeError" msg.

(** The completion of an evaluation: a value, or a thrown error. *)
Inductive Completion (A : Type) : Type :=
| Normal (a : A)
| Throw (e : JsError).
Arguments Normal {A} a.
Arguments Throw {A} e.

(** ** Numbers *)

Definition num (z : Z) : JsNum := Fin (inject_Z z).

(** The integers that binary64 holds, each of them, without rounding. *)
Definition safe_integer (z : Z) : Prop := - 2 ^ 53 <= z <= 2 ^ 53.

Definition Qltb (a b : Q) : bool := negb (Qle_bool b a).

(** [a < b] on numbers: false as soon as one side is [NaN]. *)
Definition num_lt (a b : JsNum) : bool :=
  match a, b with
  | NaN, _ | _, NaN => false
  | NegInfinity, NegInfinity => false
  | NegInfinity, _ => true
  | _, NegInfinity => false
  | PosInfinity, _ => false
  | Fin _, PosInfinity => true
  | Fin x, Fin y => Qltb x y
  end.

(** [a <= b] on numbers. *)
Definition num_le (a b : JsNum) : bool :=
  match a, b with
  | NaN, _ | _, NaN => false
  | NegInfinity, _ => true
  | _, NegInfinity => false
  | _, PosInfinity => true
  | PosInfinity, Fin _ => false
  | Fin x, Fin y => Qle_bool x y
  end.

Definition num_neg (a : JsNum) : JsNum :=
  match a with
  | NaN => NaN
  | NegInfinity => PosInfinity
  | PosInfinity => NegInfinity
  | Fin x => Fin (Qopp x)
  end.

(** *** Rounding to binary64 *)

(** The exponent [e] with [2 ^ e <= a / d < 2 ^ (e + 1)]. *)
Definition floor_log2 (a d : positive) : Z :=
  let e0 := Z.log2 (Zpos a) - Z.log2 (Zpos d) in
  if 0 <=? e0
  then (if Zpos a <? Zpos d * 2 ^ e0 then e0 - 1 else e0)
  else (if Zpos a * 2 ^ (- e0) <? Zpos d then e0 - 1 else e0).

(** The binary64 value nearest to the positive rational [a / d], ties
    to even: 53 significant bits, the last of them worth at least
    [2 ^ -1074]; infinite from [2 ^ 1024] on. *)
Definition round_positive (a d : positive) : JsNum :=
  let e := floor_log2 a d in
  let u := Z.max (e - 52) (- 1074) in
  let n := if u <? 0 then Zpos a * 2 ^ (- u) else Zpos a in
  let k := if u <? 0 then Zpos d else Zpos d * 2 ^ u in
  let m := n / k in
  let m' := match 2 * (n mod k) ?= k with
            | Lt => m
            | Gt => m + 1
            | Eq => if Z.even m then m else m + 1
            end in
  if u <? 0 then Fin (Qred (Qmake m' (Z.to_pos (2 ^ (- u)))))
  else if 2 ^ 1024 <=? m' * 2 ^ u then PosInfinity
  else Fin (inject_Z (m' * 2 ^ u)).

(** The number a sum or a product comes out as: the nearest binary64
    value.  An integer is kept as it is: binary64 holds every integer up
    to [2 ^ 53] in magnitude ([safe_integer]), and beyond that the model
    does not round. *)
Definition round64 (q : Q) : JsNum :=
  let q' := Qred q in
  if Pos.eqb (Qden q') 1 then Fin q'
  else
    match Qnum q' with
    | Z0 => Fin q'
    | Zpos a => round_positive a (Qden q')
    | Zneg a => num_neg (round_positive a (Qden q'))
    end.

(** [a + b] on numbers. *)
Definition num_add (a b : JsNum) : JsNum :=
  match a, b with
  | NaN, _ | _, NaN => NaN
  | PosInfinity, NegInfinity | NegInfinity, PosInfinity => NaN
  | PosInfinity, _ | _, PosInfinity => PosInfinity
  | NegInfinity, _ | _, NegInfinity => NegInfinity
  | Fin x, Fin y => round64 (Qplus x y)
  end.

(** [a - b] on numbers. *)
Definition num_sub (a b : JsNum) : JsNum := num_add a (num_neg b).

(** The sign of an infinity multiplied by the finite [x]. *)
Definition scale_infinity (positive : bool) (x : Q) : JsNum :=
  if Qeq_bool x 0 then NaN
  else if Bool.eqb positive (Qltb 0 x) then PosInfinity else NegInfinity.

(** [a * b] on numbers. *)
Definition num_mul (a b : JsNum) : JsNum :=
  match a, b with
  | NaN, _ | _, NaN => NaN
  | PosInfinity, PosInfinity | NegInfinity, NegInfinity => PosInfinity
  | PosInfinity, NegInfinity | NegInfinity, PosInfinity => NegInfinity
  | PosInfinity, Fin x | Fin x, PosInfinity => scale_infinity true x
  | NegInfinity, Fin x | Fin x, NegInfinity => scale_infinity false x
  | Fin x, Fin y => round64 (Qmult x y)
  end.

(** [Math.min(a, b)]: [NaN] if either argument is, else the smaller. *)
Definition Math_min (a b : JsNum) : JsNum :=
  match a, b with
  | NaN, _ | _, NaN => NaN
  | _, _ => if num_lt a b then a else b
  end.

(** ** Strings *)

(** The UTF-16 code units that one byte of well-formed UTF-8 stands
    for: one for an ASCII byte and for the first byte of a sequence of two
    or three, two for the first byte of a sequence of four (a surrogate
    pair), none for a continuation byte. *)
Definition utf16_units (c : ascii) : nat :=
  let b := nat_of_ascii c in
  if Nat.ltb b 128 then 1%nat
  else if Nat.ltb b 192 then 0%nat
  else if Nat.ltb b 240 then 1%nat
  else 2%nat.

(** [s.length] *)
Fixpoint js_length (s : string) : nat :=
  match s with
  | EmptyString => 0%nat
  | String c rest => (utf16_units c + js_length rest)%nat
  end.

(** ToBoolean on a number: [NaN] and zero are falsy. *)
Definition num_truthy (a : JsNum) : bool :=
  match a with
  | NaN => false
  | Fin x => negb (Qeq_bool x 0)
  | _ => true
  end.

(** ToBoolean. *)
Definition truthy (v : JsVal) : bool :=
  match v with
  | VUndefined | VNull => false
  | VBool b => b
  | VNum n => num_truthy n
  | VStr s => negb (String.eqb s "")
  | VArr _ | VObj _ => true
  end.

(** [typeof v === 'string'] *)
Definition is_string (v : JsVal) : bool :=
  match v with VStr _ => true | _ => false end.

(** [v !== undefined] *)
Definition is_defined (v : JsVal) : bool :=
  match v with VUndefined => false | _ => true end.

(** ** Objects *)

(** The own property [key] of an object literal, or [undefined]. *)
Fixpoint lookup (key : string) (fields : list (string * JsVal)) : JsVal :=
  match fields with
  | [] => VUndefined
  | (k, v) :: rest => if String.eqb k key then v else lookup key rest
  end.

Fixpoint hasOwn (key : string) (fields : list (string * JsVal)) : bool :=
  match fields with
  | [] => false
  | (k, _) :: rest => String.eqb k key || hasOwn key rest
  end.

(** [v.key] for the property names [index.js] reads, none of which is
    inherited from a prototype: a [TypeError] on [undefined] and [null],
    the own property on an object, [undefined] on every other value. *)
Definition getProp (v : JsVal) (key : string) : Completion JsVal :=
  match v with
  | VUndefined | VNull =>
      Throw (TypeError ("Cannot read properties of undefined or null (reading '" ++ key ++ "')"))
  | VObj fields => Normal (lookup key fields)
  | _ => Normal VUndefined
  end.

(** [const { key = dflt } = obj]: the default replaces [undefined] only. *)
Definition withDefault (v dflt : JsVal) : JsVal :=
  match v with VUndefined => dflt | _ => v end.

(** ** HTTP messages *)

(** A [URL] object: the address without its query, and [searchParams]
    as the list of name-value pairs in order.  Serialising the pairs
    into the query string (percent-encoding) is left to [fetch]. *)
Record URL : Type := mkURL { href : string; searchParams : list (string * string) }.

Inductive RequestBody : Type :=
| NoBody
| FormBody (pairs : list (string * string))   (* new URLSearchParams({...}) *)
| JsonBody (v : JsVal).                       (* JSON.stringify({...}) *)

(** One call of [fetch(url, { method, headers, body })]. *)
Record Request : Type := mkRequest {
  method : string;
  url : URL;
  headers : list (string * string);
  body : RequestBody
}.

(** The [Response] a resolved [fetch] yields: [text] is the completion
    of [response.text()] (a [Throw] when the body cannot be read),
    [json] that of [response.json()] (a [Throw] also when the body is not
    JSON). *)
Record Response : Type := mkResponse {
  status : Z;
  text : Completion string;
  json : Completion JsVal
}.

(** [response.ok]: the status is in the range 200-299. *)
Definition ok (r : Response) : bool := (200 <=? status r) && (status r <? 300).

Inductive FetchOutcome : Type :=
| Resolved (r : Response)
| Rejected (e : JsError).

(** What Express hands to a route handler: [req.query] (the parsed query
    string, whose values are strings, arrays or nested objects) and
    [req.body]. *)
Record InRequest : Type := mkInRequest {
  query : list (string * JsVal);
  req_body : JsVal
}.

(** [res.status(code).json(payload)] *)
Record Reply : Type := mkReply { statusCode : Z; payload : JsVal }.

(** ** Program state and the monad of effects *)

Record State : Type := mkState {
  cachedToken : JsVal;                       (* let cachedToken = null *)
  tokenExpiresAt : JsNum;                    (* let tokenExpiresAt = 0 *)
  outbound : list Request;                   (* every fetch issued, oldest first *)
  console : list (string * JsError)          (* every console.error(label, err) *)
}.

Definition initial_state : State :=
  {| cachedToken := VNull; tokenExpiresAt := num 0; outbound := []; console := [] |}.

Definition M (A : Type) : Type := State -> Completion A * State.

Definition ret {A} (a : A) : M A := fun st => (Normal a, st).

Definition throw {A} (e : JsError) : M A := fun st => (Throw e, st).

Definition bind {A B} (c : M A) (k : A -> M B) : M B :=
  fun st =>
    match c st with
    | (Normal a, st') => k a st'
    | (Throw e, st') => (Throw e, st')
    end.

(** A pure computation that may throw, run inside [M]. *)
Definition lift {A} (c : Completion A) : M A := fun st => (c, st).

(** [try { body } catch (err) { handler }] *)
Definition try_catch {A} (body : M A) (handler : JsError -> M A) : M A :=
  fun st =>
    match body st with
    | (Normal a, st') => (Normal a, st')
    | (Throw e, st') => handler e st'
    end.

Declare Scope js_scope.
Delimit Scope js_scope with js.
Notation "x <- c ;; k" := (bind c (fun x => k))
  (at level 61, c at next level, right associativity) : js_scope.
Notation "c ;; k" := (bind c (fun _ => k))
  (at level 61, right associativity) : js_scope.
Local Open Scope js_scope.

Definition set_cachedToken (v : JsVal) : M unit :=
  fun st => (Normal tt, {| cachedToken := v; tokenExpiresAt := tokenExpiresAt st;
                           outbound := outbound st; console := console st |}).

Definition set_tokenExpiresAt (n : JsNum) : M unit :=
  fun st => (Normal tt, {| cachedToken := cachedToken st; tokenExpiresAt := n;
                           outbound := outbound st; console := console st |}).

(** [console.error(label, err)] *)
Definition console_error (label : string) (err : JsError) : M unit :=
  fun st => (Normal tt, {| cachedToken := cachedToken st; tokenExpiresAt := tokenExpiresAt st;
                           outbound := outbound st; console := console st ++ [(label, err)] |}).

(** [res.status(code).json(payload)] *)
Definition res_json (code : Z) (payload : JsVal) : M Reply :=
  ret {| statusCode := code; payload := payload |}.

(** The literal [{ error: msg }]. *)
Definition error_body (msg : string) : JsVal := VObj [("error", VStr msg)].

(** ** [Buffer.from(s).toString('base64')] *)

Definition base64_alphabet : string :=
  "ABCDEFGHIJKLMNOPQRSTUVWXYZabcdefghijklmnopqrstuvwxyz0123456789+/".

Definition base64_digit (n : N) : string :=
  match String.get (N.to_nat n) base64_alphabet with
  | Some c => String c ""
  | None => "="
  end.

Fixpoint base64_bytes (bytes : list N) : string :=
  match bytes with
  | [] => ""
  | [a] =>
      base64_digit (a / 4) ++ base64_digit ((a mod 4) * 16) ++ "=="
  | [a; b] =>
      base64_digit (a / 4) ++ base64_digit ((a mod 4) * 16 + b / 16)
      ++ base64_digit ((b mod 16) * 4) ++ "="
  | a :: b :: c :: rest =>
      base64_digit (a / 4) ++ base64_digit ((a mod 4) * 16 + b / 16)
      ++ base64_digit ((b mod 16) * 4 + c / 64) ++ base64_digit (c mod 64)
      ++ base64_bytes rest
  end%N.

Definition base64 (s : string) : string :=
  base64_bytes (map N_of_ascii (list_ascii_of_string s)).

(** ** The string-number conversions on decimal integers

    ECMAScript's StringToNumber and Number::toString are parameters of
    the development below.  These two functions are the instance used to
    run the model on concrete requests: they agree with ECMAScript on
    unsigned decimal integer literals and on integer values. *)

Fixpoint digits_value (acc : Z) (s : string) : option Z :=
  match s with
  | EmptyString => Some acc
  | String c rest =>
      let d := Z.of_N (N_of_ascii c) - 48 in
      if (0 <=? d) && (d <=? 9) then digits_value (10 * acc + d) rest else None
  end.

(** [Number(s)] for [s] a run of decimal digits (the empty string is 0);
    any other string is mapped to [NaN]. *)
Definition decimal_StringToNumber (s : string) : JsNum :=
  match digits_value 0 s with
  | Some z => num z
  | None => NaN
  end.

(** [String(n)] for [n] an integer, [NaN] or an infinity; a finite
    non-integer is printed as its integer part. *)
Definition decimal_NumberToString (n : JsNum) : string :=
  match n with
  | NaN => "NaN"
  | PosInfinity => "Infinity"
  | NegInfinity => "-Infinity"
  | Fin q => NilZero.string_of_int (Z.to_int (Z.quot (Qnum q) (Zpos (Qden q))))
  end.

(** ** A sample deployment

    Concrete configurations, answers of the network and requests, on
    which the model is run below. *)

Module Sample.

Definition client_id : string := "0123456789abcdef".
Definition client_secret : string := "fedcba9876543210".
Definition oauth_url : string := "https://oauth.fatsecret.com/connect/token".
Definition scope : string := "basic".

(** A reading of [Date.now()]. *)
Definition now : Z := 1700000000000.

(** The OAuth endpoint grants a token for a day. *)
Definition token_granted : Response :=
  {| status := 200;
     text := Normal "{access_token: tok-1, expires_in: 86400}";
     json := Normal (VObj [("access_token", VStr "tok-1");
                           ("expires_in", VNum (num 86400));
                           ("token_type", VStr "Bearer")]) |}.

(** The OAuth endpoint rejects the credentials. *)
Definition token_denied : Response :=
  {| status := 401;
     text := Normal "invalid_client";
     json := Throw (mkError "SyntaxError" "Unexpected token i in JSON at position 0") |}.

(** The OAuth endpoint answers 200 with an object that has no
    [access_token]. *)
Definition token_missing : Response :=
  {| status := 200; text := Normal "{}"; json := Normal (VObj []) |}.

Definition foods_body : JsVal :=
  VObj [("foods_search", VObj [("max_results", VStr "50"); ("total_results", VStr "1234")])].

(** The REST API answers a search. *)
Definition foods_found : Response :=
  {| status := 200; text := Normal "{foods_search: ...}"; json := Normal foods_body |}.

Definition not_found_body : JsVal :=
  VObj [("error", VObj [("code", VNum (num 106)); ("message", VStr "Invalid ID")])].

(** The REST API answers 404 with a JSON error. *)
Definition food_not_found : Response :=
  {| status := 404; text := Normal "{error: ...}"; json := Normal not_found_body |}.

(** A gateway in front of the REST API answers 502 with an HTML page. *)
Definition bad_gateway : Response :=
  {| status := 502;
     text := Normal "<html>502 Bad Gateway</html>";
     json := Throw (mkError "SyntaxError" "Unexpected token < in JSON at position 0") |}.

(** The REST API cannot be reached. *)
Definition connection_refused : JsError :=
  mkError "FetchError" "request to https://platform.fatsecret.com/ failed, reason: ECONNREFUSED".

(** A network in which the token endpoint settles as [token] and every
    other address as [upstream]. *)
Definition network (token upstream : FetchOutcome) (rq : Request) : FetchOutcome :=
  if String.eqb (href (url rq)) oauth_url then token else upstream.

(** A cache filled a minute before its token expires. *)
Definition warm_cache : State :=
  {| cachedToken := VStr "tok-0"; tokenExpiresAt := num (now + 60000);
     outbound := []; console := [] |}.

(** [GET /search-foods?q=apple&max_results=100] *)
Definition search_apple_100 : InRequest :=
  {| query := [("q", VStr "apple"); ("max_results", VStr "100")]; req_body := VUndefined |}.

(** [GET /search-foods?q=apple] *)
Definition search_apple : InRequest :=
  {| query := [("q", VStr "apple")]; req_body := VUndefined |}.

(** [GET /search-foods] and [GET /search-recipes], without any parameter. *)
Definition no_parameters : InRequest :=
  {| query := []; req_body := VUndefined |}.

(** [GET /find-food-by-barcode?barcode=...] *)
Definition barcode_request (barcode : string) : InRequest :=
  {| query := [("barcode", VStr barcode)]; req_body := VUndefined |}.

(** The letter e with an acute accent, U+00E9: two bytes, one UTF-16
    code unit. *)
Definition e_acute : string := String (ascii_of_nat 195) (String (ascii_of_nat 169) "").

(** A musical clef, U+1D11E: four bytes, two UTF-16 code units. *)
Definition g_clef : string :=
  String (ascii_of_nat 240) (String (ascii_of_nat 157)
    (String (ascii_of_nat 132) (String (ascii_of_nat 158) ""))).

End Sample.

(** ** The program *)

Section Proxy.

(** [process.env] *)
Variables CLIENT_ID CLIENT_SECRET OAUTH_URL SCOPE : string.

(** ECMAScript StringToNumber and Number::toString. *)
Variable StringToNumber : string -> JsNum.
Variable NumberToString : JsNum -> string.

(** [Date.now()], read once per call of [getAccessToken]. *)
Variable Date_now : Z.

(** How the network settles each [fetch].  One run of a route issues at
    most two, the token request and the call to the REST API, and they
    differ in their credentials. *)
Variable network : Request -> FetchOutcome.

(** ToString, as applied by [String(v)], template literals and
    [v.toString()] on a non-nullish [v].  An array joins its elements
    with commas, printing [undefined] and [null] as empty; an object
    prints as [[object Object]] unless an own property shadows
    [toString], and then no conversion to a primitive exists. *)
Fixpoint ToString (v : JsVal) : Completion string :=
  match v with
  | VUndefined => Normal "undefined"
  | VNull => Normal "null"
  | VBool b => Normal (if b then "true" else "false")
  | VNum n => Normal (NumberToString n)
  | VStr s => Normal s
  | VArr items =>
      (fix join (l : list JsVal) : Completion string :=
         match l with
         | [] => Normal ""
         | x :: rest =>
             let first :=
               match x with
               | VUndefined | VNull => Normal ""
               | _ => ToString x
               end in
             match first, rest with
             | Throw e, _ => Throw e
             | Normal sx, [] => Normal sx
             | Normal sx, _ :: _ =>
                 match join rest with
                 | Throw e => Throw e
                 | Normal sr => Normal (sx ++ "," ++ sr)
                 end
             end
         end) items
  | VObj fields =>
      if hasOwn "toString" fields
      then Throw (TypeError "Cannot convert object to primitive value")
      else Normal "[object Object]"
  end.

(** ToNumber, as applied by [Number(v)] and by [*]. *)
Definition ToNumber (v : JsVal) : Completion JsNum :=
  match v with
  | VUndefined => Normal NaN
  | VNull => Normal (num 0)
  | VBool b => Normal (if b then num 1 else num 0)
  | VNum n => Normal n
  | VStr s => Normal (StringToNumber s)
  | VArr _ | VObj _ =>
      match ToString v with
      | Normal s => Normal (StringToNumber s)
      | Throw e => Throw e
      end
  end.

(** [n || dflt] on numbers. *)
Definition num_or (n dflt : JsNum) : JsNum := if num_truthy n then n else dflt.

(** [await fetch(...)]: the call is recorded, then settles as the
    network decides. *)
Definition fetch (rq : Request) : M Response :=
  fun st =>
    let st' := {| cachedToken := cachedToken st; tokenExpiresAt := tokenExpiresAt st;
                  outbound := outbound st ++ [rq]; console := console st |} in
    match network rq with
    | Resolved r => (Normal r, st')
    | Rejected e => (Throw e, st')
    end.

(** The request of lines 30-42: the client-credentials POST. *)
Definition token_request : Request :=
  let auth := base64 (CLIENT_ID ++ ":" ++ CLIENT_SECRET) in
  {| method := "POST";
     url := mkURL OAUTH_URL [];
     headers := [("Authorization", "Basic " ++ auth);
                 ("Content-Type", "application/x-www-form-urlencoded")];
     body := FormBody [("grant_type", "client_credentials"); ("scope", SCOPE)] |}.

Definition getAccessToken : M JsVal :=
  fun st =>
    let now := num Date_now in
    if truthy (cachedToken st) && num_lt now (tokenExpiresAt st)
    then (Normal (cachedToken st), st)
    else
      (response <- fetch token_request ;;
       if negb (ok response) then
         errText <- lift (text response) ;;
         throw (new_Error ("Failed to fetch token: "
                           ++ NumberToString (num (status response)) ++ " " ++ errText))
       else
         data <- lift (json response) ;;
         access_token <- lift (getProp data "access_token") ;;
         set_cachedToken access_token ;;
         expires_in <- lift (getProp data "expires_in") ;;
         seconds <- lift (ToNumber expires_in) ;;
         set_tokenExpiresAt
           (num_sub (num_add now (num_mul seconds (num 1000))) (num 10000)) ;;
         (fun st' => (Normal (cachedToken st'), st'))) st.

(** [url.searchParams.set(key, value)]: overwrite the first pair named
    [key] and drop the others, or append. *)
Fixpoint searchParams_set (key value : string) (params : list (string * string))
  : list (string * string) :=
  match params with
  | [] => [(key, value)]
  | (k, v) :: rest =>
      if String.eqb k key
      then (key, value) :: filter (fun kv => negb (String.eqb (fst kv) key)) rest
      else (k, v) :: searchParams_set key value rest
  end.

(** The loop of lines 59-63 over [Object.entries(query)]. *)
Fixpoint set_query (query : list (string * JsVal)) (params : list (string * string))
  : Completion (list (string * string)) :=
  match query with
  | [] => Normal params
  | (key, value) :: rest =>
      if is_defined value then
        match ToString value with
        | Normal s => set_query rest (searchParams_set key s params)
        | Throw e => Throw e
        end
      else set_query rest params
  end.

(** The request of lines 65-69. *)
Definition rest_request (path : string) (params : list (string * string)) (bearer : string)
  : Request :=
  {| method := "GET";
     url := mkURL ("https://platform.fatsecret.com/rest/" ++ path) params;
     headers := [("Authorization", "Bearer " ++ bearer)];
     body := NoBody |}.

Definition fatsecretRestRequest (path : string) (query : list (string * JsVal))
  : M (Z * JsVal) :=
  token <- getAccessToken ;;
  params <- lift (set_query query []) ;;
  bearer <- lift (ToString token) ;;
  response <- fetch (rest_request path params bearer) ;;
  data <- lift (json response) ;;
  ret (status response, data).

(** [JSON.stringify({ ... })] of an object literal: properties whose
    value is [undefined] are left out. *)
Definition JSON_stringify (fields : list (string * JsVal)) : RequestBody :=
  JsonBody (VObj (filter (fun kv => is_defined (snd kv)) fields)).

(** [res.status(status).json(data)] on the pair [fatsecretRestRequest]
    returns. *)
Definition relay (r : Z * JsVal) : M Reply :=
  let '(status, data) := r in res_json status data.

(** The [catch (err)] block of every route. *)
Definition fail_with (label msg : string) (err : JsError) : M Reply :=
  console_error label err ;;
  res_json 500 (error_body msg).

(** *** The GET routes *)

Definition search_foods (req : InRequest) : M Reply :=
  let q := lookup "q" (query req) in
  let page := withDefault (lookup "page" (query req)) (VNum (num 0)) in
  let max_results := withDefault (lookup "max_results" (query req)) (VNum (num 20)) in
  let include_sub_categories := lookup "include_sub_categories" (query req) in
  let include_food_images := lookup "include_food_images" (query req) in
  let include_food_attributes := lookup "include_food_attributes" (query req) in
  let flag_default_serving := lookup "flag_default_serving" (query req) in
  let region := lookup "region" (query req) in
  let language := lookup "language" (query req) in
  let format := withDefault (lookup "format" (query req)) (VStr "json") in
  if negb (truthy q) then
    res_json 400 (error_body "Missing search query (?q=)")
  else
    n <- lift (ToNumber max_results) ;;
    let cappedMaxResults := Math_min (num_or n (num 20)) (num 50) in
    try_catch
      (r <- fatsecretRestRequest "foods/search/v3"
              [("search_expression", q);
               ("page_number", page);
               ("max_results", VNum cappedMaxResults);
               ("include_sub_categories", include_sub_categories);
               ("include_food_images", include_food_images);
               ("include_food_attributes", include_food_attributes);
               ("flag_default_serving", flag_default_serving);
               ("region", region);
               ("language", language);
               ("format", format)] ;;
       relay r)
      (fail_with "FatSecret /search-foods REST error:"
                 "Internal error while searching foods").

Definition autocomplete_foods (req : InRequest) : M Reply :=
  let q := lookup "q" (query req) in
  let max_results := withDefault (lookup "max_results" (query req)) (VNum (num 4)) in
  let region := lookup "region" (query req) in
  let format := withDefault (lookup "format" (query req)) (VStr "json") in
  if negb (truthy q) then
    res_json 400 (error_body "Missing query (?q=)")
  else
    n <- lift (ToNumber max_results) ;;
    let cappedMaxResults := Math_min (num_or n (num 4)) (num 10) in
    try_catch
      (r <- fatsecretRestRequest "food/autocomplete/v2"
              [("expression", q);
               ("max_results", VNum cappedMaxResults);
               ("region", region);
               ("format", format)] ;;
       relay r)
      (fail_with "FatSecret /autocomplete-foods REST error:"
                 "Internal error while autocompleting foods").

(** [!barcode || barcode.toString().length !== 13]: whether the request
    is refused.  [toString] is only called on a truthy [barcode]. *)
Definition barcode_refused (barcode : JsVal) : Completion bool :=
  if negb (truthy barcode) then Normal true
  else
    match ToString barcode with
    | Normal s => Normal (negb (Nat.eqb (js_length s) 13))
    | Throw e => Throw e
    end.

Definition find_food_by_barcode (req : InRequest) : M Reply :=
  let barcode := lookup "barcode" (query req) in
  let region := lookup "region" (query req) in
  let language := lookup "language" (query req) in
  let format := withDefault (lookup "format" (query req)) (VStr "json") in
  refused <- lift (barcode_refused barcode) ;;
  if (refused : bool) then
    res_json 400 (error_body "Missing or invalid 13-digit barcode (?barcode=)")
  else
    try_catch
      (r <- fatsecretRestRequest "food/barcode/find-by-id/v1"
              [("barcode", barcode);
               ("region", region);
               ("language", language);
               ("format", format)] ;;
       relay r)
      (fail_with "FatSecret /find-food-by-barcode REST error:"
                 "Internal error while finding food by barcode").

Definition food_details (req : InRequest) : M Reply :=
  let id := lookup "id" (query req) in
  let format := withDefault (lookup "format" (query req)) (VStr "json") in
  let include_sub_categories := lookup "include_sub_categories" (query req) in
  let include_food_images := lookup "include_food_images" (query req) in
  let include_food_attributes := lookup "include_food_attributes" (query req) in
  let flag_default_serving := lookup "flag_default_serving" (query req) in
  let region := lookup "region" (query req) in
  let language := lookup "language" (query req) in
  if negb (truthy id) then
    res_json 400 (error_body "Missing food id (?id=)")
  else
    try_catch
      (r <- fatsecretRestRequest "food/v4"
              [("food_id", id);
               ("format", format);
               ("include_sub_categories", include_sub_categories);
               ("include_food_images", include_food_images);
               ("include_food_attributes", include_food_attributes);
               ("flag_default_serving", flag_default_serving);
               ("region", region);
               ("language", language)] ;;
       relay r)
      (fail_with "FatSecret /food-details REST error:"
                 "Internal error while getting food details").

Definition food_brands (req : InRequest) : M Reply :=
  let starts_with := lookup "starts_with" (query req) in
  let brand_type := lookup "brand_type" (query req) in
  let region := lookup "region" (query req) in
  let language := lookup "language" (query req) in
  let format := withDefault (lookup "format" (query req)) (VStr "json") in
  if negb (truthy starts_with) then
    res_json 400 (error_body "Missing required parameter (?starts_with=)")
  else
    try_catch
      (r <- fatsecretRestRequest "brands/v2"
              [("starts_with", starts_with);
               ("brand_type", brand_type);
               ("region", region);
               ("language", language);
               ("format", format)] ;;
       relay r)
      (fail_with "FatSecret /food-brands REST error:"
                 "Internal error while fetching food brands").

Definition food_categories (req : InRequest) : M Reply :=
  let region := lookup "region" (query req) in
  let language := lookup "language" (query req) in
  let format := withDefault (lookup "format" (query req)) (VStr "json") in
  try_catch
    (r <- fatsecretRestRequest "food-categories/v2"
            [("region", region);
             ("language", language);
             ("format", format)] ;;
     relay r)
    (fail_with "FatSecret /food-categories REST error:"
               "Internal error while fetching food categories").

Definition food_sub_categories (req : InRequest) : M Reply :=
  let food_category_id := lookup "food_category_id" (query req) in
  let region := lookup "region" (query req) in
  let language := lookup "language" (query req) in
  let format := withDefault (lookup "format" (query req)) (VStr "json") in
  if negb (truthy food_category_id) then
    res_json 400 (error_body "Missing required parameter (?food_category_id=)")
  else
    try_catch
      (r <- fatsecretRestRequest "food-sub-categories/v2"
              [("food_category_id", food_category_id);
               ("region", region);
               ("language", language);
               ("format", format)] ;;
       relay r)
      (fail_with "FatSecret /food-sub-categories REST error:"
                 "Internal error while fetching food sub-categories").

Definition recipe_details (req : InRequest) : M Reply :=
  let id := lookup "id" (query req) in
  let region := lookup "region" (query req) in
  let format := withDefault (lookup "format" (query req)) (VStr "json") in
  if negb (truthy id) then
    res_json 400 (error_body "Missing recipe id (?id=)")
  else
    try_catch
      (r <- fatsecretRestRequest "recipe/v2"
              [("recipe_id", id);
               ("region", region);
               ("format", format)] ;;
       relay r)
      (fail_with "FatSecret /recipe-details REST error:"
                 "Internal error while getting recipe details").

Definition search_recipes (req : InRequest) : M Reply :=
  let q := lookup "q" (query req) in
  let recipe_types := lookup "recipe_types" (query req) in
  let recipe_types_matchall := lookup "recipe_types_matchall" (query req) in
  let must_have_images := lookup "must_have_images" (query req) in
  let caloriesFrom := lookup "calories.from" (query req) in
  let caloriesTo := lookup "calories.to" (query req) in
  let carbFrom := lookup "carb_percentage.from" (query req) in
  let carbTo := lookup "carb_percentage.to" (query req) in
  let proteinFrom := lookup "protein_percentage.from" (query req) in
  let proteinTo := lookup "protein_percentage.to" (query req) in
  let fatFrom := lookup "fat_percentage.from" (query req) in
  let fatTo := lookup "fat_percentage.to" (query req) in
  let prepTimeFrom := lookup "prep_time.from" (query req) in
  let prepTimeTo := lookup "prep_time.to" (query req) in
  let sort_by := lookup "sort_by" (query req) in
  let page := withDefault (lookup "page" (query req)) (VNum (num 0)) in
  let max_results := withDefault (lookup "max_results" (query req)) (VNum (num 20)) in
  let region := lookup "region" (query req) in
  let format := withDefault (lookup "format" (query req)) (VStr "json") in
  n <- lift (ToNumber max_results) ;;
  let cappedMaxResults := Math_min (num_or n (num 20)) (num 50) in
  try_catch
    (r <- fatsecretRestRequest "recipes/search/v3"
            [("search_expression", q);
             ("recipe_types", recipe_types);
             ("recipe_types_matchall", recipe_types_matchall);
             ("must_have_images", must_have_images);
             ("calories.from", caloriesFrom);
             ("calories.to", caloriesTo);
             ("carb_percentage.from", carbFrom);
             ("carb_percentage.to", carbTo);
             ("protein_percentage.from", proteinFrom);
             ("protein_percentage.to", proteinTo);
             ("fat_percentage.from", fatFrom);
             ("fat_percentage.to", fatTo);
             ("prep_time.from", prepTimeFrom);
             ("prep_time.to", prepTimeTo);
             ("sort_by", sort_by);
             ("page_number", page);
             ("max_results", VNum cappedMaxResults);
             ("region", region);
             ("format", format)] ;;
     relay r)
    (fail_with "FatSecret /search-recipes REST error:"
               "Internal error while searching recipes").

Definition recipe_types (req : InRequest) : M Reply :=
  let format := withDefault (lookup "format" (query req)) (VStr "json") in
  try_catch
    (r <- fatsecretRestRequest "recipe-types/v2"
            [("format", format)] ;;
     relay r)
    (fail_with "FatSecret /recipe-types REST error:"
               "Internal error while fetching recipe types").

(** *** The POST routes *)

(** The request of lines 396-409 and 436-449. *)
Definition post_request (address bearer : string) (fields : list (string * JsVal))
  : Request :=
  {| method := "POST";
     url := mkURL address [];
     headers := [("Authorization", "Bearer " ++ bearer);
                 ("Content-Type", "application/json")];
     body := JSON_stringify fields |}.

Definition nlp (req : InRequest) : M Reply :=
  user_input <- lift (getProp (req_body req) "user_input") ;;
  include_food_data <- lift (getProp (req_body req) "include_food_data") ;;
  eaten_foods <- lift (getProp (req_body req) "eaten_foods") ;;
  region <- lift (getProp (req_body req) "region") ;;
  language <- lift (getProp (req_body req) "language") ;;
  if negb (truthy user_input) || negb (is_string user_input) then
    res_json 400 (error_body "Missing or invalid user_input (required)")
  else
    try_catch
      (token <- getAccessToken ;;
       let url := "https://platform.fatsecret.com/rest/natural-language-processing/v1" in
       bearer <- lift (ToString token) ;;
       response <- fetch (post_request url bearer
                            [("user_input", user_input);
                             ("include_food_data", include_food_data);
                             ("eaten_foods", eaten_foods);
                             ("region", region);
                             ("language", language)]) ;;
       data <- lift (json response) ;;
       res_json (status response) data)
      (fail_with "FatSecret /nlp REST error:"
                 "Internal error while processing natural language input").

Definition image_recognition (req : InRequest) : M Reply :=
  image_b64 <- lift (getProp (req_body req) "image_b64") ;;
  include_food_data <- lift (getProp (req_body req) "include_food_data") ;;
  eaten_foods <- lift (getProp (req_body req) "eaten_foods") ;;
  region <- lift (getProp (req_body req) "region") ;;
  language <- lift (getProp (req_body req) "language") ;;
  if negb (truthy image_b64) || negb (is_string image_b64) then
    res_json 400 (error_body "Missing or invalid image_b64 (Base64 string required)")
  else
    try_catch
      (token <- getAccessToken ;;
       let url := "https://platform.fatsecret.com/rest/image-recognition/v2" in
       bearer <- lift (ToString token) ;;
       response <- fetch (post_request url bearer
                            [("image_b64", image_b64);
                             ("include_food_data", include_food_data);
                             ("eaten_foods", eaten_foods);
                             ("region", region);
                             ("language", language)]) ;;
       data <- lift (json response) ;;
       res_json (status response) data)
      (fail_with "FatSecret /image-recognition REST error:"
                 "Internal error while processing image").

(** The routing table: [app.get(path, handler)] and
    [app.post(path, express.json(), handler)]. *)
Definition routes : list (string * string * (InRequest -> M Reply)) :=
  [("GET", "/search-foods", search_foods);
   ("GET", "/autocomplete-foods", autocomplete_foods);
   ("GET", "/find-food-by-barcode", find_food_by_barcode);
   ("GET", "/food-details", food_details);
   ("GET", "/food-brands", food_brands);
   ("GET", "/food-categories", food_categories);
   ("GET", "/food-sub-categories", food_sub_categories);
   ("GET", "/recipe-details", recipe_details);
   ("GET", "/search-recipes", search_recipes);
   ("GET", "/recipe-types", recipe_types);
   ("POST", "/nlp", nlp);
   ("POST", "/image-recognition", image_recognition)].

(** ** Vocabulary of the statements *)

(** [s.startsWith(p)] *)
Fixpoint starts_with (p s : string) : bool :=
  match p, s with
  | EmptyString, _ => true
  | String _ _, EmptyString => false
  | String a p', String b s' => Ascii.eqb a b && starts_with p' s'
  end.

(** An outbound call to the REST API carries a bearer token; the token
    request carries Basic credentials. *)
Definition is_upstream (u : Request) : bool :=
  match headers u with
  | (_, credentials) :: _ => starts_with "Bearer " credentials
  | [] => false
  end.

(** [url.searchParams.get(key)] *)
Fixpoint searchParams_get (key : string) (params : list (string * string)) : option string :=
  match params with
  | [] => None
  | (k, v) :: rest => if String.eqb k key then Some v else searchParams_get key rest
  end.

(** The cache cells of a state. *)
Definition cache (st : State) : JsVal * JsNum := (cachedToken st, tokenExpiresAt st).

(** The test of line 28. *)
Definition cache_hit (st : State) : bool :=
  truthy (cachedToken st) && num_lt (num Date_now) (tokenExpiresAt st).

(** No cached token, or the clock at or past the stored expiry. *)
Definition cache_stale (st : State) : Prop :=
  truthy (cachedToken st) = false \/ num_le (tokenExpiresAt st) (num Date_now) = true.

(** The entry of an object literal that the loop of lines 59-63 leaves
    in the query string under [key]: the last one of that name whose
    value is not [undefined]. *)
Fixpoint last_defined (key : string) (query : list (string * JsVal)) : option JsVal :=
  match query with
  | [] => None
  | (k, v) :: rest =>
      match last_defined key rest with
      | Some v' => Some v'
      | None => if String.eqb k key && is_defined v then Some v else None
      end
  end.

(** The [try]/[catch] block every route ends with, with the
    construction of the upstream request factored out: obtain a token,
    build the request, fetch it, parse the body and relay; any exception
    is logged and answered with the route's fixed 500. *)
Definition exchange (build : JsVal -> Completion Request) (label msg : string) : M Reply :=
  try_catch
    (token <- getAccessToken ;;
     rq <- lift (build token) ;;
     response <- fetch rq ;;
     data <- lift (json response) ;;
     res_json (status response) data)
    (fail_with label msg).

(** The upstream request of [fatsecretRestRequest path query]. *)
Definition rest_build (path : string) (query : list (string * JsVal)) (token : JsVal)
  : Completion Request :=
  match set_query query [] with
  | Normal params =>
      match ToString token with
      | Normal bearer => Normal (rest_request path params bearer)
      | Throw e => Throw e
      end
  | Throw e => Throw e
  end.

(** The upstream request of the two POST routes. *)
Definition post_build (address : string) (fields : list (string * JsVal)) (token : JsVal)
  : Completion Request :=
  match ToString token with
  | Normal bearer => Normal (post_request address bearer fields)
  | Throw e => Throw e
  end.

Definition upstream_only (build : JsVal -> Completion Request) : Prop :=
  forall token rq, build token = Normal rq -> is_upstream rq = true.

(** The state after [console.error(label, e)]. *)
Definition logged (st : State) (label : string) (e : JsError) : State :=
  {| cachedToken := cachedToken st; tokenExpiresAt := tokenExpiresAt st;
     outbound := outbound st; console := console st ++ [(label, e)] |}.

(** The state after [fetch(rq)]. *)
Definition sent (st : State) (rq : Request) : State :=
  {| cachedToken := cachedToken st; tokenExpiresAt := tokenExpiresAt st;
     outbound := outbound st ++ [rq]; console := console st |}.

(** Every upstream call that [handler] issues for [req] carries the
    query parameter [key] with the value [value]. *)
Definition sends (handler : InRequest -> M Reply) (req : InRequest) (st : State)
    (key value : string) : Prop :=
  forall calls u,
    outbound (snd (handler req st)) = (outbound st ++ calls)%list ->
    In u calls ->
    is_upstream u = true ->
    searchParams_get key (searchParams (url u)) = Some value.

(** Every route either stops before its try block, leaving the state
    untouched, or runs an [exchange] that logs under the route's label and
    answers failures with the route's message. *)
Definition route_shape (handler : InRequest -> M Reply) (label msg : string) : Prop :=
  forall req st,
    snd (handler req st) = st
    \/ exists build, upstream_only build /\ handler req st = exchange build label msg st.

(** The request [build] makes is addressed to [address] and carries, as
    its first header, the token it was built from as bearer
    credentials. *)
Definition targets (build : JsVal -> Completion Request) (address : string) : Prop :=
  forall token rq,
    build token = Normal rq ->
    href (url rq) = address
    /\ exists bearer,
         ToString token = Normal bearer
         /\ hd_error (headers rq) = Some ("Authorization", "Bearer " ++ bearer).

(** As [route_shape], with the address the route calls. *)
Definition route_target (handler : InRequest -> M Reply) (label msg address : string)
  : Prop :=
  forall req st,
    snd (handler req st) = st
    \/ exists build, targets build address /\ handler req st = exchange build label msg st.

(** A query string whose parameters are all plain strings: no repeated
    name, no bracketed name. *)
Definition plain_query (q : list (string * JsVal)) : Prop :=
  Forall (fun kv => is_string (snd kv) = true) q.

(** The names the two POST routes read from [req.body] beside their
    required one. *)
Definition optional_fields : list string :=
  ["include_food_data"; "eaten_foods"; "region"; "language"].

(** No upstream call that [handler] issues for [req] carries a query
    parameter named [key]. *)
Definition omits (handler : InRequest -> M Reply) (req : InRequest) (st : State)
    (key : string) : Prop :=
  forall calls u,
    outbound (snd (handler req st)) = (outbound st ++ calls)%list ->
    In u calls ->
    is_upstream u = true ->
    searchParams_get key (searchParams (url u)) = None.

(** [String(v)] yields a text. *)
Definition printable (v : JsVal) : Prop := exists s, ToString v = Normal s.

(** Every parameter of a query string prints. *)
Definition printable_query (q : list (string * JsVal)) : Prop :=
  Forall (fun kv => printable (snd kv)) q.

(** Once [getAccessToken] has yielded a token, [handler] issues for
    [req] one more call and no other: the GET to [path] under
    [https://platform.fatsecret.com/rest/], with the token as bearer
    credentials and with the query parameter [key] set to [value]. *)
Definition delivers (handler : InRequest -> M Reply) (req : InRequest) (st : State)
    (path key value : string) : Prop :=
  forall token st1 bearer,
    getAccessToken st = (Normal token, st1) ->
    ToString token = Normal bearer ->
    exists params,
      outbound (snd (handler req st))
      = (outbound st1 ++ [rest_request path params bearer])%list
      /\ searchParams_get key params = Some value.

Ltac unfold_monad :=
  unfold bind, ret, throw, lift, try_catch, fetch, set_cachedToken,
    set_tokenExpiresAt, console_error, res_json in *.

Ltac step := cbv beta iota zeta delta [fst snd].

(** ** The token manager *)

(** An integer is its own rounding. *)
Lemma round64_integer (z : Z) : round64 (inject_Z z) = Fin (inject_Z z).
Proof.
  unfold round64, inject_Z.
  rewrite (Qcanon.Qred_identity (Qmake z 1)) by apply Z.gcd_1_r.
  reflexivity.
Qed.

(** Sums and products of integers are exact. *)
Lemma num_add_integers (a b : Z) : num_add (num a) (num b) = num (a + b).
Proof.
  unfold num. simpl num_add.
  replace (Qplus (inject_Z a) (inject_Z b)) with (inject_Z (a + b)).
  - apply round64_integer.
  - unfold Qplus, inject_Z. simpl. f_equal. lia.
Qed.

Lemma num_mul_integers (a b : Z) : num_mul (num a) (num b) = num (a * b).
Proof.
  unfold num. simpl num_mul.
  replace (Qmult (inject_Z a) (inject_Z b)) with (inject_Z (a * b)).
  - apply round64_integer.
  - reflexivity.
Qed.

Lemma num_le_not_lt (a b : JsNum) : num_le b a = true -> num_lt a b = false.
Proof.
  destruct a, b; simpl; try reflexivity; try discriminate.
  unfold Qltb. intros ->. reflexivity.
Qed.

Lemma cache_stale_miss (st : State) : cache_stale st -> cache_hit st = false.
Proof.
  unfold cache_hit. intros [H | H].
  - rewrite H. reflexivity.
  - rewrite (num_le_not_lt _ _ H). apply andb_false_r.
Qed.

(** On a miss, [getAccessToken] is the refresh of lines 30-52. *)
Lemma getAccessToken_miss (st : State) :
  cache_hit st = false ->
  getAccessToken st =
  (response <- fetch token_request ;;
   if negb (ok response) then
     errText <- lift (text response) ;;
     throw (new_Error ("Failed to fetch token: "
                       ++ NumberToString (num (status response)) ++ " " ++ errText))
   else
     data <- lift (json response) ;;
     access_token <- lift (getProp data "access_token") ;;
     set_cachedToken access_token ;;
     expires_in <- lift (getProp data "expires_in") ;;
     seconds <- lift (ToNumber expires_in) ;;
     set_tokenExpiresAt
       (num_sub (num_add (num Date_now) (num_mul seconds (num 1000))) (num 10000)) ;;
     (fun st' => (Normal (cachedToken st'), st'))) st.
Proof.
  unfold cache_hit, getAccessToken. intros ->. reflexivity.
Qed.

(** C1. With a truthy cached token and the clock strictly before the
    stored expiry, [getAccessToken] returns the cached value and ends in
    the state it started from: no fetch is recorded and neither cache
    cell changes. *)
Theorem getAccessToken_reuses_cached_token (st : State) :
  truthy (cachedToken st) = true ->
  num_lt (num Date_now) (tokenExpiresAt st) = true ->
  fst (getAccessToken st) = Normal (cachedToken st)
  /\ outbound (snd (getAccessToken st)) = outbound st
  /\ cachedToken (snd (getAccessToken st)) = cachedToken st
  /\ tokenExpiresAt (snd (getAccessToken st)) = tokenExpiresAt st.
Proof.
  intros Htok Hnow. unfold getAccessToken.
  rewrite Htok, Hnow. simpl. repeat split.
Qed.

(** The expiry written by a refresh, when [expires_in] is the integer
    [n]: [now + n * 1000] milliseconds, less the 10 seconds of margin. *)
Lemma expiry_integer (n : Z) :
  num_sub (num_add (num Date_now) (num_mul (num n) (num 1000))) (num 10000)
  = Fin (Qmake (Date_now + n * 1000 - 10 * 1000) 1).
Proof.
  unfold num_sub. rewrite num_mul_integers, num_add_integers.
  change (num_neg (num 10000)) with (num (- 10000)).
  rewrite num_add_integers. unfold num, inject_Z. do 2 f_equal; lia.
Qed.

(** The fetches of one call: none, or the token request alone; the
    console is left alone. *)
Lemma getAccessToken_calls (st : State) :
  (outbound (snd (getAccessToken st)) = outbound st
   \/ outbound (snd (getAccessToken st)) = (outbound st ++ [token_request])%list)
  /\ console (snd (getAccessToken st)) = console st.
Proof.
  unfold getAccessToken.
  destruct (truthy (cachedToken st) && num_lt (num Date_now) (tokenExpiresAt st)).
  - simpl. auto.
  - unfold_monad.
    destruct (network token_request) as [r | e]; simpl; [| auto].
    destruct (ok r); simpl; [| destruct (text r); auto].
    destruct (json r) as [data | e]; simpl; [| auto].
    destruct (getProp data "access_token") as [tok | e]; simpl; [| auto].
    destruct (getProp data "expires_in") as [ex | e]; simpl; [| auto].
    destruct (ToNumber ex) as [secs | e]; simpl; auto.
Qed.

(** C2. When the cache cell is falsy or the clock is at or past the
    stored expiry, [getAccessToken] issues exactly one fetch, the POST to
    [OAUTH_URL], whatever the network answers.  When the answer has a
    success status and a JSON body whose [expires_in] is the integer [n],
    the body's [access_token] becomes the cached token and is returned,
    and the stored expiry becomes [now + n * 1000 - 10 * 1000], a margin
    of ten seconds; the clock, the product, the sum and the difference
    are taken within the integers that binary64 holds exactly. *)
Theorem getAccessToken_refreshes_once (st : State) :
  cache_stale st ->
  outbound (snd (getAccessToken st)) = (outbound st ++ [token_request])%list
  /\ method token_request = "POST"
  /\ href (url token_request) = OAUTH_URL
  /\ (forall r data access_token expires_in n,
        network token_request = Resolved r ->
        ok r = true ->
        json r = Normal data ->
        getProp data "access_token" = Normal access_token ->
        getProp data "expires_in" = Normal expires_in ->
        ToNumber expires_in = Normal (num n) ->
        safe_integer Date_now ->
        safe_integer (n * 1000) ->
        safe_integer (Date_now + n * 1000) ->
        safe_integer (Date_now + n * 1000 - 10 * 1000) ->
        getAccessToken st =
        (Normal access_token,
         {| cachedToken := access_token;
            tokenExpiresAt := num (Date_now + n * 1000 - 10 * 1000);
            outbound := outbound st ++ [token_request];
            console := console st |})).
Proof.
  intros Hstale. rewrite (getAccessToken_miss st (cache_stale_miss st Hstale)).
  split; [| split; [reflexivity | split; [reflexivity |]]].
  - unfold_monad.
    destruct (network token_request) as [r | e]; simpl; [| reflexivity].
    destruct (ok r); simpl; [| destruct (text r); reflexivity].
    destruct (json r) as [data | e]; simpl; [| reflexivity].
    destruct (getProp data "access_token") as [tok | e]; simpl; [| reflexivity].
    destruct (getProp data "expires_in") as [ex | e]; simpl; [| reflexivity].
    destruct (ToNumber ex) as [secs | e]; reflexivity.
  - intros r data tok ex n Hnet Hok Hjson Htok Hex Hsecs _ _ _ _.
    change (num (Date_now + n * 1000 - 10 * 1000))
      with (Fin (Qmake (Date_now + n * 1000 - 10 * 1000) 1)).
    rewrite <- (expiry_integer n).
    unfold_monad. rewrite Hnet. simpl. rewrite Hok. simpl.
    rewrite Hjson. simpl. rewrite Htok. simpl. rewrite Hex. simpl.
    rewrite Hsecs. reflexivity.
Qed.

(** C9, as the code has it.  When the test of line 28 fails and the
    token request is answered with a non-success status, [getAccessToken]
    throws and both cache cells hold what they held before the call; and
    whenever a call leaves a cache cell changed, the token request was
    answered with a success status.  The refresh is not atomic: after a
    success status with a JSON object whose [expires_in] cannot be
    converted to a number, the call throws with the object's
    [access_token] already in [cachedToken] and the old expiry still in
    [tokenExpiresAt]. *)
Theorem failed_refresh_keeps_cache (st : State) :
  (forall r,
     cache_hit st = false ->
     network token_request = Resolved r ->
     ok r = false ->
     (exists e, fst (getAccessToken st) = Throw e)
     /\ cachedToken (snd (getAccessToken st)) = cachedToken st
     /\ tokenExpiresAt (snd (getAccessToken st)) = tokenExpiresAt st)
  /\ (cache (snd (getAccessToken st)) <> cache st ->
      exists r, network token_request = Resolved r /\ ok r = true)
  /\ (forall r fields e,
        cache_hit st = false ->
        network token_request = Resolved r ->
        ok r = true ->
        json r = Normal (VObj fields) ->
        ToNumber (lookup "expires_in" fields) = Throw e ->
        fst (getAccessToken st) = Throw e
        /\ cachedToken (snd (getAccessToken st)) = lookup "access_token" fields
        /\ tokenExpiresAt (snd (getAccessToken st)) = tokenExpiresAt st).
Proof.
  split; [| split].
  - intros r Hmiss Hnet Hok. rewrite (getAccessToken_miss st Hmiss).
    unfold_monad. rewrite Hnet. simpl. rewrite Hok. simpl.
    destruct (text r); repeat split; eexists; reflexivity.
  - unfold getAccessToken.
    destruct (truthy (cachedToken st) && num_lt (num Date_now) (tokenExpiresAt st)).
    + simpl. intros H. contradiction H. reflexivity.
    + unfold_monad.
      destruct (network token_request) as [r | e]; simpl;
        [| intros H; contradiction H; reflexivity].
      destruct (ok r) eqn:Hok; simpl;
        [| destruct (text r); intros H; contradiction H; reflexivity].
      intros _. exists r. split; [reflexivity | exact Hok].
  - intros r fields e Hmiss Hnet Hok Hjson Hconv.
    rewrite (getAccessToken_miss st Hmiss).
    unfold_monad. rewrite Hnet. simpl. rewrite Hok. simpl. rewrite Hjson. simpl.
    rewrite Hconv. repeat split.
Qed.

(** C3, as the code has it.  On a miss (the test of line 28 fails)
    answered with a non-success status, [getAccessToken] throws: an
    [Error] whose message is [Failed to fetch token: <status> <body text>]
    when the body can be read, the error of [response.text()] when it
    cannot.  It returns the cached token on a hit and, on a miss answered
    with a success status and a JSON object whose [expires_in] converts
    to a number, the [access_token] of that object.  When the fetch
    itself is rejected, when the success body is not JSON, or when
    [expires_in] cannot be converted, the error of [fetch], of
    [response.json()] or of the conversion is thrown instead. *)
Theorem getAccessToken_outcomes (st : State) :
  (cache_hit st = false ->
   forall r errText,
     network token_request = Resolved r -> ok r = false ->
     text r = Normal errText ->
     fst (getAccessToken st)
     = Throw (new_Error ("Failed to fetch token: "
                         ++ NumberToString (num (status r)) ++ " " ++ errText)))
  /\ (cache_hit st = false ->
      forall r e,
        network token_request = Resolved r -> ok r = false ->
        text r = Throw e ->
        fst (getAccessToken st) = Throw e)
  /\ (truthy (cachedToken st) = true ->
      num_lt (num Date_now) (tokenExpiresAt st) = true ->
      fst (getAccessToken st) = Normal (cachedToken st))
  /\ (cache_hit st = false ->
      forall r fields seconds,
        network token_request = Resolved r -> ok r = true ->
        json r = Normal (VObj fields) ->
        ToNumber (lookup "expires_in" fields) = Normal seconds ->
        fst (getAccessToken st) = Normal (lookup "access_token" fields))
  /\ (cache_hit st = false ->
      forall r fields e,
        network token_request = Resolved r -> ok r = true ->
        json r = Normal (VObj fields) ->
        ToNumber (lookup "expires_in" fields) = Throw e ->
        fst (getAccessToken st) = Throw e)
  /\ (cache_hit st = false ->
      forall e, network token_request = Rejected e ->
        fst (getAccessToken st) = Throw e)
  /\ (cache_hit st = false ->
      forall r e, network token_request = Resolved r -> ok r = true ->
        json r = Throw e ->
        fst (getAccessToken st) = Throw e).
Proof.
  repeat match goal with |- _ /\ _ => split end.
  - intros Hmiss r t Hnet Hok Htext. rewrite (getAccessToken_miss st Hmiss).
    unfold_monad. rewrite Hnet. simpl. rewrite Hok. simpl. rewrite Htext. reflexivity.
  - intros Hmiss r e Hnet Hok Htext. rewrite (getAccessToken_miss st Hmiss).
    unfold_monad. rewrite Hnet. simpl. rewrite Hok. simpl. rewrite Htext. reflexivity.
  - intros Htok Hnow. unfold getAccessToken. rewrite Htok, Hnow. reflexivity.
  - intros Hmiss r fields secs Hnet Hok Hjson Hsecs.
    rewrite (getAccessToken_miss st Hmiss).
    unfold_monad. rewrite Hnet. simpl. rewrite Hok. simpl. rewrite Hjson. simpl.
    rewrite Hsecs. reflexivity.
  - intros Hmiss r fields e Hnet Hok Hjson Hsecs.
    rewrite (getAccessToken_miss st Hmiss).
    unfold_monad. rewrite Hnet. simpl. rewrite Hok. simpl. rewrite Hjson. simpl.
    rewrite Hsecs. reflexivity.
  - intros Hmiss e Hnet. rewrite (getAccessToken_miss st Hmiss).
    unfold_monad. rewrite Hnet. reflexivity.
  - intros Hmiss r e Hnet Hok Hjson. rewrite (getAccessToken_miss st Hmiss).
    unfold_monad. rewrite Hnet. simpl. rewrite Hok. simpl. rewrite Hjson. reflexivity.
Qed.

(** ** The try/catch block of the routes *)

Lemma token_request_not_upstream : is_upstream token_request = false.
Proof. reflexivity. Qed.

Lemma rest_build_upstream path query : upstream_only (rest_build path query).
Proof.
  intros tok rq. unfold rest_build.
  destruct (set_query query []); [| discriminate].
  destruct (ToString tok); [| discriminate].
  intros H. injection H as <-. reflexivity.
Qed.

Lemma post_build_upstream address fields : upstream_only (post_build address fields).
Proof.
  intros tok rq. unfold post_build.
  destruct (ToString tok); [| discriminate].
  intros H. injection H as <-. reflexivity.
Qed.

(** The try/catch block of the ten GET routes is an [exchange]. *)
Lemma forwarded_exchange path query label msg st :
  try_catch (r <- fatsecretRestRequest path query ;; relay r) (fail_with label msg) st
  = exchange (rest_build path query) label msg st.
Proof.
  unfold exchange, rest_build, fatsecretRestRequest, relay, fail_with. unfold_monad.
  destruct (getAccessToken st) as [[tok | e] st1]; step; [| reflexivity].
  destruct (set_query query []) as [ps | e]; step; [| reflexivity].
  destruct (ToString tok) as [b | e]; step; [| reflexivity].
  destruct (network (rest_request path ps b)) as [r | e]; step; [| reflexivity].
  destruct (json r) as [data | e]; step; reflexivity.
Qed.

(** So is the try/catch block of the two POST routes. *)
Lemma posted_exchange address fields label msg st :
  try_catch
    (token <- getAccessToken ;;
     bearer <- lift (ToString token) ;;
     response <- fetch (post_request address bearer fields) ;;
     data <- lift (json response) ;;
     res_json (status response) data)
    (fail_with label msg) st
  = exchange (post_build address fields) label msg st.
Proof.
  unfold exchange, post_build, fail_with. unfold_monad.
  destruct (getAccessToken st) as [[tok | e] st1]; step; [| reflexivity].
  destruct (ToString tok) as [b | e]; step; [| reflexivity].
  destruct (network (post_request address b fields)) as [r | e]; step; [| reflexivity].
  destruct (json r) as [data | e]; step; reflexivity.
Qed.

(** Every run of an [exchange], by cases on the token, the request
    built, the network and the body. *)
Lemma exchange_run build label msg st :
  exchange build label msg st =
  match getAccessToken st with
  | (Throw e, st1) => (Normal (mkReply 500 (error_body msg)), logged st1 label e)
  | (Normal token, st1) =>
      match build token with
      | Throw e => (Normal (mkReply 500 (error_body msg)), logged st1 label e)
      | Normal rq =>
          match network rq with
          | Rejected e =>
              (Normal (mkReply 500 (error_body msg)), logged (sent st1 rq) label e)
          | Resolved r =>
              match json r with
              | Throw e =>
                  (Normal (mkReply 500 (error_body msg)), logged (sent st1 rq) label e)
              | Normal data => (Normal (mkReply (status r) data), sent st1 rq)
              end
          end
      end
  end.
Proof.
  unfold exchange, fail_with, logged, sent. unfold_monad.
  destruct (getAccessToken st) as [[tok | e] st1]; step; [| reflexivity].
  destruct (build tok) as [rq | e]; step; [| reflexivity].
  destruct (network rq) as [r | e]; step; [| reflexivity].
  destruct (json r) as [data | e]; step; reflexivity.
Qed.

(** The calls a run adds after those of [getAccessToken]. *)
Lemma calls_after_token st extra calls :
  (outbound (snd (getAccessToken st)) ++ extra)%list = (outbound st ++ calls)%list ->
  calls = extra \/ calls = token_request :: extra.
Proof.
  destruct (getAccessToken_calls st) as [[H | H] _]; rewrite H; intros Heq.
  - left. symmetry. exact (app_inv_head _ _ _ Heq).
  - right. rewrite <- app_assoc in Heq. symmetry. exact (app_inv_head _ _ _ Heq).
Qed.

(** An upstream call among the new calls is among those that follow
    [getAccessToken]. *)
Lemma upstream_call_after_token st extra calls u :
  (outbound (snd (getAccessToken st)) ++ extra)%list = (outbound st ++ calls)%list ->
  In u calls ->
  is_upstream u = true ->
  In u extra.
Proof.
  intros Heq Hin Hup.
  destruct (calls_after_token st extra calls Heq) as [-> | ->]; [assumption |].
  destruct Hin as [<- | Hin]; [| assumption].
  rewrite token_request_not_upstream in Hup. discriminate.
Qed.

(** The upstream call found in the trace of an [exchange] is the request
    built from the token, sent right after the token was obtained. *)
Lemma exchange_upstream_call build label msg st calls u :
  outbound (snd (exchange build label msg st)) = (outbound st ++ calls)%list ->
  In u calls ->
  is_upstream u = true ->
  exists token st1,
    getAccessToken st = (Normal token, st1)
    /\ build token = Normal u
    /\ outbound (snd (exchange build label msg st)) = (outbound st1 ++ [u])%list.
Proof.
  intros Hcalls Hin Hup. rewrite exchange_run in *.
  pose proof (upstream_call_after_token st) as Hafter.
  destruct (getAccessToken st) as [[tok | e] st1]; simpl snd in Hafter.
  - destruct (build tok) as [rq | e] eqn:Hb.
    + assert (Hu : In u [rq]).
      { apply (Hafter [rq] calls u); [| assumption | assumption].
        destruct (network rq) as [r | e]; [destruct (json r) |]; exact Hcalls. }
      destruct Hu as [<- | []]. exists tok, st1.
      split; [reflexivity | split; [first [exact Hb | reflexivity] |]].
      destruct (network rq) as [r | e]; [destruct (json r) |]; reflexivity.
    + exfalso. apply (Hafter [] calls u); [| assumption | assumption].
      rewrite app_nil_r. exact Hcalls.
  - exfalso. apply (Hafter [] calls u); [| assumption | assumption].
    rewrite app_nil_r. exact Hcalls.
Qed.

(** An upstream answer with a JSON body is relayed as it is. *)
Lemma exchange_relays build label msg st calls u r data :
  outbound (snd (exchange build label msg st)) = (outbound st ++ calls)%list ->
  In u calls ->
  is_upstream u = true ->
  network u = Resolved r ->
  json r = Normal data ->
  fst (exchange build label msg st) = Normal (mkReply (status r) data).
Proof.
  intros Hcalls Hin Hup Hnet Hjson.
  destruct (exchange_upstream_call _ _ _ _ _ _ Hcalls Hin Hup)
    as (tok & st1 & Htok & Hb & _).
  rewrite exchange_run, Htok, Hb, Hnet, Hjson. reflexivity.
Qed.

(** An exception of the upstream call is logged and answered with the
    fixed 500. *)
Lemma exchange_conceals build label msg st calls u e :
  outbound (snd (exchange build label msg st)) = (outbound st ++ calls)%list ->
  In u calls ->
  is_upstream u = true ->
  network u = Rejected e \/ (exists r, network u = Resolved r /\ json r = Throw e) ->
  fst (exchange build label msg st) = Normal (mkReply 500 (error_body msg))
  /\ console (snd (exchange build label msg st)) = (console st ++ [(label, e)])%list.
Proof.
  intros Hcalls Hin Hup Hfail.
  destruct (exchange_upstream_call _ _ _ _ _ _ Hcalls Hin Hup)
    as (tok & st1 & Htok & Hb & _).
  pose proof (proj2 (getAccessToken_calls st)) as Hconsole.
  rewrite Htok in Hconsole. simpl in Hconsole.
  rewrite exchange_run, Htok, Hb.
  destruct Hfail as [Hnet | (r & Hnet & Hjson)]; rewrite Hnet; [| rewrite Hjson];
    simpl; rewrite Hconsole; split; reflexivity.
Qed.

(** ** The shape of the routes *)

Lemma bind_lift_normal {A B} (a : A) (k : A -> M B) :
  (x <- lift (Normal a) ;; k x) = k a.
Proof. reflexivity. Qed.

Lemma bind_lift_throw {A B} (e : JsError) (k : A -> M B) :
  (x <- lift (Throw e) ;; k x) = throw e.
Proof. reflexivity. Qed.

Ltac forwarded :=
  right; eexists; split; [apply rest_build_upstream | apply forwarded_exchange].

Ltac posted :=
  right; eexists; split; [apply post_build_upstream | apply posted_exchange].

Ltac guarded_by b := destruct b; step; [| left; reflexivity].

Lemma search_foods_shape :
  route_shape search_foods "FatSecret /search-foods REST error:"
              "Internal error while searching foods".
Proof.
  intros req st. unfold search_foods. step.
  guarded_by (truthy (lookup "q" (query req))).
  destruct (ToNumber _) as [n | e];
    rewrite ?bind_lift_normal, ?bind_lift_throw; [forwarded | left; reflexivity].
Qed.

Lemma autocomplete_foods_shape :
  route_shape autocomplete_foods "FatSecret /autocomplete-foods REST error:"
              "Internal error while autocompleting foods".
Proof.
  intros req st. unfold autocomplete_foods. step.
  guarded_by (truthy (lookup "q" (query req))).
  destruct (ToNumber _) as [n | e];
    rewrite ?bind_lift_normal, ?bind_lift_throw; [forwarded | left; reflexivity].
Qed.

Lemma find_food_by_barcode_shape :
  route_shape find_food_by_barcode "FatSecret /find-food-by-barcode REST error:"
              "Internal error while finding food by barcode".
Proof.
  intros req st. unfold find_food_by_barcode. step.
  destruct (barcode_refused _) as [[|] | e];
    rewrite ?bind_lift_normal, ?bind_lift_throw;
    [left; reflexivity | forwarded | left; reflexivity].
Qed.

Lemma food_details_shape :
  route_shape food_details "FatSecret /food-details REST error:"
              "Internal error while getting food details".
Proof.
  intros req st. unfold food_details. step.
  guarded_by (truthy (lookup "id" (query req))). forwarded.
Qed.

Lemma food_brands_shape :
  route_shape food_brands "FatSecret /food-brands REST error:"
              "Internal error while fetching food brands".
Proof.
  intros req st. unfold food_brands. step.
  guarded_by (truthy (lookup "starts_with" (query req))). forwarded.
Qed.

Lemma food_categories_shape :
  route_shape food_categories "FatSecret /food-categories REST error:"
              "Internal error while fetching food categories".
Proof. intros req st. unfold food_categories. step. forwarded. Qed.

Lemma food_sub_categories_shape :
  route_shape food_sub_categories "FatSecret /food-sub-categories REST error:"
              "Internal error while fetching food sub-categories".
Proof.
  intros req st. unfold food_sub_categories. step.
  guarded_by (truthy (lookup "food_category_id" (query req))). forwarded.
Qed.

Lemma recipe_details_shape :
  route_shape recipe_details "FatSecret /recipe-details REST error:"
              "Internal error while getting recipe details".
Proof.
  intros req st. unfold recipe_details. step.
  guarded_by (truthy (lookup "id" (query req))). forwarded.
Qed.

Lemma search_recipes_shape :
  route_shape search_recipes "FatSecret /search-recipes REST error:"
              "Internal error while searching recipes".
Proof.
  intros req st. unfold search_recipes. step.
  destruct (ToNumber _) as [n | e];
    rewrite ?bind_lift_normal, ?bind_lift_throw; [forwarded | left; reflexivity].
Qed.

Lemma recipe_types_shape :
  route_shape recipe_types "FatSecret /recipe-types REST error:"
              "Internal error while fetching recipe types".
Proof. intros req st. unfold recipe_types. step. forwarded. Qed.

Lemma nlp_shape :
  route_shape nlp "FatSecret /nlp REST error:"
              "Internal error while processing natural language input".
Proof.
  intros req st. unfold nlp.
  destruct (req_body req) as [| | b | n | s | items | fields];
    unfold getProp; rewrite ?bind_lift_normal, ?bind_lift_throw;
    try (left; reflexivity).
  destruct (truthy _); [| left; reflexivity].
  destruct (is_string _); [| left; reflexivity].
  posted.
Qed.

Lemma image_recognition_shape :
  route_shape image_recognition "FatSecret /image-recognition REST error:"
              "Internal error while processing image".
Proof.
  intros req st. unfold image_recognition.
  destruct (req_body req) as [| | b | n | s | items | fields];
    unfold getProp; rewrite ?bind_lift_normal, ?bind_lift_throw;
    try (left; reflexivity).
  destruct (truthy _); [| left; reflexivity].
  destruct (is_string _); [| left; reflexivity].
  posted.
Qed.

(** Every route of the table has such a shape. *)
Lemma routes_shape m p handler :
  In (m, p, handler) routes -> exists label msg, route_shape handler label msg.
Proof.
  unfold routes. intros Hin.
  repeat (destruct Hin as [Hin | Hin]; [injection Hin as <- <- <- |]);
    try contradiction; do 2 eexists.
  - apply search_foods_shape.
  - apply autocomplete_foods_shape.
  - apply find_food_by_barcode_shape.
  - apply food_details_shape.
  - apply food_brands_shape.
  - apply food_categories_shape.
  - apply food_sub_categories_shape.
  - apply recipe_details_shape.
  - apply search_recipes_shape.
  - apply recipe_types_shape.
  - apply nlp_shape.
  - apply image_recognition_shape.
Qed.

(** ** Relaying and concealing *)

Lemma no_new_calls (st : State) (calls : list Request) (u : Request) :
  outbound st = (outbound st ++ calls)%list -> In u calls -> False.
Proof.
  intros Heq Hin. rewrite <- (app_nil_r (outbound st)) in Heq at 1.
  apply app_inv_head in Heq. subst calls. exact Hin.
Qed.

(** C6, as the code has it.  On every route, when the call to the REST
    API is answered with a status and a body that parses as JSON, the
    reply to the client carries that same status and that same body,
    whatever the status is: a 404 stays a 404.  When the body does not
    parse as JSON, whatever the status is, the reply is the 500 of the
    route with its fixed message. *)
Theorem upstream_status_relayed m p handler :
  In (m, p, handler) routes ->
  exists msg,
    forall req st calls u r,
      outbound (snd (handler req st)) = (outbound st ++ calls)%list ->
      In u calls ->
      is_upstream u = true ->
      network u = Resolved r ->
      (forall data,
         json r = Normal data ->
         fst (handler req st) = Normal (mkReply (status r) data))
      /\ (forall e,
            json r = Throw e ->
            fst (handler req st) = Normal (mkReply 500 (error_body msg))).
Proof.
  intros Hroute.
  destruct (routes_shape m p handler Hroute) as (label & msg & Hshape).
  exists msg. intros req st calls u r Hcalls Hin Hup Hnet.
  destruct (Hshape req st) as [Hst | (build & _ & Heq)].
  - rewrite Hst in Hcalls. destruct (no_new_calls st calls u Hcalls Hin).
  - rewrite Heq in *. split.
    + intros data Hjson.
      exact (exchange_relays _ _ _ _ _ _ _ _ Hcalls Hin Hup Hnet Hjson).
    + intros e Hjson.
      apply (exchange_conceals _ label _ _ _ _ e Hcalls Hin Hup).
      right. exists r. split; assumption.
Qed.

(** C7. Every route has a fixed label and a fixed message such that,
    whenever its call to the REST API is rejected by the network or its
    body fails to parse, the reply is status 500 with the body
    [{ error: message }], and the error itself is appended to the console
    under the label.  The message is chosen before the error is known. *)
Theorem upstream_exception_concealed m p handler :
  In (m, p, handler) routes ->
  exists label msg,
    forall req st calls u e,
      outbound (snd (handler req st)) = (outbound st ++ calls)%list ->
      In u calls ->
      is_upstream u = true ->
      network u = Rejected e \/ (exists r, network u = Resolved r /\ json r = Throw e) ->
      fst (handler req st) = Normal (mkReply 500 (error_body msg))
      /\ console (snd (handler req st)) = (console st ++ [(label, e)])%list.
Proof.
  intros Hroute.
  destruct (routes_shape m p handler Hroute) as (label & msg & Hshape).
  exists label, msg. intros req st calls u e Hcalls Hin Hup Hfail.
  destruct (Hshape req st) as [Hst | (build & _ & Heq)].
  - rewrite Hst in Hcalls. destruct (no_new_calls st calls u Hcalls Hin).
  - rewrite Heq in *. exact (exchange_conceals _ _ _ _ _ _ _ Hcalls Hin Hup Hfail).
Qed.

(** ** Validation *)

Lemma barcode_refused_string (s : string) :
  barcode_refused (VStr s) = Normal (negb (Nat.eqb (js_length s) 13)).
Proof.
  unfold barcode_refused. destruct s; simpl; reflexivity.
Qed.

(** C8, as the code has it.  Each of the nine routes that checks a
    parameter does so first: when the check fails, the reply is a 400 and
    the final state is the initial one, so no token was obtained and no
    call went out.  The routes are food search and autocomplete ([q]),
    barcode lookup, food and recipe details ([id]), brands
    ([starts_with]), sub-categories ([food_category_id]) and the two POST
    routes ([user_input], [image_b64]: a non-empty string). *)
Theorem required_parameters_checked_first (req : InRequest) (st : State) :
  (truthy (lookup "q" (query req)) = false ->
   search_foods req st
   = (Normal (mkReply 400 (error_body "Missing search query (?q=)")), st))
  /\ (truthy (lookup "q" (query req)) = false ->
      autocomplete_foods req st
      = (Normal (mkReply 400 (error_body "Missing query (?q=)")), st))
  /\ (barcode_refused (lookup "barcode" (query req)) = Normal true ->
      find_food_by_barcode req st
      = (Normal (mkReply 400 (error_body "Missing or invalid 13-digit barcode (?barcode=)")),
         st))
  /\ (truthy (lookup "id" (query req)) = false ->
      food_details req st
      = (Normal (mkReply 400 (error_body "Missing food id (?id=)")), st))
  /\ (truthy (lookup "starts_with" (query req)) = false ->
      food_brands req st
      = (Normal (mkReply 400 (error_body "Missing required parameter (?starts_with=)")), st))
  /\ (truthy (lookup "food_category_id" (query req)) = false ->
      food_sub_categories req st
      = (Normal (mkReply 400 (error_body "Missing required parameter (?food_category_id=)")),
         st))
  /\ (truthy (lookup "id" (query req)) = false ->
      recipe_details req st
      = (Normal (mkReply 400 (error_body "Missing recipe id (?id=)")), st))
  /\ (forall user_input,
        getProp (req_body req) "user_input" = Normal user_input ->
        truthy user_input = false \/ is_string user_input = false ->
        nlp req st
        = (Normal (mkReply 400 (error_body "Missing or invalid user_input (required)")), st))
  /\ (forall image_b64,
        getProp (req_body req) "image_b64" = Normal image_b64 ->
        truthy image_b64 = false \/ is_string image_b64 = false ->
        image_recognition req st
        = (Normal (mkReply 400
                     (error_body "Missing or invalid image_b64 (Base64 string required)")),
           st)).
Proof.
  repeat split.
  - intros H. unfold search_foods. step. rewrite H. reflexivity.
  - intros H. unfold autocomplete_foods. step. rewrite H. reflexivity.
  - intros H. unfold find_food_by_barcode. step. rewrite H. reflexivity.
  - intros H. unfold food_details. step. rewrite H. reflexivity.
  - intros H. unfold food_brands. step. rewrite H. reflexivity.
  - intros H. unfold food_sub_categories. step. rewrite H. reflexivity.
  - intros H. unfold recipe_details. step. rewrite H. reflexivity.
  - intros x Hx Hbad. unfold nlp.
    destruct (req_body req); simpl in Hx; try discriminate;
      injection Hx as <-; unfold getProp; rewrite ?bind_lift_normal;
      destruct Hbad as [-> | Hs]; try reflexivity;
      rewrite Hs, orb_true_r; reflexivity.
  - intros x Hx Hbad. unfold image_recognition.
    destruct (req_body req); simpl in Hx; try discriminate;
      injection Hx as <-; unfold getProp; rewrite ?bind_lift_normal;
      destruct Hbad as [-> | Hs]; try reflexivity;
      rewrite Hs, orb_true_r; reflexivity.
Qed.

(** ** The query string sent upstream *)

Lemma searchParams_get_filter key key' params :
  String.eqb key key' = false ->
  searchParams_get key' (filter (fun kv => negb (String.eqb (fst kv) key)) params)
  = searchParams_get key' params.
Proof.
  intros Hne. induction params as [| [k v] rest IH]; [reflexivity |].
  simpl. destruct (String.eqb_spec k key) as [-> | Hk]; simpl.
  - rewrite Hne. exact IH.
  - rewrite IH. reflexivity.
Qed.

Lemma searchParams_get_set key value key' params :
  searchParams_get key' (searchParams_set key value params)
  = if String.eqb key key' then Some value else searchParams_get key' params.
Proof.
  induction params as [| [k v] rest IH]; simpl.
  - destruct (String.eqb key key'); reflexivity.
  - destruct (String.eqb_spec k key) as [-> | Hk]; simpl.
    + destruct (String.eqb key key') eqn:Hkey; [reflexivity |].
      apply searchParams_get_filter. exact Hkey.
    + rewrite IH. destruct (String.eqb_spec key key') as [<- | Hkey].
      * rewrite (proj2 (String.eqb_neq k key) Hk). reflexivity.
      * reflexivity.
Qed.

(** What [url.searchParams.get(key)] yields after the loop. *)
Lemma set_query_get query : forall params ps key,
  set_query query params = Normal ps ->
  searchParams_get key ps =
  match last_defined key query with
  | Some v => match ToString v with Normal s => Some s | Throw _ => None end
  | None => searchParams_get key params
  end.
Proof.
  induction query as [| [k v] rest IH]; intros params ps key Hset; simpl in *.
  - injection Hset as <-. reflexivity.
  - destruct (is_defined v) eqn:Hdef.
    + destruct (ToString v) as [sv | e] eqn:Hv; [| discriminate].
      rewrite (IH _ _ key Hset).
      destruct (last_defined key rest); [reflexivity |].
      rewrite searchParams_get_set, andb_true_r.
      destruct (String.eqb k key); [rewrite Hv |]; reflexivity.
    + rewrite (IH _ _ key Hset), andb_false_r.
      destruct (last_defined key rest); reflexivity.
Qed.

(** The upstream call of a GET route is the request of
    [fatsecretRestRequest], with the query string the loop built. *)
Lemma forwarded_call path query label msg st calls u :
  outbound (snd (exchange (rest_build path query) label msg st))
  = (outbound st ++ calls)%list ->
  In u calls ->
  is_upstream u = true ->
  exists ps bearer, set_query query [] = Normal ps /\ u = rest_request path ps bearer.
Proof.
  intros Hcalls Hin Hup.
  destruct (exchange_upstream_call _ _ _ _ _ _ Hcalls Hin Hup)
    as (tok & st1 & _ & Hb & _).
  unfold rest_build in Hb.
  destruct (set_query query []) as [ps | e]; [| discriminate].
  destruct (ToString tok) as [b | e]; [| discriminate].
  injection Hb as <-. exists ps, b. split; reflexivity.
Qed.

(** The parameter [key] of that call is the printed value of the last
    defined entry named [key]. *)
Lemma forwarded_param path query label msg st calls u key v s :
  outbound (snd (exchange (rest_build path query) label msg st))
  = (outbound st ++ calls)%list ->
  In u calls ->
  is_upstream u = true ->
  last_defined key query = Some v ->
  ToString v = Normal s ->
  searchParams_get key (searchParams (url u)) = Some s.
Proof.
  intros Hcalls Hin Hup Hlast Hs.
  destruct (forwarded_call _ _ _ _ _ _ _ Hcalls Hin Hup) as (ps & b & Hps & ->).
  simpl. rewrite (set_query_get _ _ _ key Hps), Hlast, Hs. reflexivity.
Qed.

(** Once a token is at hand and the parameters print, the call goes
    out. *)
Lemma forwarded_issues_call path query label msg st token st1 ps bearer :
  getAccessToken st = (Normal token, st1) ->
  set_query query [] = Normal ps ->
  ToString token = Normal bearer ->
  outbound (snd (exchange (rest_build path query) label msg st))
  = (outbound st1 ++ [rest_request path ps bearer])%list.
Proof.
  intros Htok Hps Hb. rewrite exchange_run, Htok. unfold rest_build.
  rewrite Hps, Hb.
  destruct (network _) as [r | e]; [destruct (json r) |]; reflexivity.
Qed.

(** ** Requests that print *)

Lemma printable_lookup (q : list (string * JsVal)) (k : string) :
  printable_query q -> printable (lookup k q).
Proof.
  induction 1 as [| [k' v] rest Hv _ IH]; simpl.
  - eexists. reflexivity.
  - destruct (String.eqb k' k); [exact Hv | exact IH].
Qed.

Lemma printable_withDefault (v dflt : JsVal) :
  printable v -> printable dflt -> printable (withDefault v dflt).
Proof. destruct v; simpl; auto. Qed.

(** What prints converts to a number. *)
Lemma printable_ToNumber (v : JsVal) : printable v -> exists n, ToNumber v = Normal n.
Proof.
  intros [s Hs]. destruct v; simpl; eauto; simpl in Hs; rewrite Hs; eauto.
Qed.

Lemma ToNumber_withDefault (q : list (string * JsVal)) (k : string) (dflt : JsNum) :
  printable_query q -> exists n, ToNumber (withDefault (lookup k q) (VNum dflt)) = Normal n.
Proof.
  intros Hq. apply printable_ToNumber, printable_withDefault.
  - apply printable_lookup, Hq.
  - eexists. reflexivity.
Qed.

(** The loop of lines 59-63 completes on values that print. *)
Lemma set_query_prints (query : list (string * JsVal)) :
  Forall (fun kv => printable (snd kv)) query ->
  forall params, exists ps, set_query query params = Normal ps.
Proof.
  induction 1 as [| [k v] rest [sv Hv] _ IH]; intros params; simpl.
  - eexists. reflexivity.
  - simpl in Hv. destruct (is_defined v); [rewrite Hv |]; apply IH.
Qed.

(** A route that runs its try block on values that print issues its
    call as soon as a token is at hand. *)
Lemma exchange_delivers handler (req : InRequest) (st : State) path query label msg key v s :
  handler req st = exchange (rest_build path query) label msg st ->
  Forall (fun kv => printable (snd kv)) query ->
  last_defined key query = Some v ->
  ToString v = Normal s ->
  delivers handler req st path key s.
Proof.
  intros Heq Hp Hlast Hs tok st1 b Htok Hb.
  destruct (set_query_prints query Hp []) as [ps Hps].
  exists ps. rewrite Heq. split.
  - exact (forwarded_issues_call _ _ _ _ _ _ _ _ _ Htok Hps Hb).
  - rewrite (set_query_get _ _ _ key Hps), Hlast, Hs. reflexivity.
Qed.

Lemma truthy_string (s : string) : s <> "" -> truthy (VStr s) = true.
Proof.
  intros Hs. simpl. apply negb_true_iff, String.eqb_neq. exact Hs.
Qed.

Ltac prints Hp :=
  repeat (apply Forall_cons;
          [simpl snd;
           first [solve [eexists; reflexivity]
                 | solve [apply printable_withDefault;
                          [apply printable_lookup, Hp | eexists; reflexivity]]
                 | solve [apply printable_lookup, Hp]] |]);
  apply Forall_nil.

Ltac delivers_by Heq Hp :=
  eapply exchange_delivers; [exact Heq | prints Hp | reflexivity | reflexivity].

(** ** The barcode route *)

(** A 13-character barcode passes the check: the route runs its try
    block. *)
Lemma barcode_forwarded (req : InRequest) (st : State) (s : string) :
  lookup "barcode" (query req) = VStr s ->
  js_length s = 13%nat ->
  find_food_by_barcode req st
  = try_catch
      (r <- fatsecretRestRequest "food/barcode/find-by-id/v1"
              [("barcode", VStr s);
               ("region", lookup "region" (query req));
               ("language", lookup "language" (query req));
               ("format", withDefault (lookup "format" (query req)) (VStr "json"))] ;;
       relay r)
      (fail_with "FatSecret /find-food-by-barcode REST error:"
                 "Internal error while finding food by barcode") st.
Proof.
  intros Hbar Hlen. unfold find_food_by_barcode. step.
  rewrite Hbar, barcode_refused_string, Hlen. reflexivity.
Qed.

(** A string barcode of any other length is refused. *)
Lemma barcode_rejected (req : InRequest) (st : State) (s : string) :
  lookup "barcode" (query req) = VStr s ->
  js_length s <> 13%nat ->
  find_food_by_barcode req st
  = (Normal (mkReply 400 (error_body "Missing or invalid 13-digit barcode (?barcode=)")), st).
Proof.
  intros Hbar Hlen. unfold find_food_by_barcode. step.
  rewrite Hbar, barcode_refused_string.
  rewrite (proj2 (Nat.eqb_neq _ _) Hlen). reflexivity.
Qed.

(** The try block of the barcode route sends the barcode as it came. *)
Lemma barcode_call (req : InRequest) (st : State) (s : string) token st1 ps bearer :
  lookup "barcode" (query req) = VStr s ->
  js_length s = 13%nat ->
  getAccessToken st = (Normal token, st1) ->
  ToString token = Normal bearer ->
  set_query [("barcode", VStr s);
             ("region", lookup "region" (query req));
             ("language", lookup "language" (query req));
             ("format", withDefault (lookup "format" (query req)) (VStr "json"))] []
  = Normal ps ->
  outbound (snd (find_food_by_barcode req st))
  = (outbound st1 ++ [rest_request "food/barcode/find-by-id/v1" ps bearer])%list
  /\ searchParams_get "barcode" ps = Some s.
Proof.
  intros Hbar Hlen Htok Hb Hps.
  rewrite (barcode_forwarded req st s Hbar Hlen), forwarded_exchange.
  split.
  - exact (forwarded_issues_call _ _ _ _ _ _ _ _ _ Htok Hps Hb).
  - rewrite (set_query_get _ _ _ "barcode" Hps). reflexivity.
Qed.

(** C5. A barcode of 12 or of 14 characters (UTF-16 code units, what
    [.length] counts; for digits, one each), digits or not, is answered
    with a 400 in the state the request found, so nothing went out.  A
    barcode of 13 characters makes the route run its try block, which
    calls [fatsecretRestRequest]; once a token is at hand and the
    parameters print, the GET to [food/barcode/find-by-id/v1] is issued
    with that barcode. *)
Theorem barcode_length_decides (req : InRequest) (st : State) (s : string) :
  lookup "barcode" (query req) = VStr s ->
  ((js_length s = 12 \/ js_length s = 14)%nat ->
   find_food_by_barcode req st
   = (Normal (mkReply 400 (error_body "Missing or invalid 13-digit barcode (?barcode=)")),
      st))
  /\ (js_length s = 13%nat ->
      find_food_by_barcode req st
      = try_catch
          (r <- fatsecretRestRequest "food/barcode/find-by-id/v1"
                  [("barcode", VStr s);
                   ("region", lookup "region" (query req));
                   ("language", lookup "language" (query req));
                   ("format", withDefault (lookup "format" (query req)) (VStr "json"))] ;;
           relay r)
          (fail_with "FatSecret /find-food-by-barcode REST error:"
                     "Internal error while finding food by barcode") st
      /\ forall token st1 ps bearer,
           getAccessToken st = (Normal token, st1) ->
           ToString token = Normal bearer ->
           set_query [("barcode", VStr s);
                      ("region", lookup "region" (query req));
                      ("language", lookup "language" (query req));
                      ("format", withDefault (lookup "format" (query req)) (VStr "json"))] []
           = Normal ps ->
           outbound (snd (find_food_by_barcode req st))
           = (outbound st1 ++ [rest_request "food/barcode/find-by-id/v1" ps bearer])%list
           /\ searchParams_get "barcode" ps = Some s).
Proof.
  intros Hbar. split.
  - intros Hlen. apply (barcode_rejected req st s Hbar). lia.
  - intros Hlen. split.
    + exact (barcode_forwarded req st s Hbar Hlen).
    + intros tok st1 ps b Htok Hb Hps.
      exact (barcode_call req st s tok st1 ps b Hbar Hlen Htok Hb Hps).
Qed.

(** C10. On a string, the check of the barcode route is a function of
    the length alone, counted as [.length] counts it, in UTF-16 code
    units: the request is refused exactly when the length differs from 13,
    and no character is inspected.  So every string of 13 characters,
    digits or not, ASCII or not, passes, and the GET goes out with it once
    a token is at hand and the parameters print. *)
Theorem barcode_check_is_length_only (req : InRequest) (st : State) (s : string) :
  barcode_refused (VStr s) = Normal (negb (Nat.eqb (js_length s) 13))
  /\ (lookup "barcode" (query req) = VStr s ->
      js_length s = 13%nat ->
      find_food_by_barcode req st
      = try_catch
          (r <- fatsecretRestRequest "food/barcode/find-by-id/v1"
                  [("barcode", VStr s);
                   ("region", lookup "region" (query req));
                   ("language", lookup "language" (query req));
                   ("format", withDefault (lookup "format" (query req)) (VStr "json"))] ;;
           relay r)
          (fail_with "FatSecret /find-food-by-barcode REST error:"
                     "Internal error while finding food by barcode") st
      /\ forall token st1 ps bearer,
           getAccessToken st = (Normal token, st1) ->
           ToString token = Normal bearer ->
           set_query [("barcode", VStr s);
                      ("region", lookup "region" (query req));
                      ("language", lookup "language" (query req));
                      ("format", withDefault (lookup "format" (query req)) (VStr "json"))] []
           = Normal ps ->
           outbound (snd (find_food_by_barcode req st))
           = (outbound st1 ++ [rest_request "food/barcode/find-by-id/v1" ps bearer])%list
           /\ searchParams_get "barcode" ps = Some s).
Proof.
  split; [apply barcode_refused_string |].
  intros Hbar Hlen. split.
  - exact (barcode_forwarded req st s Hbar Hlen).
  - intros tok st1 ps b Htok Hb Hps.
    exact (barcode_call req st s tok st1 ps b Hbar Hlen Htok Hb Hps).
Qed.

(** ** The page-size caps *)

(** [Math.min(n || dflt, cap)] is [cap] once [n] exceeds it. *)
Lemma clamp_above (n dflt : JsNum) (cap : Z) :
  0 <= cap ->
  num_lt (num cap) n = true ->
  Math_min (num_or n dflt) (num cap) = num cap.
Proof.
  intros Hcap Hlt. destruct n as [| | | q]; try discriminate; [reflexivity |].
  unfold num in *. simpl in Hlt. unfold Qltb in Hlt.
  apply negb_true_iff in Hlt.
  assert (Hq : (inject_Z cap < q)%Q).
  { apply Qnot_le_lt. intros Hle. apply Qle_bool_iff in Hle. congruence. }
  assert (Hpos : (0 < q)%Q).
  { apply Qle_lt_trans with (inject_Z cap); [| exact Hq].
    change 0%Q with (inject_Z 0). rewrite <- Zle_Qle. exact Hcap. }
  unfold num_or. simpl.
  assert (Hnz : Qeq_bool q 0 = false).
  { destruct (Qeq_bool q 0) eqn:E; [| reflexivity].
    apply Qeq_bool_iff in E. rewrite E in Hpos. destruct (Qlt_irrefl _ Hpos). }
  rewrite Hnz. simpl. unfold Qltb.
  rewrite (proj2 (Qle_bool_iff _ _) (Qlt_le_weak _ _ Hq)). reflexivity.
Qed.

(** A parameter whose number exceeds some bound was supplied. *)
Lemma supplied_when_above (v dflt : JsVal) (bound n : JsNum) :
  ToNumber v = Normal n -> num_lt bound n = true -> withDefault v dflt = v.
Proof.
  destruct v; try reflexivity. simpl. intros H. injection H as <-.
  destruct bound; discriminate.
Qed.

Lemma search_foods_forwarded (req : InRequest) (st : State) (n : JsNum) :
  truthy (lookup "q" (query req)) = true ->
  ToNumber (withDefault (lookup "max_results" (query req)) (VNum (num 20))) = Normal n ->
  search_foods req st
  = exchange
      (rest_build "foods/search/v3"
         [("search_expression", lookup "q" (query req));
          ("page_number", withDefault (lookup "page" (query req)) (VNum (num 0)));
          ("max_results", VNum (Math_min (num_or n (num 20)) (num 50)));
          ("include_sub_categories", lookup "include_sub_categories" (query req));
          ("include_food_images", lookup "include_food_images" (query req));
          ("include_food_attributes", lookup "include_food_attributes" (query req));
          ("flag_default_serving", lookup "flag_default_serving" (query req));
          ("region", lookup "region" (query req));
          ("language", lookup "language" (query req));
          ("format", withDefault (lookup "format" (query req)) (VStr "json"))])
      "FatSecret /search-foods REST error:" "Internal error while searching foods" st.
Proof.
  intros Hq Hn. unfold search_foods. step. rewrite Hq, Hn, bind_lift_normal.
  apply forwarded_exchange.
Qed.

Lemma autocomplete_foods_forwarded (req : InRequest) (st : State) (n : JsNum) :
  truthy (lookup "q" (query req)) = true ->
  ToNumber (withDefault (lookup "max_results" (query req)) (VNum (num 4))) = Normal n ->
  autocomplete_foods req st
  = exchange
      (rest_build "food/autocomplete/v2"
         [("expression", lookup "q" (query req));
          ("max_results", VNum (Math_min (num_or n (num 4)) (num 10)));
          ("region", lookup "region" (query req));
          ("format", withDefault (lookup "format" (query req)) (VStr "json"))])
      "FatSecret /autocomplete-foods REST error:"
      "Internal error while autocompleting foods" st.
Proof.
  intros Hq Hn. unfold autocomplete_foods. step. rewrite Hq, Hn, bind_lift_normal.
  apply forwarded_exchange.
Qed.

Lemma search_recipes_forwarded (req : InRequest) (st : State) (n : JsNum) :
  ToNumber (withDefault (lookup "max_results" (query req)) (VNum (num 20))) = Normal n ->
  search_recipes req st
  = exchange
      (rest_build "recipes/search/v3"
         [("search_expression", lookup "q" (query req));
          ("recipe_types", lookup "recipe_types" (query req));
          ("recipe_types_matchall", lookup "recipe_types_matchall" (query req));
          ("must_have_images", lookup "must_have_images" (query req));
          ("calories.from", lookup "calories.from" (query req));
          ("calories.to", lookup "calories.to" (query req));
          ("carb_percentage.from", lookup "carb_percentage.from" (query req));
          ("carb_percentage.to", lookup "carb_percentage.to" (query req));
          ("protein_percentage.from", lookup "protein_percentage.from" (query req));
          ("protein_percentage.to", lookup "protein_percentage.to" (query req));
          ("fat_percentage.from", lookup "fat_percentage.from" (query req));
          ("fat_percentage.to", lookup "fat_percentage.to" (query req));
          ("prep_time.from", lookup "prep_time.from" (query req));
          ("prep_time.to", lookup "prep_time.to" (query req));
          ("sort_by", lookup "sort_by" (query req));
          ("page_number", withDefault (lookup "page" (query req)) (VNum (num 0)));
          ("max_results", VNum (Math_min (num_or n (num 20)) (num 50)));
          ("region", lookup "region" (query req));
          ("format", withDefault (lookup "format" (query req)) (VStr "json"))])
      "FatSecret /search-recipes REST error:" "Internal error while searching recipes" st.
Proof.
  intros Hn. unfold search_recipes. step. rewrite Hn, bind_lift_normal.
  apply forwarded_exchange.
Qed.

Ltac sends_by Heq :=
  let calls := fresh "calls" in
  let u := fresh "u" in
  let Hcalls := fresh "Hcalls" in
  let Hin := fresh "Hin" in
  let Hup := fresh "Hup" in
  intros calls u Hcalls Hin Hup; rewrite Heq in Hcalls;
  eapply forwarded_param;
  [exact Hcalls | exact Hin | exact Hup | reflexivity | reflexivity].

(** A run that leaves the state alone issues no call. *)
Lemma sends_nothing handler (req : InRequest) (st : State) (key value : string) :
  snd (handler req st) = st -> sends handler req st key value.
Proof.
  intros Hst calls u Hcalls Hin _. rewrite Hst in Hcalls.
  destruct (no_new_calls st calls u Hcalls Hin).
Qed.

Lemma search_foods_refused (req : InRequest) (st : State) :
  truthy (lookup "q" (query req)) = false -> snd (search_foods req st) = st.
Proof. intros Hq. unfold search_foods. step. rewrite Hq. reflexivity. Qed.

Lemma autocomplete_foods_refused (req : InRequest) (st : State) :
  truthy (lookup "q" (query req)) = false -> snd (autocomplete_foods req st) = st.
Proof. intros Hq. unfold autocomplete_foods. step. rewrite Hq. reflexivity. Qed.

(** What food search sends for its three defaulted parameters. *)
Lemma search_foods_sends (req : InRequest) (st : State) :
  (forall n,
     ToNumber (lookup "max_results" (query req)) = Normal n ->
     num_lt (num 50) n = true ->
     sends search_foods req st "max_results" (NumberToString (num 50)))
  /\ (lookup "max_results" (query req) = VUndefined ->
      sends search_foods req st "max_results" (NumberToString (num 20)))
  /\ (lookup "page" (query req) = VUndefined ->
      sends search_foods req st "page_number" (NumberToString (num 0)))
  /\ (lookup "format" (query req) = VUndefined ->
      sends search_foods req st "format" "json").
Proof.
  destruct (truthy (lookup "q" (query req))) eqn:Hq;
    [| repeat split; intros; apply sends_nothing, search_foods_refused, Hq].
  repeat split.
  - intros n Hn Hlt.
    pose proof (search_foods_forwarded req st n Hq) as Heq.
    rewrite (supplied_when_above _ _ _ _ Hn Hlt) in Heq. specialize (Heq Hn).
    rewrite (clamp_above n (num 20) 50 ltac:(lia) Hlt) in Heq. sends_by Heq.
  - intros Hmax.
    pose proof (search_foods_forwarded req st (num 20) Hq) as Heq.
    rewrite Hmax in Heq. specialize (Heq eq_refl). sends_by Heq.
  - intros Hpage.
    destruct (ToNumber (withDefault (lookup "max_results" (query req)) (VNum (num 20))))
      as [n | e] eqn:Hn.
    + pose proof (search_foods_forwarded req st n Hq Hn) as Heq.
      rewrite Hpage in Heq. sends_by Heq.
    + apply sends_nothing. unfold search_foods. step.
      rewrite Hq, Hn, bind_lift_throw. reflexivity.
  - intros Hformat.
    destruct (ToNumber (withDefault (lookup "max_results" (query req)) (VNum (num 20))))
      as [n | e] eqn:Hn.
    + pose proof (search_foods_forwarded req st n Hq Hn) as Heq.
      rewrite Hformat in Heq. sends_by Heq.
    + apply sends_nothing. unfold search_foods. step.
      rewrite Hq, Hn, bind_lift_throw. reflexivity.
Qed.

(** What autocomplete sends for its two defaulted parameters. *)
Lemma autocomplete_foods_sends (req : InRequest) (st : State) :
  (forall n,
     ToNumber (lookup "max_results" (query req)) = Normal n ->
     num_lt (num 10) n = true ->
     sends autocomplete_foods req st "max_results" (NumberToString (num 10)))
  /\ (lookup "max_results" (query req) = VUndefined ->
      sends autocomplete_foods req st "max_results" (NumberToString (num 4)))
  /\ (lookup "format" (query req) = VUndefined ->
      sends autocomplete_foods req st "format" "json").
Proof.
  destruct (truthy (lookup "q" (query req))) eqn:Hq;
    [| repeat split; intros; apply sends_nothing, autocomplete_foods_refused, Hq].
  repeat split.
  - intros n Hn Hlt.
    pose proof (autocomplete_foods_forwarded req st n Hq) as Heq.
    rewrite (supplied_when_above _ _ _ _ Hn Hlt) in Heq. specialize (Heq Hn).
    rewrite (clamp_above n (num 4) 10 ltac:(lia) Hlt) in Heq. sends_by Heq.
  - intros Hmax.
    pose proof (autocomplete_foods_forwarded req st (num 4) Hq) as Heq.
    rewrite Hmax in Heq. specialize (Heq eq_refl). sends_by Heq.
  - intros Hformat.
    destruct (ToNumber (withDefault (lookup "max_results" (query req)) (VNum (num 4))))
      as [n | e] eqn:Hn.
    + pose proof (autocomplete_foods_forwarded req st n Hq Hn) as Heq.
      rewrite Hformat in Heq. sends_by Heq.
    + apply sends_nothing. unfold autocomplete_foods. step.
      rewrite Hq, Hn, bind_lift_throw. reflexivity.
Qed.

(** What recipe search sends for its three defaulted parameters. *)
Lemma search_recipes_sends (req : InRequest) (st : State) :
  (forall n,
     ToNumber (lookup "max_results" (query req)) = Normal n ->
     num_lt (num 50) n = true ->
     sends search_recipes req st "max_results" (NumberToString (num 50)))
  /\ (lookup "max_results" (query req) = VUndefined ->
      sends search_recipes req st "max_results" (NumberToString (num 20)))
  /\ (lookup "page" (query req) = VUndefined ->
      sends search_recipes req st "page_number" (NumberToString (num 0)))
  /\ (lookup "format" (query req) = VUndefined ->
      sends search_recipes req st "format" "json").
Proof.
  repeat split.
  - intros n Hn Hlt.
    pose proof (search_recipes_forwarded req st n) as Heq.
    rewrite (supplied_when_above _ _ _ _ Hn Hlt) in Heq. specialize (Heq Hn).
    rewrite (clamp_above n (num 20) 50 ltac:(lia) Hlt) in Heq. sends_by Heq.
  - intros Hmax.
    pose proof (search_recipes_forwarded req st (num 20)) as Heq.
    rewrite Hmax in Heq. specialize (Heq eq_refl). sends_by Heq.
  - intros Hpage.
    destruct (ToNumber (withDefault (lookup "max_results" (query req)) (VNum (num 20))))
      as [n | e] eqn:Hn.
    + pose proof (search_recipes_forwarded req st n Hn) as Heq.
      rewrite Hpage in Heq. sends_by Heq.
    + apply sends_nothing. unfold search_recipes. step.
      rewrite Hn, bind_lift_throw. reflexivity.
  - intros Hformat.
    destruct (ToNumber (withDefault (lookup "max_results" (query req)) (VNum (num 20))))
      as [n | e] eqn:Hn.
    + pose proof (search_recipes_forwarded req st n Hn) as Heq.
      rewrite Hformat in Heq. sends_by Heq.
    + apply sends_nothing. unfold search_recipes. step.
      rewrite Hn, bind_lift_throw. reflexivity.
Qed.

(** With a token at hand, food search issues its call with the cap and
    the defaults. *)
Lemma search_foods_delivers (req : InRequest) (st : State) :
  printable_query (query req) ->
  truthy (lookup "q" (query req)) = true ->
  (forall n,
     ToNumber (lookup "max_results" (query req)) = Normal n ->
     num_lt (num 50) n = true ->
     delivers search_foods req st "foods/search/v3" "max_results" (NumberToString (num 50)))
  /\ (lookup "max_results" (query req) = VUndefined ->
      delivers search_foods req st "foods/search/v3" "max_results" (NumberToString (num 20)))
  /\ (lookup "page" (query req) = VUndefined ->
      delivers search_foods req st "foods/search/v3" "page_number" (NumberToString (num 0)))
  /\ (lookup "format" (query req) = VUndefined ->
      delivers search_foods req st "foods/search/v3" "format" "json").
Proof.
  intros Hp Hq. repeat split.
  - intros n Hn Hlt.
    pose proof (search_foods_forwarded req st n Hq) as Heq.
    rewrite (supplied_when_above _ _ _ _ Hn Hlt) in Heq. specialize (Heq Hn).
    rewrite (clamp_above n (num 20) 50 ltac:(lia) Hlt) in Heq. delivers_by Heq Hp.
  - intros Hmax.
    pose proof (search_foods_forwarded req st (num 20) Hq) as Heq.
    rewrite Hmax in Heq. specialize (Heq eq_refl). delivers_by Heq Hp.
  - intros Hpage. destruct (ToNumber_withDefault _ "max_results" (num 20) Hp) as [n Hn].
    pose proof (search_foods_forwarded req st n Hq Hn) as Heq.
    rewrite Hpage in Heq. delivers_by Heq Hp.
  - intros Hformat. destruct (ToNumber_withDefault _ "max_results" (num 20) Hp) as [n Hn].
    pose proof (search_foods_forwarded req st n Hq Hn) as Heq.
    rewrite Hformat in Heq. delivers_by Heq Hp.
Qed.

Lemma autocomplete_foods_delivers (req : InRequest) (st : State) :
  printable_query (query req) ->
  truthy (lookup "q" (query req)) = true ->
  (forall n,
     ToNumber (lookup "max_results" (query req)) = Normal n ->
     num_lt (num 10) n = true ->
     delivers autocomplete_foods req st "food/autocomplete/v2" "max_results"
              (NumberToString (num 10)))
  /\ (lookup "max_results" (query req) = VUndefined ->
      delivers autocomplete_foods req st "food/autocomplete/v2" "max_results"
               (NumberToString (num 4)))
  /\ (lookup "format" (query req) = VUndefined ->
      delivers autocomplete_foods req st "food/autocomplete/v2" "format" "json").
Proof.
  intros Hp Hq. repeat split.
  - intros n Hn Hlt.
    pose proof (autocomplete_foods_forwarded req st n Hq) as Heq.
    rewrite (supplied_when_above _ _ _ _ Hn Hlt) in Heq. specialize (Heq Hn).
    rewrite (clamp_above n (num 4) 10 ltac:(lia) Hlt) in Heq. delivers_by Heq Hp.
  - intros Hmax.
    pose proof (autocomplete_foods_forwarded req st (num 4) Hq) as Heq.
    rewrite Hmax in Heq. specialize (Heq eq_refl). delivers_by Heq Hp.
  - intros Hformat. destruct (ToNumber_withDefault _ "max_results" (num 4) Hp) as [n Hn].
    pose proof (autocomplete_foods_forwarded req st n Hq Hn) as Heq.
    rewrite Hformat in Heq. delivers_by Heq Hp.
Qed.

Lemma search_recipes_delivers (req : InRequest) (st : State) :
  printable_query (query req) ->
  (forall n,
     ToNumber (lookup "max_results" (query req)) = Normal n ->
     num_lt (num 50) n = true ->
     delivers search_recipes req st "recipes/search/v3" "max_results"
              (NumberToString (num 50)))
  /\ (lookup "max_results" (query req) = VUndefined ->
      delivers search_recipes req st "recipes/search/v3" "max_results"
               (NumberToString (num 20)))
  /\ (lookup "page" (query req) = VUndefined ->
      delivers search_recipes req st "recipes/search/v3" "page_number"
               (NumberToString (num 0)))
  /\ (lookup "format" (query req) = VUndefined ->
      delivers search_recipes req st "recipes/search/v3" "format" "json").
Proof.
  intros Hp. repeat split.
  - intros n Hn Hlt.
    pose proof (search_recipes_forwarded req st n) as Heq.
    rewrite (supplied_when_above _ _ _ _ Hn Hlt) in Heq. specialize (Heq Hn).
    rewrite (clamp_above n (num 20) 50 ltac:(lia) Hlt) in Heq. delivers_by Heq Hp.
  - intros Hmax.
    pose proof (search_recipes_forwarded req st (num 20)) as Heq.
    rewrite Hmax in Heq. specialize (Heq eq_refl). delivers_by Heq Hp.
  - intros Hpage. destruct (ToNumber_withDefault _ "max_results" (num 20) Hp) as [n Hn].
    pose proof (search_recipes_forwarded req st n Hn) as Heq.
    rewrite Hpage in Heq. delivers_by Heq Hp.
  - intros Hformat. destruct (ToNumber_withDefault _ "max_results" (num 20) Hp) as [n Hn].
    pose proof (search_recipes_forwarded req st n Hn) as Heq.
    rewrite Hformat in Heq. delivers_by Heq Hp.
Qed.

(** C4. On the three routes that take [max_results], whenever the
    number of the value supplied exceeds the cap of the route (50 for food
    search and recipe search, 10 for autocomplete), every call the route
    makes to the REST API carries the cap as [max_results]; and whenever a
    parameter that has a default is left out, every such call carries the
    default ([max_results] 20, 4 and 20; [page_number] 0; [format]
    [json]).  And the call is made: for a request whose parameters print
    and, on the two food routes, whose [q] is not empty, the route issues,
    once [getAccessToken] has yielded a token, exactly one call to the
    REST API, which carries the cap or the default. *)
Theorem max_results_clamped_and_defaults_filled (req : InRequest) (st : State) :
  ((forall n,
      ToNumber (lookup "max_results" (query req)) = Normal n ->
      num_lt (num 50) n = true ->
      sends search_foods req st "max_results" (NumberToString (num 50)))
   /\ (lookup "max_results" (query req) = VUndefined ->
       sends search_foods req st "max_results" (NumberToString (num 20)))
   /\ (lookup "page" (query req) = VUndefined ->
       sends search_foods req st "page_number" (NumberToString (num 0)))
   /\ (lookup "format" (query req) = VUndefined ->
       sends search_foods req st "format" "json"))
  /\ ((forall n,
         ToNumber (lookup "max_results" (query req)) = Normal n ->
         num_lt (num 10) n = true ->
         sends autocomplete_foods req st "max_results" (NumberToString (num 10)))
      /\ (lookup "max_results" (query req) = VUndefined ->
          sends autocomplete_foods req st "max_results" (NumberToString (num 4)))
      /\ (lookup "format" (query req) = VUndefined ->
          sends autocomplete_foods req st "format" "json"))
  /\ ((forall n,
         ToNumber (lookup "max_results" (query req)) = Normal n ->
         num_lt (num 50) n = true ->
         sends search_recipes req st "max_results" (NumberToString (num 50)))
      /\ (lookup "max_results" (query req) = VUndefined ->
          sends search_recipes req st "max_results" (NumberToString (num 20)))
      /\ (lookup "page" (query req) = VUndefined ->
          sends search_recipes req st "page_number" (NumberToString (num 0)))
      /\ (lookup "format" (query req) = VUndefined ->
          sends search_recipes req st "format" "json"))
  /\ (printable_query (query req) ->
      (truthy (lookup "q" (query req)) = true ->
       (forall n,
          ToNumber (lookup "max_results" (query req)) = Normal n ->
          num_lt (num 50) n = true ->
          delivers search_foods req st "foods/search/v3" "max_results"
                   (NumberToString (num 50)))
       /\ (lookup "max_results" (query req) = VUndefined ->
           delivers search_foods req st "foods/search/v3" "max_results"
                    (NumberToString (num 20)))
       /\ (lookup "page" (query req) = VUndefined ->
           delivers search_foods req st "foods/search/v3" "page_number"
                    (NumberToString (num 0)))
       /\ (lookup "format" (query req) = VUndefined ->
           delivers search_foods req st "foods/search/v3" "format" "json"))
      /\ (truthy (lookup "q" (query req)) = true ->
          (forall n,
             ToNumber (lookup "max_results" (query req)) = Normal n ->
             num_lt (num 10) n = true ->
             delivers autocomplete_foods req st "food/autocomplete/v2" "max_results"
                      (NumberToString (num 10)))
          /\ (lookup "max_results" (query req) = VUndefined ->
              delivers autocomplete_foods req st "food/autocomplete/v2" "max_results"
                       (NumberToString (num 4)))
          /\ (lookup "format" (query req) = VUndefined ->
              delivers autocomplete_foods req st "food/autocomplete/v2" "format" "json"))
      /\ ((forall n,
             ToNumber (lookup "max_results" (query req)) = Normal n ->
             num_lt (num 50) n = true ->
             delivers search_recipes req st "recipes/search/v3" "max_results"
                      (NumberToString (num 50)))
          /\ (lookup "max_results" (query req) = VUndefined ->
              delivers search_recipes req st "recipes/search/v3" "max_results"
                       (NumberToString (num 20)))
          /\ (lookup "page" (query req) = VUndefined ->
              delivers search_recipes req st "recipes/search/v3" "page_number"
                       (NumberToString (num 0)))
          /\ (lookup "format" (query req) = VUndefined ->
              delivers search_recipes req st "recipes/search/v3" "format" "json"))).
Proof.
  split; [| split; [| split]].
  - apply search_foods_sends.
  - apply autocomplete_foods_sends.
  - apply search_recipes_sends.
  - intros Hp. split; [| split].
    + intros Hq. exact (search_foods_delivers req st Hp Hq).
    + intros Hq. exact (autocomplete_foods_delivers req st Hp Hq).
    + exact (search_recipes_delivers req st Hp).
Qed.

(** ** Further properties of the token manager *)

Lemma getAccessToken_hit (st : State) :
  cache_hit st = true -> getAccessToken st = (Normal (cachedToken st), st).
Proof.
  unfold cache_hit, getAccessToken. intros ->. reflexivity.
Qed.

Lemma getAccessToken_denied (st : State) (r : Response) :
  cache_hit st = false ->
  network token_request = Resolved r ->
  ok r = false ->
  getAccessToken st
  = (match text r with
     | Normal errText =>
         Throw (new_Error ("Failed to fetch token: "
                           ++ NumberToString (num (status r)) ++ " " ++ errText))
     | Throw e => Throw e
     end,
     sent st token_request).
Proof.
  intros Hmiss Hnet Hok. rewrite (getAccessToken_miss st Hmiss).
  unfold_monad. rewrite Hnet. simpl. rewrite Hok. simpl.
  destruct (text r); reflexivity.
Qed.

Lemma getAccessToken_unreachable (st : State) (e : JsError) :
  cache_hit st = false ->
  network token_request = Rejected e ->
  getAccessToken st = (Throw e, sent st token_request).
Proof.
  intros Hmiss Hnet. rewrite (getAccessToken_miss st Hmiss).
  unfold_monad. rewrite Hnet. reflexivity.
Qed.

Lemma list_not_longer {A} (l : list A) (x : A) : l <> (l ++ [x])%list.
Proof.
  intros H. apply (f_equal (@length A)) in H. rewrite length_app in H. simpl in H. lia.
Qed.

(** A call that sent the token request found the test of line 28
    failing. *)
Lemma token_request_sent_on_miss (st : State) :
  outbound (snd (getAccessToken st)) = (outbound st ++ [token_request])%list ->
  cache_hit st = false.
Proof.
  destruct (cache_hit st) eqn:Hhit; [| reflexivity].
  rewrite (getAccessToken_hit st Hhit). simpl. intros H.
  destruct (list_not_longer _ _ H).
Qed.

(** A cache cell is written only after a success status. *)
Lemma cache_written_on_success (st : State) :
  cache (snd (getAccessToken st)) <> cache st ->
  exists r, network token_request = Resolved r /\ ok r = true.
Proof.
  destruct (cache_hit st) eqn:Hhit.
  - rewrite (getAccessToken_hit st Hhit). intros H. contradiction H. reflexivity.
  - rewrite (getAccessToken_miss st Hhit). unfold_monad.
    destruct (network token_request) as [r | e]; simpl;
      [| intros H; contradiction H; reflexivity].
    destruct (ok r) eqn:Hok; simpl;
      [| destruct (text r); intros H; contradiction H; reflexivity].
    intros _. exists r. split; [reflexivity | exact Hok].
Qed.

(** X3. Whatever the cache holds and whatever the network answers, one
    call of [getAccessToken] issues no fetch or exactly one, and that one
    is the token request; it never calls the REST API and never writes to
    the console. *)
Theorem getAccessToken_fetches_token_request_only (st : State) :
  console (snd (getAccessToken st)) = console st
  /\ exists calls,
       outbound (snd (getAccessToken st)) = (outbound st ++ calls)%list
       /\ (calls = [] \/ calls = [token_request])
       /\ forall u, In u calls -> is_upstream u = false.
Proof.
  destruct (getAccessToken_calls st) as [[H | H] Hconsole]; split; try exact Hconsole.
  - exists []. rewrite app_nil_r. split; [exact H | split; [left; reflexivity |]].
    intros u [].
  - exists [token_request]. split; [exact H | split; [right; reflexivity |]].
    intros u [<- | []]. apply token_request_not_upstream.
Qed.

(** X4. The two cache cells are not written together.  When the token
    response is a JSON object whose [expires_in] cannot be converted to a
    number, [getAccessToken] throws the conversion error after it has
    replaced [cachedToken] and before it writes [tokenExpiresAt]: the new
    token sits in the cache with the old expiry. *)
Theorem failed_conversion_leaves_new_token_with_old_expiry
    (st : State) (r : Response) (fields : list (string * JsVal)) (e : JsError) :
  cache_hit st = false ->
  network token_request = Resolved r ->
  ok r = true ->
  json r = Normal (VObj fields) ->
  ToNumber (lookup "expires_in" fields) = Throw e ->
  fst (getAccessToken st) = Throw e
  /\ cachedToken (snd (getAccessToken st)) = lookup "access_token" fields
  /\ tokenExpiresAt (snd (getAccessToken st)) = tokenExpiresAt st.
Proof.
  intros Hmiss Hnet Hok Hjson Hconv. rewrite (getAccessToken_miss st Hmiss).
  unfold_monad. rewrite Hnet. simpl. rewrite Hok. simpl. rewrite Hjson. simpl.
  rewrite Hconv. repeat split.
Qed.

(** ** Further properties of the routes *)

(** An [exchange] always replies. *)
Lemma exchange_replies build label msg st :
  exists reply, fst (exchange build label msg st) = Normal reply.
Proof.
  rewrite exchange_run.
  destruct (getAccessToken st) as [[tok | e] st1]; [| eexists; reflexivity].
  destruct (build tok) as [rq | e]; [| eexists; reflexivity].
  destruct (network rq) as [r | e]; [| eexists; reflexivity].
  destruct (json r); eexists; reflexivity.
Qed.

(** The calls of an [exchange]: those of [getAccessToken], then at most
    the request built. *)
Lemma exchange_calls build label msg st :
  upstream_only build ->
  exists calls,
    outbound (snd (exchange build label msg st)) = (outbound st ++ calls)%list
    /\ (calls = [] \/ calls = [token_request]
        \/ exists u, is_upstream u = true /\ (calls = [u] \/ calls = [token_request; u])).
Proof.
  intros Hb. rewrite exchange_run.
  destruct (getAccessToken_calls st) as [Hcalls _].
  destruct (getAccessToken st) as [[tok | e] st1]; simpl in Hcalls.
  - destruct (build tok) as [rq | e] eqn:Hrq.
    + assert (Hout : outbound (sent st1 rq) = (outbound st1 ++ [rq])%list) by reflexivity.
      assert (Hsent : exists calls,
                 outbound (sent st1 rq) = (outbound st ++ calls)%list
                 /\ (calls = [rq] \/ calls = [token_request; rq])).
      { rewrite Hout. destruct Hcalls as [-> | ->].
        - exists [rq]. auto.
        - exists [token_request; rq]. rewrite <- app_assoc. auto. }
      destruct Hsent as (calls & Hc & Hform). exists calls.
      split.
      * destruct (network rq) as [r | e]; [destruct (json r) |]; exact Hc.
      * right. right. exists rq. split; [exact (Hb tok rq Hrq) | exact Hform].
    + destruct Hcalls as [H | H].
      * exists []. rewrite app_nil_r. simpl. auto.
      * exists [token_request]. simpl. auto.
  - destruct Hcalls as [H | H].
    + exists []. rewrite app_nil_r. simpl. auto.
    + exists [token_request]. simpl. auto.
Qed.

(** X7. One inbound request makes at most two fetches, in a fixed
    order: the token request, if the cache had to be refreshed, then at
    most one call to the REST API.  No route repeats a call. *)
Theorem at_most_one_upstream_call m p handler :
  In (m, p, handler) routes ->
  forall req st,
    exists calls,
      outbound (snd (handler req st)) = (outbound st ++ calls)%list
      /\ (calls = [] \/ calls = [token_request]
          \/ exists u, is_upstream u = true /\ (calls = [u] \/ calls = [token_request; u])).
Proof.
  intros Hroute req st.
  destruct (routes_shape m p handler Hroute) as (label & msg & Hshape).
  destruct (Hshape req st) as [Hst | (build & Hb & Heq)].
  - exists []. rewrite Hst, app_nil_r. auto.
  - rewrite Heq. apply exchange_calls. exact Hb.
Qed.

(** X8. A route writes to the console only from its catch block: a
    run either leaves the console as it was, or appends one line under
    the route's label and replies with the route's 500. *)
Theorem console_written_only_with_500 m p handler :
  In (m, p, handler) routes ->
  exists label msg,
    forall req st,
      console (snd (handler req st)) = console st
      \/ exists e,
           console (snd (handler req st)) = (console st ++ [(label, e)])%list
           /\ fst (handler req st) = Normal (mkReply 500 (error_body msg)).
Proof.
  intros Hroute.
  destruct (routes_shape m p handler Hroute) as (label & msg & Hshape).
  exists label, msg. intros req st.
  destruct (Hshape req st) as [Hst | (build & _ & Heq)].
  - left. rewrite Hst. reflexivity.
  - rewrite Heq, exchange_run.
    destruct (getAccessToken_calls st) as [_ Hconsole].
    destruct (getAccessToken st) as [[tok | e] st1]; simpl in Hconsole.
    + destruct (build tok) as [rq | e].
      * destruct (network rq) as [r | e]; [destruct (json r) as [data | e] |];
          simpl; rewrite Hconsole; eauto.
      * simpl. rewrite Hconsole. eauto.
    + simpl. rewrite Hconsole. eauto.
Qed.

(** X6. When a route reaches its try block and the token request is
    answered with a non-success status, the client gets the route's fixed
    500, the status and body text of the OAuth answer go to the console
    only (the error of [response.text()] when the body cannot be read),
    and the REST API is not called. *)
Theorem token_failure_answered_with_500 m p handler :
  In (m, p, handler) routes ->
  exists label msg,
    forall req st calls r,
      outbound (snd (handler req st)) = (outbound st ++ calls)%list ->
      In token_request calls ->
      network token_request = Resolved r ->
      ok r = false ->
      fst (handler req st) = Normal (mkReply 500 (error_body msg))
      /\ (forall errText,
            text r = Normal errText ->
            console (snd (handler req st))
            = (console st
               ++ [(label, new_Error ("Failed to fetch token: "
                                      ++ NumberToString (num (status r))
                                      ++ " " ++ errText))])%list)
      /\ (forall e,
            text r = Throw e ->
            console (snd (handler req st)) = (console st ++ [(label, e)])%list)
      /\ calls = [token_request].
Proof.
  intros Hroute.
  destruct (routes_shape m p handler Hroute) as (label & msg & Hshape).
  exists label, msg. intros req st calls r Hcalls Hin Hnet Hok.
  destruct (Hshape req st) as [Hst | (build & Hb & Heq)].
  - rewrite Hst in Hcalls. destruct (no_new_calls st calls _ Hcalls Hin).
  - rewrite Heq in *.
    assert (Hmiss : cache_hit st = false).
    { destruct (cache_hit st) eqn:Hhit; [| reflexivity]. exfalso.
      rewrite exchange_run, (getAccessToken_hit st Hhit) in Hcalls.
      assert (Hup : forall u, In u calls -> is_upstream u = true).
      { destruct (build (cachedToken st)) as [rq | e] eqn:Hrq.
        - assert (Hc : (outbound st ++ [rq])%list = (outbound st ++ calls)%list).
          { destruct (network rq) as [r' | e']; [destruct (json r') |]; exact Hcalls. }
          apply app_inv_head in Hc. subst calls.
          intros u [<- | []]. exact (Hb _ _ Hrq).
        - intros u Hu. destruct (no_new_calls st calls u Hcalls Hu). }
      specialize (Hup _ Hin). rewrite token_request_not_upstream in Hup. discriminate. }
    rewrite exchange_run, (getAccessToken_denied st r Hmiss Hnet Hok) in *.
    destruct (text r) as [errText | e'];
      simpl in Hcalls; apply app_inv_head in Hcalls; subst calls;
      repeat split; intros x Hx; inversion Hx; reflexivity.
Qed.

(** X9. A route writes the token cache only through a successful
    refresh: whenever a run leaves a cache cell changed, the token request
    was answered with a success status. *)
Theorem routes_write_cache_only_on_success m p handler :
  In (m, p, handler) routes ->
  forall req st,
    cache (snd (handler req st)) <> cache st ->
    exists r, network token_request = Resolved r /\ ok r = true.
Proof.
  intros Hroute req st.
  destruct (routes_shape m p handler Hroute) as (label & msg & Hshape).
  destruct (Hshape req st) as [Hst | (build & _ & Heq)].
  - rewrite Hst. intros H. contradiction H. reflexivity.
  - rewrite Heq, exchange_run. intros Hchanged.
    apply (cache_written_on_success st).
    destruct (getAccessToken st) as [[tok | e] st1]; simpl.
    + destruct (build tok) as [rq | e]; [| exact Hchanged].
      destruct (network rq) as [r | e]; [destruct (json r) |]; exact Hchanged.
    + exact Hchanged.
Qed.

(** ** Where the routes call, and with which token *)

Lemma rest_build_targets path query :
  targets (rest_build path query) ("https://platform.fatsecret.com/rest/" ++ path).
Proof.
  intros tok rq. unfold rest_build.
  destruct (set_query query []); [| discriminate].
  destruct (ToString tok) as [b | e]; [| discriminate].
  intros H. injection H as <-. split; [reflexivity |].
  exists b. split; reflexivity.
Qed.

Lemma post_build_targets address fields : targets (post_build address fields) address.
Proof.
  intros tok rq. unfold post_build.
  destruct (ToString tok) as [b | e]; [| discriminate].
  intros H. injection H as <-. split; [reflexivity |].
  exists b. split; reflexivity.
Qed.

Lemma targets_upstream_only build address : targets build address -> upstream_only build.
Proof.
  intros Ht tok rq Hrq. destruct (Ht tok rq Hrq) as (_ & b & _ & Hhd).
  unfold is_upstream. destruct (headers rq) as [| [k v] rest]; [discriminate |].
  simpl in Hhd. injection Hhd as -> ->. reflexivity.
Qed.

Ltac forwarded_to :=
  right; eexists; split; cycle 1; [apply forwarded_exchange | apply rest_build_targets].

Ltac posted_to :=
  right; eexists; split; cycle 1; [apply posted_exchange | apply post_build_targets].

(** Every route of the table calls one address of the REST API. *)
Lemma routes_target m p handler :
  In (m, p, handler) routes ->
  exists label msg address,
    route_target handler label msg address
    /\ starts_with "https://platform.fatsecret.com/rest/" address = true.
Proof.
  unfold routes. intros Hin.
  repeat (destruct Hin as [Hin | Hin]; [injection Hin as <- <- <- |]);
    try contradiction; do 3 eexists; (split; [| shelve]); intros req st.
  - unfold search_foods. step.
    guarded_by (truthy (lookup "q" (query req))).
    destruct (ToNumber _) as [n | e];
      rewrite ?bind_lift_normal, ?bind_lift_throw; [forwarded_to | left; reflexivity].
  - unfold autocomplete_foods. step.
    guarded_by (truthy (lookup "q" (query req))).
    destruct (ToNumber _) as [n | e];
      rewrite ?bind_lift_normal, ?bind_lift_throw; [forwarded_to | left; reflexivity].
  - unfold find_food_by_barcode. step.
    destruct (barcode_refused _) as [[|] | e];
      rewrite ?bind_lift_normal, ?bind_lift_throw;
      [left; reflexivity | forwarded_to | left; reflexivity].
  - unfold food_details. step.
    guarded_by (truthy (lookup "id" (query req))). forwarded_to.
  - unfold food_brands. step.
    guarded_by (truthy (lookup "starts_with" (query req))). forwarded_to.
  - unfold food_categories. step. forwarded_to.
  - unfold food_sub_categories. step.
    guarded_by (truthy (lookup "food_category_id" (query req))). forwarded_to.
  - unfold recipe_details. step.
    guarded_by (truthy (lookup "id" (query req))). forwarded_to.
  - unfold search_recipes. step.
    destruct (ToNumber _) as [n | e];
      rewrite ?bind_lift_normal, ?bind_lift_throw; [forwarded_to | left; reflexivity].
  - unfold recipe_types. step. forwarded_to.
  - unfold nlp.
    destruct (req_body req) as [| | b | n | s | items | fields];
      unfold getProp; rewrite ?bind_lift_normal, ?bind_lift_throw;
      try (left; reflexivity).
    destruct (truthy _); [| left; reflexivity].
    destruct (is_string _); [| left; reflexivity].
    posted_to.
  - unfold image_recognition.
    destruct (req_body req) as [| | b | n | s | items | fields];
      unfold getProp; rewrite ?bind_lift_normal, ?bind_lift_throw;
      try (left; reflexivity).
    destruct (truthy _); [| left; reflexivity].
    destruct (is_string _); [| left; reflexivity].
    posted_to.
    Unshelve. all: reflexivity.
Qed.

(** X10. The call a route makes to the REST API carries, as bearer
    credentials, the very token [getAccessToken] returned for this
    request: the cached one on a hit, the fresh one after a refresh. *)
Theorem upstream_call_carries_current_token m p handler :
  In (m, p, handler) routes ->
  forall req st calls u,
    outbound (snd (handler req st)) = (outbound st ++ calls)%list ->
    In u calls ->
    is_upstream u = true ->
    exists token st1 bearer,
      getAccessToken st = (Normal token, st1)
      /\ ToString token = Normal bearer
      /\ hd_error (headers u) = Some ("Authorization", "Bearer " ++ bearer).
Proof.
  intros Hroute req st calls u Hcalls Hin Hup.
  destruct (routes_target m p handler Hroute) as (label & msg & address & Htarget & _).
  destruct (Htarget req st) as [Hst | (build & Hb & Heq)].
  - rewrite Hst in Hcalls. destruct (no_new_calls st calls u Hcalls Hin).
  - rewrite Heq in Hcalls.
    destruct (exchange_upstream_call _ _ _ _ _ _ Hcalls Hin Hup)
      as (tok & st1 & Htok & Hrq & _).
    destruct (Hb tok u Hrq) as (_ & b & Hprint & Hhd).
    exists tok, st1, b. auto.
Qed.

(** X11. Each route has one address under
    [https://platform.fatsecret.com/rest/], fixed before the request is
    known, and every fetch of a run goes either to it or to the token
    endpoint: nothing in the request can redirect a call. *)
Theorem calls_go_to_fixed_addresses m p handler :
  In (m, p, handler) routes ->
  exists address,
    starts_with "https://platform.fatsecret.com/rest/" address = true
    /\ forall req st calls u,
         outbound (snd (handler req st)) = (outbound st ++ calls)%list ->
         In u calls ->
         u = token_request \/ href (url u) = address.
Proof.
  intros Hroute.
  destruct (routes_target m p handler Hroute) as (label & msg & address & Htarget & Hbase).
  exists address. split; [exact Hbase |].
  intros req st calls u Hcalls Hin.
  destruct (Htarget req st) as [Hst | (build & Hb & Heq)].
  - rewrite Hst in Hcalls. destruct (no_new_calls st calls u Hcalls Hin).
  - rewrite Heq in Hcalls.
    destruct (is_upstream u) eqn:Hup.
    + right.
      destruct (exchange_upstream_call _ _ _ _ _ _ Hcalls Hin Hup)
        as (tok & st1 & _ & Hrq & _).
      exact (proj1 (Hb tok u Hrq)).
    + left.
      destruct (exchange_calls build label msg st (targets_upstream_only _ _ Hb))
        as (calls' & Hcalls' & Hform).
      rewrite Hcalls' in Hcalls. apply app_inv_head in Hcalls. subst calls'.
      destruct Hform as [-> | [-> | (v & Hv & [-> | ->])]].
      * destruct Hin.
      * destruct Hin as [<- | []]. reflexivity.
      * destruct Hin as [<- | []]. congruence.
      * destruct Hin as [<- | [<- | []]]; [reflexivity | congruence].
Qed.

(** ** The loop that builds the query string *)

Lemma searchParams_set_fresh key value params :
  ~ In key (map fst params) ->
  searchParams_set key value params = (params ++ [(key, value)])%list.
Proof.
  induction params as [| [k v] rest IH]; simpl; intros Hfresh; [reflexivity |].
  destruct (String.eqb_spec k key) as [-> | Hk]; [destruct Hfresh; auto |].
  rewrite IH; [reflexivity | intros H; apply Hfresh; auto].
Qed.

Lemma set_query_fresh query : forall params ps,
  NoDup (map fst params ++ map fst query) ->
  set_query query params = Normal ps ->
  exists added,
    ps = (params ++ added)%list
    /\ Forall2 (fun kv ks => fst ks = fst kv /\ ToString (snd kv) = Normal (snd ks))
         (filter (fun kv => is_defined (snd kv)) query) added.
Proof.
  induction query as [| [k v] rest IH]; intros params ps Hnodup Hset; simpl in *.
  - injection Hset as <-. exists []. rewrite app_nil_r. split; constructor.
  - assert (Hk : ~ In k (map fst params)).
    { intros Hin. apply NoDup_remove_2 in Hnodup. apply Hnodup.
      apply in_or_app. left. exact Hin. }
    destruct (is_defined v) eqn:Hdef.
    + destruct (ToString v) as [sv | e] eqn:Hv; [| discriminate].
      rewrite (searchParams_set_fresh k sv params Hk) in Hset.
      destruct (IH (params ++ [(k, sv)])%list ps) as (added & -> & Hall).
      * rewrite map_app, <- app_assoc. exact Hnodup.
      * exact Hset.
      * exists ((k, sv) :: added). rewrite <- app_assoc. split; [reflexivity |].
        constructor; [split; [reflexivity | exact Hv] | exact Hall].
    + apply (IH params ps); [| exact Hset].
      apply NoDup_remove_1 in Hnodup. exact Hnodup.
Qed.

(** X5. For an object literal with distinct names, the loop of lines
    59-63 produces exactly one pair per property whose value is not
    [undefined], in the order of the literal, each under its own name
    with [String(value)] as its value; properties that are [undefined]
    leave no trace, so the text [undefined] is never sent. *)
Theorem set_query_keeps_defined_entries query ps :
  NoDup (map fst query) ->
  set_query query [] = Normal ps ->
  Forall2 (fun kv ks => fst ks = fst kv /\ ToString (snd kv) = Normal (snd ks))
    (filter (fun kv => is_defined (snd kv)) query) ps.
Proof.
  intros Hnodup Hset.
  destruct (set_query_fresh query [] ps Hnodup Hset) as (added & -> & Hall).
  exact Hall.
Qed.

Lemma last_defined_in key query v :
  last_defined key query = Some v -> In (key, v) query /\ is_defined v = true.
Proof.
  induction query as [| [k w] rest IH]; simpl; [discriminate |].
  destruct (last_defined key rest) as [v' |].
  - intros H. injection H as ->. destruct (IH eq_refl). auto.
  - destruct (String.eqb_spec k key) as [-> | Hk]; simpl; [| discriminate].
    destruct (is_defined w) eqn:Hw; [| discriminate].
    intros H. injection H as ->. auto.
Qed.

(** A name with no defined entry is absent from the call. *)
Lemma forwarded_absent path query label msg st calls u key :
  outbound (snd (exchange (rest_build path query) label msg st))
  = (outbound st ++ calls)%list ->
  In u calls ->
  is_upstream u = true ->
  last_defined key query = None ->
  searchParams_get key (searchParams (url u)) = None.
Proof.
  intros Hcalls Hin Hup Hlast.
  destruct (forwarded_call _ _ _ _ _ _ _ Hcalls Hin Hup) as (ps & b & Hps & ->).
  simpl. rewrite (set_query_get _ _ _ key Hps), Hlast. reflexivity.
Qed.

(** ** The try blocks of the remaining GET routes *)

Lemma find_food_by_barcode_forwarded (req : InRequest) (st : State) :
  barcode_refused (lookup "barcode" (query req)) = Normal false ->
  find_food_by_barcode req st
  = exchange
      (rest_build "food/barcode/find-by-id/v1"
         [("barcode", lookup "barcode" (query req));
          ("region", lookup "region" (query req));
          ("language", lookup "language" (query req));
          ("format", withDefault (lookup "format" (query req)) (VStr "json"))])
      "FatSecret /find-food-by-barcode REST error:"
      "Internal error while finding food by barcode" st.
Proof.
  intros Hpass. unfold find_food_by_barcode. step. rewrite Hpass, bind_lift_normal.
  apply forwarded_exchange.
Qed.

Lemma food_details_forwarded (req : InRequest) (st : State) :
  truthy (lookup "id" (query req)) = true ->
  food_details req st
  = exchange
      (rest_build "food/v4"
         [("food_id", lookup "id" (query req));
          ("format", withDefault (lookup "format" (query req)) (VStr "json"));
          ("include_sub_categories", lookup "include_sub_categories" (query req));
          ("include_food_images", lookup "include_food_images" (query req));
          ("include_food_attributes", lookup "include_food_attributes" (query req));
          ("flag_default_serving", lookup "flag_default_serving" (query req));
          ("region", lookup "region" (query req));
          ("language", lookup "language" (query req))])
      "FatSecret /food-details REST error:" "Internal error while getting food details" st.
Proof.
  intros Hid. unfold food_details. step. rewrite Hid. apply forwarded_exchange.
Qed.

Lemma food_brands_forwarded (req : InRequest) (st : State) :
  truthy (lookup "starts_with" (query req)) = true ->
  food_brands req st
  = exchange
      (rest_build "brands/v2"
         [("starts_with", lookup "starts_with" (query req));
          ("brand_type", lookup "brand_type" (query req));
          ("region", lookup "region" (query req));
          ("language", lookup "language" (query req));
          ("format", withDefault (lookup "format" (query req)) (VStr "json"))])
      "FatSecret /food-brands REST error:" "Internal error while fetching food brands" st.
Proof.
  intros H. unfold food_brands. step. rewrite H. apply forwarded_exchange.
Qed.

Lemma food_categories_forwarded (req : InRequest) (st : State) :
  food_categories req st
  = exchange
      (rest_build "food-categories/v2"
         [("region", lookup "region" (query req));
          ("language", lookup "language" (query req));
          ("format", withDefault (lookup "format" (query req)) (VStr "json"))])
      "FatSecret /food-categories REST error:"
      "Internal error while fetching food categories" st.
Proof. unfold food_categories. step. apply forwarded_exchange. Qed.

Lemma food_sub_categories_forwarded (req : InRequest) (st : State) :
  truthy (lookup "food_category_id" (query req)) = true ->
  food_sub_categories req st
  = exchange
      (rest_build "food-sub-categories/v2"
         [("food_category_id", lookup "food_category_id" (query req));
          ("region", lookup "region" (query req));
          ("language", lookup "language" (query req));
          ("format", withDefault (lookup "format" (query req)) (VStr "json"))])
      "FatSecret /food-sub-categories REST error:"
      "Internal error while fetching food sub-categories" st.
Proof.
  intros H. unfold food_sub_categories. step. rewrite H. apply forwarded_exchange.
Qed.

Lemma recipe_details_forwarded (req : InRequest) (st : State) :
  truthy (lookup "id" (query req)) = true ->
  recipe_details req st
  = exchange
      (rest_build "recipe/v2"
         [("recipe_id", lookup "id" (query req));
          ("region", lookup "region" (query req));
          ("format", withDefault (lookup "format" (query req)) (VStr "json"))])
      "FatSecret /recipe-details REST error:"
      "Internal error while getting recipe details" st.
Proof.
  intros H. unfold recipe_details. step. rewrite H. apply forwarded_exchange.
Qed.

Lemma recipe_types_forwarded (req : InRequest) (st : State) :
  recipe_types req st
  = exchange
      (rest_build "recipe-types/v2"
         [("format", withDefault (lookup "format" (query req)) (VStr "json"))])
      "FatSecret /recipe-types REST error:"
      "Internal error while fetching recipe types" st.
Proof. unfold recipe_types. step. apply forwarded_exchange. Qed.

(** ** Runs that stop before the try block *)

Lemma search_foods_throws (req : InRequest) (st : State) (e : JsError) :
  truthy (lookup "q" (query req)) = true ->
  ToNumber (withDefault (lookup "max_results" (query req)) (VNum (num 20))) = Throw e ->
  search_foods req st = (Throw e, st).
Proof.
  intros Hq Hn. unfold search_foods. step. rewrite Hq, Hn, bind_lift_throw. reflexivity.
Qed.

Lemma autocomplete_foods_throws (req : InRequest) (st : State) (e : JsError) :
  truthy (lookup "q" (query req)) = true ->
  ToNumber (withDefault (lookup "max_results" (query req)) (VNum (num 4))) = Throw e ->
  autocomplete_foods req st = (Throw e, st).
Proof.
  intros Hq Hn. unfold autocomplete_foods. step.
  rewrite Hq, Hn, bind_lift_throw. reflexivity.
Qed.

Lemma search_recipes_throws (req : InRequest) (st : State) (e : JsError) :
  ToNumber (withDefault (lookup "max_results" (query req)) (VNum (num 20))) = Throw e ->
  search_recipes req st = (Throw e, st).
Proof.
  intros Hn. unfold search_recipes. step. rewrite Hn, bind_lift_throw. reflexivity.
Qed.

Lemma find_food_by_barcode_stops (req : InRequest) (st : State) :
  barcode_refused (lookup "barcode" (query req)) <> Normal false ->
  snd (find_food_by_barcode req st) = st.
Proof.
  intros Hstop. unfold find_food_by_barcode. step.
  destruct (barcode_refused _) as [[|] | e];
    rewrite ?bind_lift_normal, ?bind_lift_throw; try reflexivity.
  contradiction Hstop. reflexivity.
Qed.

Lemma food_details_refused (req : InRequest) (st : State) :
  truthy (lookup "id" (query req)) = false -> snd (food_details req st) = st.
Proof. intros H. unfold food_details. step. rewrite H. reflexivity. Qed.

Lemma food_brands_refused (req : InRequest) (st : State) :
  truthy (lookup "starts_with" (query req)) = false -> snd (food_brands req st) = st.
Proof. intros H. unfold food_brands. step. rewrite H. reflexivity. Qed.

Lemma food_sub_categories_refused (req : InRequest) (st : State) :
  truthy (lookup "food_category_id" (query req)) = false ->
  snd (food_sub_categories req st) = st.
Proof. intros H. unfold food_sub_categories. step. rewrite H. reflexivity. Qed.

Lemma recipe_details_refused (req : InRequest) (st : State) :
  truthy (lookup "id" (query req)) = false -> snd (recipe_details req st) = st.
Proof. intros H. unfold recipe_details. step. rewrite H. reflexivity. Qed.

Lemma omits_nothing handler (req : InRequest) (st : State) (key : string) :
  snd (handler req st) = st -> omits handler req st key.
Proof.
  intros Hst calls u Hcalls Hin _. rewrite Hst in Hcalls.
  destruct (no_new_calls st calls u Hcalls Hin).
Qed.

(** ** How inbound names map to upstream names *)

Ltac stopped lemma := first [apply sends_nothing | apply omits_nothing]; apply lemma; assumption.

Ltac stopped_by_throw lemma :=
  first [apply sends_nothing | apply omits_nothing];
  erewrite lemma by eassumption; reflexivity.

(** X12. The required parameter of each GET route, and the page of the
    two searches, reach the REST API under the upstream name as the very
    string the client sent: [q] as [search_expression] (or [expression]
    for autocomplete), [page] as [page_number], [id] as [food_id] or
    [recipe_id], the others under their own name.  The page is neither
    checked nor capped.  Every call a route makes carries them so, and
    the call is made: for a request whose parameters print and whose
    required parameter passes the check of the route, the route issues,
    once [getAccessToken] has yielded a token, exactly one call to the
    REST API, at the path of the route, with the parameter under its
    upstream name. *)
Theorem parameters_renamed_for_upstream (req : InRequest) (st : State) (s : string) :
  (lookup "q" (query req) = VStr s -> sends search_foods req st "search_expression" s)
  /\ (lookup "page" (query req) = VStr s -> sends search_foods req st "page_number" s)
  /\ (lookup "q" (query req) = VStr s -> sends autocomplete_foods req st "expression" s)
  /\ (lookup "barcode" (query req) = VStr s ->
      sends find_food_by_barcode req st "barcode" s)
  /\ (lookup "id" (query req) = VStr s -> sends food_details req st "food_id" s)
  /\ (lookup "starts_with" (query req) = VStr s ->
      sends food_brands req st "starts_with" s)
  /\ (lookup "food_category_id" (query req) = VStr s ->
      sends food_sub_categories req st "food_category_id" s)
  /\ (lookup "id" (query req) = VStr s -> sends recipe_details req st "recipe_id" s)
  /\ (lookup "q" (query req) = VStr s -> sends search_recipes req st "search_expression" s)
  /\ (lookup "page" (query req) = VStr s -> sends search_recipes req st "page_number" s)
  /\ (printable_query (query req) ->
      s <> "" ->
      (lookup "q" (query req) = VStr s ->
       delivers search_foods req st "foods/search/v3" "search_expression" s)
      /\ (lookup "page" (query req) = VStr s ->
          truthy (lookup "q" (query req)) = true ->
          delivers search_foods req st "foods/search/v3" "page_number" s)
      /\ (lookup "q" (query req) = VStr s ->
          delivers autocomplete_foods req st "food/autocomplete/v2" "expression" s)
      /\ (lookup "barcode" (query req) = VStr s ->
          js_length s = 13%nat ->
          delivers find_food_by_barcode req st "food/barcode/find-by-id/v1" "barcode" s)
      /\ (lookup "id" (query req) = VStr s ->
          delivers food_details req st "food/v4" "food_id" s)
      /\ (lookup "starts_with" (query req) = VStr s ->
          delivers food_brands req st "brands/v2" "starts_with" s)
      /\ (lookup "food_category_id" (query req) = VStr s ->
          delivers food_sub_categories req st "food-sub-categories/v2"
                   "food_category_id" s)
      /\ (lookup "id" (query req) = VStr s ->
          delivers recipe_details req st "recipe/v2" "recipe_id" s)
      /\ (lookup "q" (query req) = VStr s ->
          delivers search_recipes req st "recipes/search/v3" "search_expression" s)
      /\ (lookup "page" (query req) = VStr s ->
          delivers search_recipes req st "recipes/search/v3" "page_number" s)).
Proof.
  split; [| split; [| split; [| split; [| split; [| split; [| split; [| split;
    [| split; [| split]]]]]]]]];
    [intros Hs .. | intros Hp Hne].
  - destruct (truthy (lookup "q" (query req))) eqn:Hq;
      [| stopped search_foods_refused].
    destruct (ToNumber (withDefault (lookup "max_results" (query req)) (VNum (num 20))))
      as [n | e] eqn:Hn; [| stopped_by_throw search_foods_throws].
    pose proof (search_foods_forwarded req st n Hq Hn) as Heq.
    rewrite Hs in Heq. sends_by Heq.
  - destruct (truthy (lookup "q" (query req))) eqn:Hq;
      [| stopped search_foods_refused].
    destruct (ToNumber (withDefault (lookup "max_results" (query req)) (VNum (num 20))))
      as [n | e] eqn:Hn; [| stopped_by_throw search_foods_throws].
    pose proof (search_foods_forwarded req st n Hq Hn) as Heq.
    rewrite Hs in Heq. sends_by Heq.
  - destruct (truthy (lookup "q" (query req))) eqn:Hq;
      [| stopped autocomplete_foods_refused].
    destruct (ToNumber (withDefault (lookup "max_results" (query req)) (VNum (num 4))))
      as [n | e] eqn:Hn; [| stopped_by_throw autocomplete_foods_throws].
    pose proof (autocomplete_foods_forwarded req st n Hq Hn) as Heq.
    rewrite Hs in Heq. sends_by Heq.
  - destruct (Nat.eqb (js_length s) 13) eqn:Hlen.
    + assert (Hpass : barcode_refused (lookup "barcode" (query req)) = Normal false).
      { rewrite Hs, barcode_refused_string, Hlen. reflexivity. }
      pose proof (find_food_by_barcode_forwarded req st Hpass) as Heq.
      rewrite Hs in Heq. sends_by Heq.
    + apply sends_nothing, find_food_by_barcode_stops.
      rewrite Hs, barcode_refused_string, Hlen. discriminate.
  - destruct (truthy (lookup "id" (query req))) eqn:Hq;
      [| stopped food_details_refused].
    pose proof (food_details_forwarded req st Hq) as Heq.
    rewrite Hs in Heq. sends_by Heq.
  - destruct (truthy (lookup "starts_with" (query req))) eqn:Hq;
      [| stopped food_brands_refused].
    pose proof (food_brands_forwarded req st Hq) as Heq.
    rewrite Hs in Heq. sends_by Heq.
  - destruct (truthy (lookup "food_category_id" (query req))) eqn:Hq;
      [| stopped food_sub_categories_refused].
    pose proof (food_sub_categories_forwarded req st Hq) as Heq.
    rewrite Hs in Heq. sends_by Heq.
  - destruct (truthy (lookup "id" (query req))) eqn:Hq;
      [| stopped recipe_details_refused].
    pose proof (recipe_details_forwarded req st Hq) as Heq.
    rewrite Hs in Heq. sends_by Heq.
  - destruct (ToNumber (withDefault (lookup "max_results" (query req)) (VNum (num 20))))
      as [n | e] eqn:Hn; [| stopped_by_throw search_recipes_throws].
    pose proof (search_recipes_forwarded req st n Hn) as Heq.
    rewrite Hs in Heq. sends_by Heq.
  - destruct (ToNumber (withDefault (lookup "max_results" (query req)) (VNum (num 20))))
      as [n | e] eqn:Hn; [| stopped_by_throw search_recipes_throws].
    pose proof (search_recipes_forwarded req st n Hn) as Heq.
    rewrite Hs in Heq. sends_by Heq.
  - pose proof (truthy_string s Hne) as Ht.
    repeat split.
    + intros Hs. rewrite <- Hs in Ht.
      destruct (ToNumber_withDefault _ "max_results" (num 20) Hp) as [n Hn].
      pose proof (search_foods_forwarded req st n Ht Hn) as Heq.
      rewrite Hs in Heq. delivers_by Heq Hp.
    + intros Hs Hq.
      destruct (ToNumber_withDefault _ "max_results" (num 20) Hp) as [n Hn].
      pose proof (search_foods_forwarded req st n Hq Hn) as Heq.
      rewrite Hs in Heq. delivers_by Heq Hp.
    + intros Hs. rewrite <- Hs in Ht.
      destruct (ToNumber_withDefault _ "max_results" (num 4) Hp) as [n Hn].
      pose proof (autocomplete_foods_forwarded req st n Ht Hn) as Heq.
      rewrite Hs in Heq. delivers_by Heq Hp.
    + intros Hs Hlen.
      assert (Hpass : barcode_refused (lookup "barcode" (query req)) = Normal false).
      { rewrite Hs, barcode_refused_string, Hlen. reflexivity. }
      pose proof (find_food_by_barcode_forwarded req st Hpass) as Heq.
      rewrite Hs in Heq. delivers_by Heq Hp.
    + intros Hs. rewrite <- Hs in Ht.
      pose proof (food_details_forwarded req st Ht) as Heq.
      rewrite Hs in Heq. delivers_by Heq Hp.
    + intros Hs. rewrite <- Hs in Ht.
      pose proof (food_brands_forwarded req st Ht) as Heq.
      rewrite Hs in Heq. delivers_by Heq Hp.
    + intros Hs. rewrite <- Hs in Ht.
      pose proof (food_sub_categories_forwarded req st Ht) as Heq.
      rewrite Hs in Heq. delivers_by Heq Hp.
    + intros Hs. rewrite <- Hs in Ht.
      pose proof (recipe_details_forwarded req st Ht) as Heq.
      rewrite Hs in Heq. delivers_by Heq Hp.
    + intros Hs.
      destruct (ToNumber_withDefault _ "max_results" (num 20) Hp) as [n Hn].
      pose proof (search_recipes_forwarded req st n Hn) as Heq.
      rewrite Hs in Heq. delivers_by Heq Hp.
    + intros Hs.
      destruct (ToNumber_withDefault _ "max_results" (num 20) Hp) as [n Hn].
      pose proof (search_recipes_forwarded req st n Hn) as Heq.
      rewrite Hs in Heq. delivers_by Heq Hp.
Qed.

Ltac absent_by Heq Hundef Hnot :=
  let calls := fresh "calls" in
  let u := fresh "u" in
  let Hcalls := fresh "Hcalls" in
  let Hin := fresh "Hin" in
  let Hup := fresh "Hup" in
  let E := fresh "E" in
  let Hentry := fresh "Hentry" in
  let Hdef := fresh "Hdef" in
  intros calls u Hcalls Hin Hup; rewrite Heq in Hcalls;
  eapply forwarded_absent; [exact Hcalls | exact Hin | exact Hup |];
  match goal with
  | |- last_defined ?k ?q = None =>
      destruct (last_defined k q) eqn:E; [exfalso | reflexivity]
  end;
  apply last_defined_in in E; destruct E as [Hentry Hdef];
  simpl in Hentry;
  repeat (destruct Hentry as [Hentry | Hentry];
          [injection Hentry as <- <-;
           first [rewrite Hundef in Hdef; discriminate Hdef
                 | apply Hnot; simpl; tauto] |]);
  exact Hentry.

(** X13. On every GET route, a name that the request does not carry
    is absent from the upstream query string,
    unless it is one of the names the route fills by itself (the renamed
    required parameter and the parameters with a default); in particular
    an omitted [region] or [language] is left out, not sent as some
    placeholder. *)
Theorem absent_parameters_not_forwarded (req : InRequest) (st : State) (k : string) :
  lookup k (query req) = VUndefined ->
  (~ In k ["search_expression"; "page_number"; "max_results"; "format"] ->
   omits search_foods req st k)
  /\ (~ In k ["expression"; "max_results"; "format"] -> omits autocomplete_foods req st k)
  /\ (~ In k ["format"] -> omits find_food_by_barcode req st k)
  /\ (~ In k ["food_id"; "format"] -> omits food_details req st k)
  /\ (~ In k ["format"] -> omits food_brands req st k)
  /\ (~ In k ["format"] -> omits food_categories req st k)
  /\ (~ In k ["format"] -> omits food_sub_categories req st k)
  /\ (~ In k ["recipe_id"; "format"] -> omits recipe_details req st k)
  /\ (~ In k ["search_expression"; "page_number"; "max_results"; "format"] ->
      omits search_recipes req st k)
  /\ (~ In k ["format"] -> omits recipe_types req st k).
Proof.
  intros Hundef. repeat split; intros Hnot.
  - destruct (truthy (lookup "q" (query req))) eqn:Hq;
      [| stopped search_foods_refused].
    destruct (ToNumber (withDefault (lookup "max_results" (query req)) (VNum (num 20))))
      as [n | e] eqn:Hn; [| stopped_by_throw search_foods_throws].
    pose proof (search_foods_forwarded req st n Hq Hn) as Heq.
    absent_by Heq Hundef Hnot.
  - destruct (truthy (lookup "q" (query req))) eqn:Hq;
      [| stopped autocomplete_foods_refused].
    destruct (ToNumber (withDefault (lookup "max_results" (query req)) (VNum (num 4))))
      as [n | e] eqn:Hn; [| stopped_by_throw autocomplete_foods_throws].
    pose proof (autocomplete_foods_forwarded req st n Hq Hn) as Heq.
    absent_by Heq Hundef Hnot.
  - destruct (barcode_refused (lookup "barcode" (query req))) as [[|] | e] eqn:Hb;
      try (apply omits_nothing, find_food_by_barcode_stops; rewrite Hb; discriminate).
    pose proof (find_food_by_barcode_forwarded req st Hb) as Heq.
    absent_by Heq Hundef Hnot.
  - destruct (truthy (lookup "id" (query req))) eqn:Hq;
      [| stopped food_details_refused].
    pose proof (food_details_forwarded req st Hq) as Heq.
    absent_by Heq Hundef Hnot.
  - destruct (truthy (lookup "starts_with" (query req))) eqn:Hq;
      [| stopped food_brands_refused].
    pose proof (food_brands_forwarded req st Hq) as Heq.
    absent_by Heq Hundef Hnot.
  - pose proof (food_categories_forwarded req st) as Heq.
    absent_by Heq Hundef Hnot.
  - destruct (truthy (lookup "food_category_id" (query req))) eqn:Hq;
      [| stopped food_sub_categories_refused].
    pose proof (food_sub_categories_forwarded req st Hq) as Heq.
    absent_by Heq Hundef Hnot.
  - destruct (truthy (lookup "id" (query req))) eqn:Hq;
      [| stopped recipe_details_refused].
    pose proof (recipe_details_forwarded req st Hq) as Heq.
    absent_by Heq Hundef Hnot.
  - destruct (ToNumber (withDefault (lookup "max_results" (query req)) (VNum (num 20))))
      as [n | e] eqn:Hn; [| stopped_by_throw search_recipes_throws].
    pose proof (search_recipes_forwarded req st n Hn) as Heq.
    absent_by Heq Hundef Hnot.
  - pose proof (recipe_types_forwarded req st) as Heq.
    absent_by Heq Hundef Hnot.
Qed.

(** ** The page size, for every value *)

Lemma Qltb_le (a b : Q) : Qltb a b = true -> Qle_bool a b = true.
Proof.
  unfold Qltb. intros H. apply negb_true_iff in H.
  apply Qle_bool_iff. apply Qlt_le_weak. apply Qnot_le_lt.
  intros Hle. apply Qle_bool_iff in Hle. congruence.
Qed.

Lemma num_le_refl_num (c : Z) : num_le (num c) (num c) = true.
Proof. simpl. apply Qle_bool_iff. apply Qle_refl. Qed.

(** [Math.min(n || dflt, cap)] never exceeds [cap]. *)
Lemma capped_le (n : JsNum) (dflt cap : Z) :
  num_le (Math_min (num_or n (num dflt)) (num cap)) (num cap) = true.
Proof.
  assert (H : forall a, a <> NaN -> num_le (Math_min a (num cap)) (num cap) = true).
  { intros [| | | q] Ha; try reflexivity.
    - contradiction Ha. reflexivity.
    - apply num_le_refl_num.
    - unfold Math_min, num at 1 2. simpl num_lt.
      destruct (Qltb q (inject_Z cap)) eqn:Hlt.
      + simpl. apply Qltb_le. exact Hlt.
      + apply num_le_refl_num. }
  apply H. unfold num_or. destruct (num_truthy n) eqn:Ht; [| discriminate].
  destruct n; try discriminate.
Qed.

(** Below the cap, a truthy number passes as it is. *)
Lemma below_cap_unchanged (n dflt : JsNum) (cap : Z) :
  num_truthy n = true ->
  num_lt n (num cap) = true ->
  Math_min (num_or n dflt) (num cap) = n.
Proof.
  intros Ht Hlt. unfold num_or. rewrite Ht.
  destruct n; try discriminate; unfold Math_min, num in *; rewrite Hlt; reflexivity.
Qed.

Lemma supplied_when_truthy (v dflt : JsVal) (n : JsNum) :
  ToNumber v = Normal n -> num_truthy n = true -> withDefault v dflt = v.
Proof.
  destruct v; try reflexivity. simpl. intros H. injection H as <-. discriminate.
Qed.

(** The number the handler converts, when the one supplied is falsy:
    either nothing was supplied and it is the default, or it is the falsy
    number itself. *)
Lemma falsy_or_default (v : JsVal) (n : JsNum) (dflt : Z) :
  ToNumber v = Normal n ->
  num_truthy n = false ->
  exists n', ToNumber (withDefault v (VNum (num dflt))) = Normal n'
             /\ num_or n' (num dflt) = num dflt.
Proof.
  intros Hn Hf. destruct v; simpl in *;
    try (exists n; split; [exact Hn | unfold num_or; rewrite Hf; reflexivity]).
  exists (num dflt). split; [reflexivity |]. unfold num_or.
  destruct (num_truthy (num dflt)); reflexivity.
Qed.

Lemma no_upstream_call_when_stopped (handler : InRequest -> M Reply) req st calls u :
  snd (handler req st) = st ->
  outbound (snd (handler req st)) = (outbound st ++ calls)%list ->
  In u calls ->
  False.
Proof.
  intros Hst Hcalls Hin. rewrite Hst in Hcalls. exact (no_new_calls st calls u Hcalls Hin).
Qed.

Ltac capped_by Heq :=
  match type of Heq with
  | _ = exchange (rest_build _ ?q) _ _ _ =>
      match q with
      | context [("max_results", VNum ?m)] =>
          exists m; split;
          [eapply forwarded_param;
           [rewrite <- Heq; eassumption | eassumption | eassumption
           | reflexivity | reflexivity]
          | apply capped_le]
      end
  end.

(** X14. Whatever the client puts in [max_results], every call the
    three routes make to the REST API carries a [max_results] that is a
    number, not [NaN], and at most the cap of the route: 50 for the two
    searches, 10 for autocomplete. *)
Theorem max_results_never_above_cap (req : InRequest) (st : State) :
  (forall calls u,
     outbound (snd (search_foods req st)) = (outbound st ++ calls)%list ->
     In u calls -> is_upstream u = true ->
     exists m, searchParams_get "max_results" (searchParams (url u))
               = Some (NumberToString m)
               /\ num_le m (num 50) = true)
  /\ (forall calls u,
        outbound (snd (autocomplete_foods req st)) = (outbound st ++ calls)%list ->
        In u calls -> is_upstream u = true ->
        exists m, searchParams_get "max_results" (searchParams (url u))
                  = Some (NumberToString m)
                  /\ num_le m (num 10) = true)
  /\ (forall calls u,
        outbound (snd (search_recipes req st)) = (outbound st ++ calls)%list ->
        In u calls -> is_upstream u = true ->
        exists m, searchParams_get "max_results" (searchParams (url u))
                  = Some (NumberToString m)
                  /\ num_le m (num 50) = true).
Proof.
  repeat split; intros calls u Hcalls Hin Hup.
  - destruct (truthy (lookup "q" (query req))) eqn:Hq;
      [| destruct (no_upstream_call_when_stopped _ _ _ _ _
                     (search_foods_refused req st Hq) Hcalls Hin)].
    destruct (ToNumber (withDefault (lookup "max_results" (query req)) (VNum (num 20))))
      as [n | e] eqn:Hn.
    + pose proof (search_foods_forwarded req st n Hq Hn) as Heq. capped_by Heq.
    + exfalso. apply (no_upstream_call_when_stopped search_foods req st calls u);
        [rewrite (search_foods_throws req st e Hq Hn); reflexivity | exact Hcalls | exact Hin].
  - destruct (truthy (lookup "q" (query req))) eqn:Hq;
      [| destruct (no_upstream_call_when_stopped _ _ _ _ _
                     (autocomplete_foods_refused req st Hq) Hcalls Hin)].
    destruct (ToNumber (withDefault (lookup "max_results" (query req)) (VNum (num 4))))
      as [n | e] eqn:Hn.
    + pose proof (autocomplete_foods_forwarded req st n Hq Hn) as Heq. capped_by Heq.
    + exfalso. apply (no_upstream_call_when_stopped autocomplete_foods req st calls u);
        [rewrite (autocomplete_foods_throws req st e Hq Hn); reflexivity
        | exact Hcalls | exact Hin].
  - destruct (ToNumber (withDefault (lookup "max_results" (query req)) (VNum (num 20))))
      as [n | e] eqn:Hn.
    + pose proof (search_recipes_forwarded req st n Hn) as Heq. capped_by Heq.
    + exfalso. apply (no_upstream_call_when_stopped search_recipes req st calls u);
        [rewrite (search_recipes_throws req st e Hn); reflexivity | exact Hcalls | exact Hin].
Qed.

(** X15. Below the cap the page size is taken as it comes, and there
    is no lower bound.  A [max_results] whose number is truthy and
    strictly below the cap is sent unchanged, a negative one included; one
    whose number is 0 or [NaN] (an empty or non-numeric text) is replaced
    by the default of the route.  Every call a route makes carries that
    value, and the call is made: for a request whose parameters print and,
    on the two food routes, whose [q] is not empty, the route issues, once
    [getAccessToken] has yielded a token, exactly one call to the REST
    API, with that value as [max_results]. *)
Theorem max_results_below_cap_or_falsy (req : InRequest) (st : State) (n : JsNum) :
  ToNumber (lookup "max_results" (query req)) = Normal n ->
  (num_truthy n = true -> num_lt n (num 50) = true ->
   sends search_foods req st "max_results" (NumberToString n))
  /\ (num_truthy n = false ->
      sends search_foods req st "max_results" (NumberToString (num 20)))
  /\ (num_truthy n = true -> num_lt n (num 10) = true ->
      sends autocomplete_foods req st "max_results" (NumberToString n))
  /\ (num_truthy n = false ->
      sends autocomplete_foods req st "max_results" (NumberToString (num 4)))
  /\ (num_truthy n = true -> num_lt n (num 50) = true ->
      sends search_recipes req st "max_results" (NumberToString n))
  /\ (num_truthy n = false ->
      sends search_recipes req st "max_results" (NumberToString (num 20)))
  /\ (printable_query (query req) ->
      (truthy (lookup "q" (query req)) = true ->
       (num_truthy n = true -> num_lt n (num 50) = true ->
        delivers search_foods req st "foods/search/v3" "max_results" (NumberToString n))
       /\ (num_truthy n = false ->
           delivers search_foods req st "foods/search/v3" "max_results"
                    (NumberToString (num 20)))
       /\ (num_truthy n = true -> num_lt n (num 10) = true ->
           delivers autocomplete_foods req st "food/autocomplete/v2" "max_results"
                    (NumberToString n))
       /\ (num_truthy n = false ->
           delivers autocomplete_foods req st "food/autocomplete/v2" "max_results"
                    (NumberToString (num 4))))
      /\ (num_truthy n = true -> num_lt n (num 50) = true ->
          delivers search_recipes req st "recipes/search/v3" "max_results"
                   (NumberToString n))
      /\ (num_truthy n = false ->
          delivers search_recipes req st "recipes/search/v3" "max_results"
                   (NumberToString (num 20)))).
Proof.
  intros Hn.
  split; [| split; [| split; [| split; [| split; [| split]]]]].
  - intros Ht Hlt.
    destruct (truthy (lookup "q" (query req))) eqn:Hq; [| stopped search_foods_refused].
    pose proof (search_foods_forwarded req st n Hq) as Heq.
    rewrite (supplied_when_truthy _ _ _ Hn Ht) in Heq. specialize (Heq Hn).
    rewrite (below_cap_unchanged n (num 20) 50 Ht Hlt) in Heq. sends_by Heq.
  - intros Hf.
    destruct (truthy (lookup "q" (query req))) eqn:Hq; [| stopped search_foods_refused].
    destruct (falsy_or_default _ n 20 Hn Hf) as (n' & Hn' & Hor).
    pose proof (search_foods_forwarded req st n' Hq Hn') as Heq.
    rewrite Hor in Heq. sends_by Heq.
  - intros Ht Hlt.
    destruct (truthy (lookup "q" (query req))) eqn:Hq;
      [| stopped autocomplete_foods_refused].
    pose proof (autocomplete_foods_forwarded req st n Hq) as Heq.
    rewrite (supplied_when_truthy _ _ _ Hn Ht) in Heq. specialize (Heq Hn).
    rewrite (below_cap_unchanged n (num 4) 10 Ht Hlt) in Heq. sends_by Heq.
  - intros Hf.
    destruct (truthy (lookup "q" (query req))) eqn:Hq;
      [| stopped autocomplete_foods_refused].
    destruct (falsy_or_default _ n 4 Hn Hf) as (n' & Hn' & Hor).
    pose proof (autocomplete_foods_forwarded req st n' Hq Hn') as Heq.
    rewrite Hor in Heq. sends_by Heq.
  - intros Ht Hlt.
    pose proof (search_recipes_forwarded req st n) as Heq.
    rewrite (supplied_when_truthy _ _ _ Hn Ht) in Heq. specialize (Heq Hn).
    rewrite (below_cap_unchanged n (num 20) 50 Ht Hlt) in Heq. sends_by Heq.
  - intros Hf.
    destruct (falsy_or_default _ n 20 Hn Hf) as (n' & Hn' & Hor).
    pose proof (search_recipes_forwarded req st n' Hn') as Heq.
    rewrite Hor in Heq. sends_by Heq.
  - intros Hp. split; [intros Hq; split; [| split; [| split]] | split].
    + intros Ht Hlt.
      pose proof (search_foods_forwarded req st n Hq) as Heq.
      rewrite (supplied_when_truthy _ _ _ Hn Ht) in Heq. specialize (Heq Hn).
      rewrite (below_cap_unchanged n (num 20) 50 Ht Hlt) in Heq. delivers_by Heq Hp.
    + intros Hf.
      destruct (falsy_or_default _ n 20 Hn Hf) as (n' & Hn' & Hor).
      pose proof (search_foods_forwarded req st n' Hq Hn') as Heq.
      rewrite Hor in Heq. delivers_by Heq Hp.
    + intros Ht Hlt.
      pose proof (autocomplete_foods_forwarded req st n Hq) as Heq.
      rewrite (supplied_when_truthy _ _ _ Hn Ht) in Heq. specialize (Heq Hn).
      rewrite (below_cap_unchanged n (num 4) 10 Ht Hlt) in Heq. delivers_by Heq Hp.
    + intros Hf.
      destruct (falsy_or_default _ n 4 Hn Hf) as (n' & Hn' & Hor).
      pose proof (autocomplete_foods_forwarded req st n' Hq Hn') as Heq.
      rewrite Hor in Heq. delivers_by Heq Hp.
    + intros Ht Hlt.
      pose proof (search_recipes_forwarded req st n) as Heq.
      rewrite (supplied_when_truthy _ _ _ Hn Ht) in Heq. specialize (Heq Hn).
      rewrite (below_cap_unchanged n (num 20) 50 Ht Hlt) in Heq. delivers_by Heq Hp.
    + intros Hf.
      destruct (falsy_or_default _ n 20 Hn Hf) as (n' & Hn' & Hor).
      pose proof (search_recipes_forwarded req st n' Hn') as Heq.
      rewrite Hor in Heq. delivers_by Heq Hp.
Qed.

(** ** Replies and rejections *)

Lemma lookup_plain (q : list (string * JsVal)) (k : string) :
  plain_query q -> lookup k q = VUndefined \/ exists s, lookup k q = VStr s.
Proof.
  induction 1 as [| [k' v] rest Hv _ IH]; simpl; [auto |].
  destruct (String.eqb k' k); [| exact IH].
  destruct v; try discriminate. right. eauto.
Qed.

Lemma ToNumber_plain (q : list (string * JsVal)) (k : string) (dflt : JsNum) :
  plain_query q -> exists n, ToNumber (withDefault (lookup k q) (VNum dflt)) = Normal n.
Proof.
  intros Hq. destruct (lookup_plain q k Hq) as [-> | [s ->]]; simpl; eauto.
Qed.

Lemma barcode_refused_plain (q : list (string * JsVal)) :
  plain_query q -> exists b, barcode_refused (lookup "barcode" q) = Normal b.
Proof.
  intros Hq. destruct (lookup_plain q "barcode" Hq) as [-> | [s ->]].
  - exists true. reflexivity.
  - rewrite barcode_refused_string. eauto.
Qed.

Lemma nlp_forwarded (req : InRequest) (st : State) (fields : list (string * JsVal)) :
  req_body req = VObj fields ->
  truthy (lookup "user_input" fields) = true ->
  is_string (lookup "user_input" fields) = true ->
  nlp req st
  = exchange
      (post_build "https://platform.fatsecret.com/rest/natural-language-processing/v1"
         [("user_input", lookup "user_input" fields);
          ("include_food_data", lookup "include_food_data" fields);
          ("eaten_foods", lookup "eaten_foods" fields);
          ("region", lookup "region" fields);
          ("language", lookup "language" fields)])
      "FatSecret /nlp REST error:"
      "Internal error while processing natural language input" st.
Proof.
  intros Hb Ht Hs. unfold nlp. rewrite Hb. unfold getProp.
  rewrite ?bind_lift_normal, Ht, Hs. apply posted_exchange.
Qed.

Lemma image_recognition_forwarded (req : InRequest) (st : State)
    (fields : list (string * JsVal)) :
  req_body req = VObj fields ->
  truthy (lookup "image_b64" fields) = true ->
  is_string (lookup "image_b64" fields) = true ->
  image_recognition req st
  = exchange
      (post_build "https://platform.fatsecret.com/rest/image-recognition/v2"
         [("image_b64", lookup "image_b64" fields);
          ("include_food_data", lookup "include_food_data" fields);
          ("eaten_foods", lookup "eaten_foods" fields);
          ("region", lookup "region" fields);
          ("language", lookup "language" fields)])
      "FatSecret /image-recognition REST error:"
      "Internal error while processing image" st.
Proof.
  intros Hb Ht Hs. unfold image_recognition. rewrite Hb. unfold getProp.
  rewrite ?bind_lift_normal, Ht, Hs. apply posted_exchange.
Qed.

Ltac replies_400 := eexists; reflexivity.

(** X16. A request whose query parameters are plain strings, and whose
    body, on the POST routes, is an object, is always answered: every
    route returns a reply for it, whatever the cache holds and whatever
    the network does. *)
Theorem plain_requests_are_answered m p handler :
  In (m, p, handler) routes ->
  forall req st,
    plain_query (query req) ->
    (m = "POST" -> exists fields, req_body req = VObj fields) ->
    exists reply, fst (handler req st) = Normal reply.
Proof.
  unfold routes. intros Hin req st Hplain Hbody.
  repeat (destruct Hin as [Hin | Hin]; [injection Hin as <- <- <- |]);
    try contradiction.
  - destruct (truthy (lookup "q" (query req))) eqn:Hq.
    + destruct (ToNumber_plain (query req) "max_results" (num 20) Hplain) as [n Hn].
      rewrite (search_foods_forwarded req st n Hq Hn). apply exchange_replies.
    + unfold search_foods. step. rewrite Hq. replies_400.
  - destruct (truthy (lookup "q" (query req))) eqn:Hq.
    + destruct (ToNumber_plain (query req) "max_results" (num 4) Hplain) as [n Hn].
      rewrite (autocomplete_foods_forwarded req st n Hq Hn). apply exchange_replies.
    + unfold autocomplete_foods. step. rewrite Hq. replies_400.
  - destruct (barcode_refused_plain (query req) Hplain) as [[|] Hb].
    + unfold find_food_by_barcode. step. rewrite Hb. replies_400.
    + rewrite (find_food_by_barcode_forwarded req st Hb). apply exchange_replies.
  - destruct (truthy (lookup "id" (query req))) eqn:Hq.
    + rewrite (food_details_forwarded req st Hq). apply exchange_replies.
    + unfold food_details. step. rewrite Hq. replies_400.
  - destruct (truthy (lookup "starts_with" (query req))) eqn:Hq.
    + rewrite (food_brands_forwarded req st Hq). apply exchange_replies.
    + unfold food_brands. step. rewrite Hq. replies_400.
  - rewrite (food_categories_forwarded req st). apply exchange_replies.
  - destruct (truthy (lookup "food_category_id" (query req))) eqn:Hq.
    + rewrite (food_sub_categories_forwarded req st Hq). apply exchange_replies.
    + unfold food_sub_categories. step. rewrite Hq. replies_400.
  - destruct (truthy (lookup "id" (query req))) eqn:Hq.
    + rewrite (recipe_details_forwarded req st Hq). apply exchange_replies.
    + unfold recipe_details. step. rewrite Hq. replies_400.
  - destruct (ToNumber_plain (query req) "max_results" (num 20) Hplain) as [n Hn].
    rewrite (search_recipes_forwarded req st n Hn). apply exchange_replies.
  - rewrite (recipe_types_forwarded req st). apply exchange_replies.
  - destruct (Hbody eq_refl) as [fields Hfields].
    destruct (truthy (lookup "user_input" fields)) eqn:Ht;
      [destruct (is_string (lookup "user_input" fields)) eqn:Hs |].
    + rewrite (nlp_forwarded req st fields Hfields Ht Hs). apply exchange_replies.
    + unfold nlp. rewrite Hfields. unfold getProp.
      rewrite ?bind_lift_normal, Ht, Hs. replies_400.
    + unfold nlp. rewrite Hfields. unfold getProp.
      rewrite ?bind_lift_normal, Ht. replies_400.
  - destruct (Hbody eq_refl) as [fields Hfields].
    destruct (truthy (lookup "image_b64" fields)) eqn:Ht;
      [destruct (is_string (lookup "image_b64" fields)) eqn:Hs |].
    + rewrite (image_recognition_forwarded req st fields Hfields Ht Hs).
      apply exchange_replies.
    + unfold image_recognition. rewrite Hfields. unfold getProp.
      rewrite ?bind_lift_normal, Ht, Hs. replies_400.
    + unfold image_recognition. rewrite Hfields. unfold getProp.
      rewrite ?bind_lift_normal, Ht. replies_400.
Qed.

Lemma supplied_when_throws (v dflt : JsVal) (e : JsError) :
  ToNumber v = Throw e -> withDefault v dflt = v.
Proof. destruct v; try reflexivity. discriminate. Qed.

(** X17. What runs before the try block is not caught.  When the
    conversion of [max_results] to a number throws (on the three routes
    that cap it), when the conversion of a truthy [barcode] to a string
    throws, or when [req.body] is [undefined] or [null] on a POST route,
    the handler itself throws: it sends no reply, makes no fetch and
    writes nothing on the console. *)
Theorem errors_before_try_are_not_caught (req : InRequest) (st : State) (e : JsError) :
  (truthy (lookup "q" (query req)) = true ->
   ToNumber (lookup "max_results" (query req)) = Throw e ->
   search_foods req st = (Throw e, st))
  /\ (truthy (lookup "q" (query req)) = true ->
      ToNumber (lookup "max_results" (query req)) = Throw e ->
      autocomplete_foods req st = (Throw e, st))
  /\ (ToNumber (lookup "max_results" (query req)) = Throw e ->
      search_recipes req st = (Throw e, st))
  /\ (truthy (lookup "barcode" (query req)) = true ->
      ToString (lookup "barcode" (query req)) = Throw e ->
      find_food_by_barcode req st = (Throw e, st))
  /\ (req_body req = VUndefined \/ req_body req = VNull ->
      exists msg, nlp req st = (Throw (TypeError msg), st))
  /\ (req_body req = VUndefined \/ req_body req = VNull ->
      exists msg, image_recognition req st = (Throw (TypeError msg), st)).
Proof.
  repeat split.
  - intros Hq Hn. apply search_foods_throws; [exact Hq |].
    rewrite (supplied_when_throws _ _ _ Hn). exact Hn.
  - intros Hq Hn. apply autocomplete_foods_throws; [exact Hq |].
    rewrite (supplied_when_throws _ _ _ Hn). exact Hn.
  - intros Hn. apply search_recipes_throws.
    rewrite (supplied_when_throws _ _ _ Hn). exact Hn.
  - intros Ht Hs. unfold find_food_by_barcode. step.
    unfold barcode_refused. rewrite Ht, Hs. reflexivity.
  - intros [Hb | Hb]; unfold nlp; rewrite Hb; eexists; reflexivity.
  - intros [Hb | Hb]; unfold image_recognition; rewrite Hb; eexists; reflexivity.
Qed.

(** ** The POST routes *)

Lemma nlp_stops (req : InRequest) (st : State) (fields : list (string * JsVal)) :
  req_body req = VObj fields ->
  truthy (lookup "user_input" fields) && is_string (lookup "user_input" fields) = false ->
  snd (nlp req st) = st.
Proof.
  intros Hb Hbad. unfold nlp. rewrite Hb. unfold getProp. rewrite ?bind_lift_normal.
  destruct (truthy _); [| reflexivity]. destruct (is_string _); [discriminate | reflexivity].
Qed.

Lemma image_recognition_stops (req : InRequest) (st : State)
    (fields : list (string * JsVal)) :
  req_body req = VObj fields ->
  truthy (lookup "image_b64" fields) && is_string (lookup "image_b64" fields) = false ->
  snd (image_recognition req st) = st.
Proof.
  intros Hb Hbad. unfold image_recognition. rewrite Hb. unfold getProp.
  rewrite ?bind_lift_normal.
  destruct (truthy _); [| reflexivity]. destruct (is_string _); [discriminate | reflexivity].
Qed.

(** The body of the call a POST route makes. *)
Lemma posted_body address fields label msg st calls u :
  outbound (snd (exchange (post_build address fields) label msg st))
  = (outbound st ++ calls)%list ->
  In u calls ->
  is_upstream u = true ->
  method u = "POST" /\ body u = JSON_stringify fields.
Proof.
  intros Hcalls Hin Hup.
  destruct (exchange_upstream_call _ _ _ _ _ _ Hcalls Hin Hup)
    as (tok & st1 & _ & Hrq & _).
  unfold post_build in Hrq. destruct (ToString tok); [| discriminate].
  injection Hrq as <-. split; reflexivity.
Qed.

Ltac known_field Hentry :=
  simpl in Hentry;
  repeat (destruct Hentry as [Hentry | Hentry];
          [injection Hentry as <- <-; split; [simpl; tauto | reflexivity] |]);
  destruct Hentry.

(** Once a token is at hand, the POST goes out. *)
Lemma posted_issues_call address fields label msg st token st1 bearer :
  getAccessToken st = (Normal token, st1) ->
  ToString token = Normal bearer ->
  outbound (snd (exchange (post_build address fields) label msg st))
  = (outbound st1 ++ [post_request address bearer fields])%list.
Proof.
  intros Htok Hb. rewrite exchange_run, Htok. unfold post_build. rewrite Hb.
  destruct (network _) as [r | e]; [destruct (json r) |]; reflexivity.
Qed.

(** What [JSON.stringify] keeps of the five properties a POST route
    reads: each one that is not [undefined], with its value, and nothing
    else. *)
Lemma stringify_known_fields (required : string) (fields : list (string * JsVal)) k v :
  In (k, v)
     (filter (fun kv => is_defined (snd kv))
        [(required, lookup required fields);
         ("include_food_data", lookup "include_food_data" fields);
         ("eaten_foods", lookup "eaten_foods" fields);
         ("region", lookup "region" fields);
         ("language", lookup "language" fields)])
  <-> (In k (required :: optional_fields) /\ v = lookup k fields /\ v <> VUndefined).
Proof.
  rewrite filter_In. split.
  - intros [Hentry Hdef]. simpl snd in Hdef.
    assert (Hv : v <> VUndefined) by (intros ->; discriminate Hdef).
    simpl in Hentry.
    repeat (destruct Hentry as [Hentry | Hentry];
            [injection Hentry as <- <-; split; [simpl; tauto | split; [reflexivity | exact Hv]] |]).
    destruct Hentry.
  - intros (Hk & -> & Hv). split.
    + simpl in Hk. simpl.
      repeat (destruct Hk as [<- | Hk]; [tauto |]). destruct Hk.
    + simpl. destruct (lookup k fields); [contradiction Hv |..]; reflexivity.
Qed.

(** X18. The two POST routes send upstream a JSON object made of the
    five properties they read from [req.body] and of nothing else: each of
    the five that the client gave is there with the value the client gave,
    the required one always, a property the client did not give is left
    out, and any other property of the body is dropped.  Every call a
    route makes has that body, and the call is made: when the required
    property is a non-empty string, the route issues, once
    [getAccessToken] has yielded a token, exactly one call, the POST of
    the five properties to the address of the route with the token as
    bearer credentials. *)
Theorem post_routes_forward_known_fields (req : InRequest) (st : State)
    (fields : list (string * JsVal)) :
  req_body req = VObj fields ->
  (forall calls u,
     outbound (snd (nlp req st)) = (outbound st ++ calls)%list ->
     In u calls -> is_upstream u = true ->
     method u = "POST"
     /\ exists forwarded,
          body u = JsonBody (VObj forwarded)
          /\ In ("user_input", lookup "user_input" fields) forwarded
          /\ forall k v, In (k, v) forwarded <->
               (In k ("user_input" :: optional_fields)
                /\ v = lookup k fields /\ v <> VUndefined))
  /\ (forall calls u,
        outbound (snd (image_recognition req st)) = (outbound st ++ calls)%list ->
        In u calls -> is_upstream u = true ->
        method u = "POST"
        /\ exists forwarded,
             body u = JsonBody (VObj forwarded)
             /\ In ("image_b64", lookup "image_b64" fields) forwarded
             /\ forall k v, In (k, v) forwarded <->
                  (In k ("image_b64" :: optional_fields)
                   /\ v = lookup k fields /\ v <> VUndefined))
  /\ (truthy (lookup "user_input" fields) = true ->
      is_string (lookup "user_input" fields) = true ->
      forall token st1 bearer,
        getAccessToken st = (Normal token, st1) ->
        ToString token = Normal bearer ->
        outbound (snd (nlp req st))
        = (outbound st1
           ++ [post_request
                 "https://platform.fatsecret.com/rest/natural-language-processing/v1"
                 bearer
                 [("user_input", lookup "user_input" fields);
                  ("include_food_data", lookup "include_food_data" fields);
                  ("eaten_foods", lookup "eaten_foods" fields);
                  ("region", lookup "region" fields);
                  ("language", lookup "language" fields)]])%list)
  /\ (truthy (lookup "image_b64" fields) = true ->
      is_string (lookup "image_b64" fields) = true ->
      forall token st1 bearer,
        getAccessToken st = (Normal token, st1) ->
        ToString token = Normal bearer ->
        outbound (snd (image_recognition req st))
        = (outbound st1
           ++ [post_request
                 "https://platform.fatsecret.com/rest/image-recognition/v2"
                 bearer
                 [("image_b64", lookup "image_b64" fields);
                  ("include_food_data", lookup "include_food_data" fields);
                  ("eaten_foods", lookup "eaten_foods" fields);
                  ("region", lookup "region" fields);
                  ("language", lookup "language" fields)]])%list).
Proof.
  intros Hb. split; [| split; [| split]].
  - intros calls u Hcalls Hin Hup.
    destruct (truthy (lookup "user_input" fields)
              && is_string (lookup "user_input" fields)) eqn:Hgood;
      [| destruct (no_upstream_call_when_stopped _ _ _ _ _
                     (nlp_stops req st fields Hb Hgood) Hcalls Hin)].
    apply andb_true_iff in Hgood. destruct Hgood as [Ht Hs].
    rewrite (nlp_forwarded req st fields Hb Ht Hs) in Hcalls.
    destruct (posted_body _ _ _ _ _ _ _ Hcalls Hin Hup) as [Hm Hbody].
    split; [exact Hm |]. eexists. split; [exact Hbody |]. split.
    + apply stringify_known_fields. split; [simpl; tauto | split; [reflexivity |]].
      intros Hu. rewrite Hu in Ht. discriminate Ht.
    + intros k v. apply stringify_known_fields.
  - intros calls u Hcalls Hin Hup.
    destruct (truthy (lookup "image_b64" fields)
              && is_string (lookup "image_b64" fields)) eqn:Hgood;
      [| destruct (no_upstream_call_when_stopped _ _ _ _ _
                     (image_recognition_stops req st fields Hb Hgood) Hcalls Hin)].
    apply andb_true_iff in Hgood. destruct Hgood as [Ht Hs].
    rewrite (image_recognition_forwarded req st fields Hb Ht Hs) in Hcalls.
    destruct (posted_body _ _ _ _ _ _ _ Hcalls Hin Hup) as [Hm Hbody].
    split; [exact Hm |]. eexists. split; [exact Hbody |]. split.
    + apply stringify_known_fields. split; [simpl; tauto | split; [reflexivity |]].
      intros Hu. rewrite Hu in Ht. discriminate Ht.
    + intros k v. apply stringify_known_fields.
  - intros Ht Hs tok st1 b Htok Hbearer.
    rewrite (nlp_forwarded req st fields Hb Ht Hs).
    exact (posted_issues_call _ _ _ _ _ _ _ _ Htok Hbearer).
  - intros Ht Hs tok st1 b Htok Hbearer.
    rewrite (image_recognition_forwarded req st fields Hb Ht Hs).
    exact (posted_issues_call _ _ _ _ _ _ _ _ Htok Hbearer).
Qed.

(** ** A repeated barcode *)

(** X19. The barcode check measures the text [barcode.toString()]
    yields, and the route forwards that same text.  When [barcode] is
    given more than once, Express hands the handler an array; the values
    joined by commas are what is measured against 13 and, on a pass, what
    reaches the REST API as [barcode]. *)
Theorem repeated_barcode_is_joined (req : InRequest) (st : State)
    (items : list JsVal) (s : string) :
  lookup "barcode" (query req) = VArr items ->
  ToString (VArr items) = Normal s ->
  (js_length s <> 13%nat ->
   find_food_by_barcode req st
   = (Normal (mkReply 400 (error_body "Missing or invalid 13-digit barcode (?barcode=)")),
      st))
  /\ (js_length s = 13%nat ->
      find_food_by_barcode req st
      = try_catch
          (r <- fatsecretRestRequest "food/barcode/find-by-id/v1"
                  [("barcode", VArr items);
                   ("region", lookup "region" (query req));
                   ("language", lookup "language" (query req));
                   ("format", withDefault (lookup "format" (query req)) (VStr "json"))] ;;
           relay r)
          (fail_with "FatSecret /find-food-by-barcode REST error:"
                     "Internal error while finding food by barcode") st
      /\ sends find_food_by_barcode req st "barcode" s).
Proof.
  intros Hbar Hs.
  assert (Hcheck : barcode_refused (lookup "barcode" (query req))
                   = Normal (negb (Nat.eqb (js_length s) 13))).
  { rewrite Hbar. unfold barcode_refused. simpl truthy. simpl negb. cbv iota.
    rewrite Hs. reflexivity. }
  split; intros Hlen.
  - unfold find_food_by_barcode. step.
    rewrite Hcheck, (proj2 (Nat.eqb_neq _ _) Hlen). reflexivity.
  - rewrite Hlen in Hcheck. simpl in Hcheck. split.
    + unfold find_food_by_barcode. step. rewrite Hcheck, bind_lift_normal, Hbar.
      reflexivity.
    + pose proof (find_food_by_barcode_forwarded req st Hcheck) as Heq.
      rewrite Hbar in Heq.
      intros calls u Hcalls Hin Hup. rewrite Heq in Hcalls.
      eapply forwarded_param;
        [exact Hcalls | exact Hin | exact Hup | reflexivity | exact Hs].
Qed.

(** ** The refresh, step by step *)

Lemma getAccessToken_refreshed (st : State) (r : Response)
    (fields : list (string * JsVal)) (seconds : JsNum) :
  cache_hit st = false ->
  network token_request = Resolved r ->
  ok r = true ->
  json r = Normal (VObj fields) ->
  ToNumber (lookup "expires_in" fields) = Normal seconds ->
  getAccessToken st
  = (Normal (lookup "access_token" fields),
     {| cachedToken := lookup "access_token" fields;
        tokenExpiresAt :=
          num_sub (num_add (num Date_now) (num_mul seconds (num 1000))) (num 10000);
        outbound := outbound st ++ [token_request];
        console := console st |}).
Proof.
  intros Hmiss Hnet Hok Hjson Hsecs. rewrite (getAccessToken_miss st Hmiss).
  unfold_monad. rewrite Hnet. simpl. rewrite Hok. simpl. rewrite Hjson. simpl.
  rewrite Hsecs. reflexivity.
Qed.

Lemma getAccessToken_miss_calls (st : State) :
  cache_hit st = false ->
  outbound (snd (getAccessToken st)) = (outbound st ++ [token_request])%list.
Proof.
  intros Hmiss. rewrite (getAccessToken_miss st Hmiss). unfold_monad.
  destruct (network token_request) as [r | e]; simpl; [| reflexivity].
  destruct (ok r); simpl; [| destruct (text r); reflexivity].
  destruct (json r) as [data | e]; simpl; [| reflexivity].
  destruct (getProp data "access_token") as [tok | e]; simpl; [| reflexivity].
  destruct (getProp data "expires_in") as [ex | e]; simpl; [| reflexivity].
  destruct (ToNumber ex) as [secs | e]; reflexivity.
Qed.

End Proxy.

(** ** The cache across two calls *)

Section Clocks.

Variables CLIENT_ID CLIENT_SECRET OAUTH_URL SCOPE : string.
Variable StringToNumber : string -> JsNum.
Variable NumberToString : JsNum -> string.

(** [getAccessToken] called when the clock reads [now], on the network
    [net]. *)
Local Abbreviation getAccessToken_at now net :=
  (getAccessToken CLIENT_ID CLIENT_SECRET OAUTH_URL SCOPE
     StringToNumber NumberToString now net).

Local Abbreviation the_token_request :=
  (token_request CLIENT_ID CLIENT_SECRET OAUTH_URL SCOPE).

Lemma num_lt_integers (a b : Z) : num_lt (num a) (Fin (Qmake b 1)) = (a <? b).
Proof.
  unfold num, inject_Z. simpl. unfold Qltb, Qle_bool. simpl.
  rewrite !Z.mul_1_r. rewrite Z.ltb_antisym. reflexivity.
Qed.

(** X1. A token obtained at [now1] with an integer [expires_in] of [n]
    seconds is served from the cache, without any fetch and without any
    change of state, by every call made strictly before
    [now1 + n * 1000 - 10 * 1000], and is fetched anew by every call made
    at or after that instant.  A token that lives ten seconds or less is
    therefore never served from the cache. *)
Theorem token_reused_until_margin
    (now1 now2 : Z) (net1 net2 : Request -> FetchOutcome) (st : State)
    (r : Response) (fields : list (string * JsVal)) (n : Z) :
  cache_hit now1 st = false ->
  net1 the_token_request = Resolved r ->
  ok r = true ->
  json r = Normal (VObj fields) ->
  truthy (lookup "access_token" fields) = true ->
  ToNumber StringToNumber NumberToString (lookup "expires_in" fields) = Normal (num n) ->
  (now2 < now1 + n * 1000 - 10 * 1000 ->
   getAccessToken_at now2 net2 (snd (getAccessToken_at now1 net1 st))
   = (Normal (lookup "access_token" fields), snd (getAccessToken_at now1 net1 st)))
  /\ (now1 + n * 1000 - 10 * 1000 <= now2 ->
      outbound (snd (getAccessToken_at now2 net2 (snd (getAccessToken_at now1 net1 st))))
      = (outbound (snd (getAccessToken_at now1 net1 st)) ++ [the_token_request])%list).
Proof.
  intros Hmiss Hnet Hok Hjson Htok Hsecs.
  rewrite (getAccessToken_refreshed _ _ _ _ _ _ _ _ st r fields (num n)
             Hmiss Hnet Hok Hjson Hsecs).
  rewrite expiry_integer. simpl snd.
  split; intros Hnow.
  - rewrite getAccessToken_hit; [reflexivity |].
    unfold cache_hit. simpl cachedToken. simpl tokenExpiresAt.
    rewrite Htok, num_lt_integers. simpl. apply Z.ltb_lt. exact Hnow.
  - rewrite getAccessToken_miss_calls; [reflexivity |].
    unfold cache_hit. simpl cachedToken. simpl tokenExpiresAt.
    rewrite num_lt_integers, andb_false_iff. right. apply Z.ltb_ge. exact Hnow.
Qed.

(** X2. A token response that gives no usable lifetime, or no token,
    defeats the cache.  When the success body has no [access_token] (or a
    falsy one), or when its [expires_in] converts to [NaN] (it is missing,
    or is not numeric text), the call still returns what [access_token]
    held, but every later call, at any time, fetches a token again. *)
Theorem token_without_lifetime_never_reused
    (now1 : Z) (net1 : Request -> FetchOutcome) (st : State)
    (r : Response) (fields : list (string * JsVal)) (seconds : JsNum) :
  cache_hit now1 st = false ->
  net1 the_token_request = Resolved r ->
  ok r = true ->
  json r = Normal (VObj fields) ->
  ToNumber StringToNumber NumberToString (lookup "expires_in" fields) = Normal seconds ->
  truthy (lookup "access_token" fields) = false \/ seconds = NaN ->
  fst (getAccessToken_at now1 net1 st) = Normal (lookup "access_token" fields)
  /\ forall now2 net2,
       outbound (snd (getAccessToken_at now2 net2 (snd (getAccessToken_at now1 net1 st))))
       = (outbound (snd (getAccessToken_at now1 net1 st)) ++ [the_token_request])%list.
Proof.
  intros Hmiss Hnet Hok Hjson Hsecs Hbad.
  rewrite (getAccessToken_refreshed _ _ _ _ _ _ _ _ st r fields seconds
             Hmiss Hnet Hok Hjson Hsecs).
  split; [reflexivity |]. intros now2 net2. simpl snd.
  rewrite getAccessToken_miss_calls; [reflexivity |].
  unfold cache_hit. simpl cachedToken. simpl tokenExpiresAt.
  destruct Hbad as [Hfalsy | ->].
  - rewrite Hfalsy. reflexivity.
  - apply andb_false_iff. right. reflexivity.
Qed.

End Clocks.

(** ** The model at work on the sample deployment *)

(** *** Runs of the builtins *)

(** The test vectors of RFC 4648. *)
Example base64_rfc4648 :
  base64 "" = "" /\ base64 "f" = "Zg==" /\ base64 "fo" = "Zm8=" /\ base64 "foo" = "Zm9v"
  /\ base64 "foob" = "Zm9vYg==" /\ base64 "fooba" = "Zm9vYmE=" /\ base64 "foobar" = "Zm9vYmFy".
Proof. repeat split. Qed.

Example decimal_conversions :
  decimal_StringToNumber "100" = num 100
  /\ decimal_StringToNumber "" = num 0
  /\ decimal_StringToNumber "ten" = NaN
  /\ decimal_NumberToString (num 50) = "50"
  /\ decimal_NumberToString (num (-3)) = "-3".
Proof. repeat split. Qed.

(** The binary64 values nearest to [0.3] and to [1 / 3]; [0.1 + 0.2],
    which is not the first of them; [86400.0000001 * 1000] and the expiry
    it leads to; a tie; an overflow. *)
Example round64_runs :
  round64 (Qmake 3 10) = Fin (Qmake 5404319552844595 18014398509481984)
  /\ round64 (Qmake 1 3) = Fin (Qmake 6004799503160661 18014398509481984)
  /\ num_add (round64 (Qmake 1 10)) (round64 (Qmake 2 10))
     = Fin (Qmake 1351079888211149 4503599627370496)
  /\ round64 (Qmake 864000000001 10000) = Fin (Qmake 5798205849606711 67108864)
  /\ num_sub (num_add (num 1700000000000)
                      (num_mul (Fin (Qmake 864000000001 10000000)) (num 1000)))
             (num 10000)
     = num 1700086390000
  /\ round64 (Qmake 9007199254740993 2) = num 4503599627370496
  /\ round64 (Qmake (2 ^ 1025 + 1) 2) = PosInfinity.
Proof. repeat split; vm_compute; reflexivity. Qed.

(** [.length] of ASCII text, of an accented letter and of a character
    outside the basic plane. *)
Example js_length_runs :
  js_length "0123456789012" = 13%nat
  /\ js_length Sample.e_acute = 1%nat
  /\ String.length Sample.e_acute = 2%nat
  /\ js_length Sample.g_clef = 2%nat
  /\ String.length Sample.g_clef = 4%nat.
Proof. repeat split. Qed.

(** [String(['a', undefined, 20])], [String({})] and
    [String({ toString: 'x' })]. *)
Example ToString_runs :
  ToString decimal_NumberToString (VArr [VStr "a"; VUndefined; VNum (num 20)])
  = Normal "a,,20"
  /\ ToString decimal_NumberToString (VObj []) = Normal "[object Object]"
  /\ ToString decimal_NumberToString (VObj [("toString", VStr "x")])
     = Throw (TypeError "Cannot convert object to primitive value").
Proof. repeat split. Qed.

(** [Math.min(Number(v) || 20, 50)] on a few values. *)
Example cap_runs :
  Math_min (num_or (num 100) (num 20)) (num 50) = num 50
  /\ Math_min (num_or (num 7) (num 20)) (num 50) = num 7
  /\ Math_min (num_or (num 0) (num 20)) (num 50) = num 20
  /\ Math_min (num_or NaN (num 20)) (num 50) = num 20
  /\ Math_min (num_or PosInfinity (num 20)) (num 50) = num 50
  /\ Math_min (num_or (num (-5)) (num 20)) (num 50) = num (-5).
Proof. repeat split. Qed.

(** *** Runs of the token manager and of the routes *)

Local Abbreviation sample f :=
  (f Sample.client_id Sample.client_secret Sample.oauth_url Sample.scope
     decimal_StringToNumber decimal_NumberToString Sample.now).

Local Abbreviation sample_token_request :=
  (token_request Sample.client_id Sample.client_secret Sample.oauth_url Sample.scope).

(** The network is up: a token is granted, the REST API answers. *)
Local Abbreviation network_up answer :=
  (Sample.network (Resolved Sample.token_granted) answer).

(** The token endpoint is down. *)
Local Abbreviation network_down :=
  (Sample.network (Rejected Sample.connection_refused) (Rejected Sample.connection_refused)).

(** The state a first successful refresh leaves. *)
Local Abbreviation refreshed :=
  {| cachedToken := VStr "tok-1";
     tokenExpiresAt := Fin (Qmake 1700086390000 1);
     outbound := [sample_token_request];
     console := [] |}.

Lemma getAccessToken_reuses_cached_token_witness :
  truthy (cachedToken Sample.warm_cache) = true
  /\ num_lt (num Sample.now) (tokenExpiresAt Sample.warm_cache) = true
  /\ fst (sample getAccessToken (network_up (Rejected Sample.connection_refused))
            Sample.warm_cache) = Normal (VStr "tok-0")
  /\ outbound (snd (sample getAccessToken (network_up (Rejected Sample.connection_refused))
                      Sample.warm_cache)) = [].
Proof.
  split; [reflexivity | split; [reflexivity |]].
  destruct (sample getAccessToken_reuses_cached_token
              (network_up (Rejected Sample.connection_refused)) Sample.warm_cache
              eq_refl eq_refl) as (Hval & Hout & _).
  split; [exact Hval | exact Hout].
Defined.

Lemma safe_integer_checked (z : Z) :
  (- 2 ^ 53 <=? z) && (z <=? 2 ^ 53) = true -> safe_integer z.
Proof.
  intros H. apply andb_true_iff in H. destruct H as [Hlo Hhi].
  split; [apply Z.leb_le, Hlo | apply Z.leb_le, Hhi].
Qed.

Lemma getAccessToken_refreshes_once_witness :
  cache_stale Sample.now initial_state
  /\ safe_integer Sample.now
  /\ safe_integer (Sample.now + 86400 * 1000 - 10 * 1000)
  /\ sample getAccessToken (network_up (Resolved Sample.foods_found)) initial_state
     = (Normal (VStr "tok-1"), refreshed)
  /\ outbound (snd (sample getAccessToken network_down initial_state))
     = [sample_token_request].
Proof.
  assert (Hmiss : cache_stale Sample.now initial_state) by (left; reflexivity).
  split; [exact Hmiss |].
  split; [exact (safe_integer_checked Sample.now eq_refl) |].
  split; [exact (safe_integer_checked (Sample.now + 86400 * 1000 - 10 * 1000) eq_refl)
         | split].
  - destruct (sample getAccessToken_refreshes_once
                (network_up (Resolved Sample.foods_found)) initial_state Hmiss)
      as (_ & _ & _ & Hrun).
    exact (Hrun Sample.token_granted _ _ _ 86400
             eq_refl eq_refl eq_refl eq_refl eq_refl eq_refl
             (safe_integer_checked Sample.now eq_refl)
             (safe_integer_checked (86400 * 1000) eq_refl)
             (safe_integer_checked (Sample.now + 86400 * 1000) eq_refl)
             (safe_integer_checked (Sample.now + 86400 * 1000 - 10 * 1000) eq_refl)).
  - exact (proj1 (sample getAccessToken_refreshes_once network_down initial_state Hmiss)).
Defined.

(** A refresh followed by a second call: the second call finds the
    token and fetches nothing. *)
Example refresh_then_reuse :
  sample getAccessToken (network_up (Resolved Sample.foods_found))
    (snd (sample getAccessToken (network_up (Resolved Sample.foods_found)) initial_state))
  = (Normal (VStr "tok-1"), refreshed).
Proof. reflexivity. Qed.

(** The OAuth endpoint grants a token and names no lifetime. *)
Local Abbreviation token_without_lifetime :=
  (mkResponse 200 (Normal "{access_token: tok-2}")
     (Normal (VObj [("access_token", VStr "tok-2")]))).

(** The OAuth endpoint grants a token whose lifetime is an object that
    cannot be converted. *)
Local Abbreviation token_with_odd_lifetime :=
  (mkResponse 200 (Normal "{access_token: tok-3, expires_in: {toString: 1}}")
     (Normal (VObj [("access_token", VStr "tok-3");
                    ("expires_in", VObj [("toString", VNum (num 1))])]))).

(** The network on which the token comes with that lifetime. *)
Local Abbreviation network_odd_lifetime :=
  (Sample.network (Resolved token_with_odd_lifetime) (Resolved Sample.foods_found)).

Lemma failed_refresh_keeps_cache_witness :
  cache_hit Sample.now initial_state = false
  /\ (exists e,
        fst (sample getAccessToken
               (Sample.network (Resolved Sample.token_denied) (Resolved Sample.foods_found))
               initial_state) = Throw e)
  /\ cachedToken (snd (sample getAccessToken
               (Sample.network (Resolved Sample.token_denied) (Resolved Sample.foods_found))
               initial_state)) = VNull
  /\ tokenExpiresAt (snd (sample getAccessToken
               (Sample.network (Resolved Sample.token_denied) (Resolved Sample.foods_found))
               initial_state)) = num 0.
Proof.
  split; [reflexivity |].
  exact (proj1 (sample failed_refresh_keeps_cache
                  (Sample.network (Resolved Sample.token_denied) (Resolved Sample.foods_found))
                  initial_state)
           Sample.token_denied eq_refl eq_refl eq_refl).
Defined.

(** C9 does not hold as stated: the refresh is not atomic, and the
    cache can change on a call that fails.  When the token endpoint
    answers 200 with an [expires_in] that cannot be converted to a number,
    [getAccessToken] throws, no token is returned, and yet [cachedToken]
    has been replaced while [tokenExpiresAt] has not. *)
Lemma refresh_is_not_atomic :
  fst (sample getAccessToken network_odd_lifetime initial_state)
  = Throw (TypeError "Cannot convert object to primitive value")
  /\ cachedToken initial_state = VNull
  /\ cachedToken (snd (sample getAccessToken network_odd_lifetime initial_state))
     = VStr "tok-3"
  /\ tokenExpiresAt (snd (sample getAccessToken network_odd_lifetime initial_state))
     = tokenExpiresAt initial_state
  /\ cache (snd (sample getAccessToken network_odd_lifetime initial_state))
     <> cache initial_state.
Proof.
  repeat split. discriminate.
Qed.

Lemma getAccessToken_outcomes_witness :
  fst (sample getAccessToken
         (Sample.network (Resolved Sample.token_denied) (Resolved Sample.foods_found))
         initial_state)
  = Throw (new_Error "Failed to fetch token: 401 invalid_client")
  /\ fst (sample getAccessToken network_down Sample.warm_cache) = Normal (VStr "tok-0")
  /\ fst (sample getAccessToken (network_up (Resolved Sample.foods_found)) initial_state)
     = Normal (VStr "tok-1")
  /\ fst (sample getAccessToken network_odd_lifetime initial_state)
     = Throw (TypeError "Cannot convert object to primitive value")
  /\ fst (sample getAccessToken network_down initial_state)
     = Throw Sample.connection_refused.
Proof.
  assert (Hmiss : cache_hit Sample.now initial_state = false) by reflexivity.
  split; [| split; [| split; [| split]]].
  - destruct (sample getAccessToken_outcomes
                (Sample.network (Resolved Sample.token_denied)
                                (Resolved Sample.foods_found)) initial_state)
      as (Hdenied & _).
    exact (Hdenied Hmiss Sample.token_denied "invalid_client" eq_refl eq_refl eq_refl).
  - destruct (sample getAccessToken_outcomes network_down Sample.warm_cache)
      as (_ & _ & Hhit & _).
    exact (Hhit eq_refl eq_refl).
  - destruct (sample getAccessToken_outcomes
                (network_up (Resolved Sample.foods_found)) initial_state)
      as (_ & _ & _ & Hgranted & _).
    exact (Hgranted Hmiss Sample.token_granted _ (num 86400)
             eq_refl eq_refl eq_refl eq_refl).
  - destruct (sample getAccessToken_outcomes network_odd_lifetime initial_state)
      as (_ & _ & _ & _ & Hodd & _).
    exact (Hodd Hmiss token_with_odd_lifetime _
             (TypeError "Cannot convert object to primitive value")
             eq_refl eq_refl eq_refl eq_refl).
  - destruct (sample getAccessToken_outcomes network_down initial_state)
      as (_ & _ & _ & _ & _ & Hdown & _).
    exact (Hdown Hmiss Sample.connection_refused eq_refl).
Defined.

(** The token endpoint answers 200 with a JSON object that has no
    [access_token]. *)
Local Abbreviation network_token_missing :=
  (Sample.network (Resolved Sample.token_missing) (Resolved Sample.foods_found)).

(** C3 does not hold as stated.  When the token endpoint answers with a
    success status and a JSON object that lacks [access_token], the
    endpoint has neither rejected the credentials nor sent a non-success
    status, and [getAccessToken] returns [undefined], not a token string.
    When the endpoint cannot be reached there is no status at all, and
    [getAccessToken] throws the error of [fetch]. *)
Lemma getAccessToken_not_always_a_token_string :
  (network_token_missing sample_token_request = Resolved Sample.token_missing
   /\ ok Sample.token_missing = true
   /\ fst (sample getAccessToken network_token_missing initial_state) = Normal VUndefined
   /\ ~ (exists s, fst (sample getAccessToken network_token_missing initial_state)
                   = Normal (VStr s)))
  /\ (network_down sample_token_request = Rejected Sample.connection_refused
      /\ fst (sample getAccessToken network_down initial_state)
         = Throw Sample.connection_refused
      /\ ~ (exists s, fst (sample getAccessToken network_down initial_state)
                      = Normal (VStr s))).
Proof.
  repeat split; intros [s Hs]; discriminate Hs.
Qed.

(** The call food search issues for [q=apple&max_results=100]. *)
Local Abbreviation search_apple_call :=
  (rest_request "foods/search/v3"
     [("search_expression", "apple"); ("page_number", "0");
      ("max_results", "50"); ("format", "json")] "tok-1").

(** [GET /...?q=apple&max_results=100] and [GET /...?q=apple] have
    parameters that print. *)
Lemma search_apple_100_prints : printable_query decimal_NumberToString
                                  (query Sample.search_apple_100).
Proof.
  repeat (apply Forall_cons; [eexists; reflexivity |]). apply Forall_nil.
Defined.

Lemma search_apple_prints : printable_query decimal_NumberToString (query Sample.search_apple).
Proof.
  repeat (apply Forall_cons; [eexists; reflexivity |]). apply Forall_nil.
Defined.

Lemma max_results_clamped_and_defaults_filled_witness :
  outbound (snd (sample search_foods (network_up (Resolved Sample.foods_found))
                   Sample.search_apple_100 initial_state))
  = [sample_token_request; search_apple_call]
  /\ searchParams_get "max_results" (searchParams (url search_apple_call)) = Some "50"
  /\ (exists params,
        outbound (snd (sample search_foods (network_up (Resolved Sample.foods_found))
                         Sample.search_apple_100 initial_state))
        = ([sample_token_request] ++ [rest_request "foods/search/v3" params "tok-1"])%list
        /\ searchParams_get "max_results" params = Some "50")
  /\ (exists params,
        outbound (snd (sample autocomplete_foods (network_up (Resolved Sample.foods_found))
                         Sample.search_apple_100 initial_state))
        = ([sample_token_request]
           ++ [rest_request "food/autocomplete/v2" params "tok-1"])%list
        /\ searchParams_get "max_results" params = Some "10")
  /\ (exists params,
        outbound (snd (sample search_recipes (network_up (Resolved Sample.foods_found))
                         Sample.search_apple_100 initial_state))
        = ([sample_token_request] ++ [rest_request "recipes/search/v3" params "tok-1"])%list
        /\ searchParams_get "max_results" params = Some "50")
  /\ (exists params,
        outbound (snd (sample search_foods (network_up (Resolved Sample.foods_found))
                         Sample.search_apple initial_state))
        = ([sample_token_request] ++ [rest_request "foods/search/v3" params "tok-1"])%list
        /\ searchParams_get "max_results" params = Some "20")
  /\ (exists params,
        outbound (snd (sample search_foods (network_up (Resolved Sample.foods_found))
                         Sample.search_apple initial_state))
        = ([sample_token_request] ++ [rest_request "foods/search/v3" params "tok-1"])%list
        /\ searchParams_get "page_number" params = Some "0")
  /\ (exists params,
        outbound (snd (sample autocomplete_foods (network_up (Resolved Sample.foods_found))
                         Sample.search_apple initial_state))
        = ([sample_token_request]
           ++ [rest_request "food/autocomplete/v2" params "tok-1"])%list
        /\ searchParams_get "format" params = Some "json").
Proof.
  destruct (sample max_results_clamped_and_defaults_filled
              (network_up (Resolved Sample.foods_found))
              Sample.search_apple_100 initial_state)
    as ((Hcap & _) & _ & _ & Hcalls).
  destruct (Hcalls search_apple_100_prints) as (Hfoods & Hauto & Hrecipes & _).
  destruct (sample max_results_clamped_and_defaults_filled
              (network_up (Resolved Sample.foods_found))
              Sample.search_apple initial_state)
    as (_ & _ & _ & Hdefaults).
  destruct (Hdefaults search_apple_prints) as (Hfoods' & Hauto' & _).
  split; [reflexivity |].
  split; [exact (Hcap (num 100) eq_refl eq_refl
                   [sample_token_request; search_apple_call] search_apple_call
                   eq_refl (or_intror (or_introl eq_refl)) eq_refl) |].
  split; [exact (proj1 (Hfoods eq_refl) (num 100) eq_refl eq_refl
                   (VStr "tok-1") refreshed "tok-1" eq_refl eq_refl) |].
  split; [exact (proj1 (Hauto eq_refl) (num 100) eq_refl eq_refl
                   (VStr "tok-1") refreshed "tok-1" eq_refl eq_refl) |].
  split; [exact (Hrecipes (num 100) eq_refl eq_refl
                   (VStr "tok-1") refreshed "tok-1" eq_refl eq_refl) |].
  split; [exact (proj1 (proj2 (Hfoods' eq_refl)) eq_refl
                   (VStr "tok-1") refreshed "tok-1" eq_refl eq_refl) |].
  split; [exact (proj1 (proj2 (proj2 (Hfoods' eq_refl))) eq_refl
                   (VStr "tok-1") refreshed "tok-1" eq_refl eq_refl) |].
  exact (proj2 (proj2 (Hauto' eq_refl)) eq_refl
           (VStr "tok-1") refreshed "tok-1" eq_refl eq_refl).
Defined.

Lemma barcode_length_decides_witness :
  sample find_food_by_barcode (network_up (Resolved Sample.foods_found))
    (Sample.barcode_request "012345678901") initial_state
  = (Normal (mkReply 400 (error_body "Missing or invalid 13-digit barcode (?barcode=)")),
     initial_state)
  /\ sample find_food_by_barcode (network_up (Resolved Sample.foods_found))
       (Sample.barcode_request "01234567890123") initial_state
     = (Normal (mkReply 400 (error_body "Missing or invalid 13-digit barcode (?barcode=)")),
        initial_state)
  /\ outbound (snd (sample find_food_by_barcode (network_up (Resolved Sample.foods_found))
                      (Sample.barcode_request "0123456789012") initial_state))
     = [sample_token_request;
        rest_request "food/barcode/find-by-id/v1"
          [("barcode", "0123456789012"); ("format", "json")] "tok-1"].
Proof.
  split; [| split].
  - exact (proj1 (sample barcode_length_decides (network_up (Resolved Sample.foods_found))
                    (Sample.barcode_request "012345678901") initial_state
                    "012345678901" eq_refl)
             (or_introl eq_refl)).
  - exact (proj1 (sample barcode_length_decides (network_up (Resolved Sample.foods_found))
                    (Sample.barcode_request "01234567890123") initial_state
                    "01234567890123" eq_refl)
             (or_intror eq_refl)).
  - exact (proj1 (proj2 (proj2 (sample barcode_length_decides
                                  (network_up (Resolved Sample.foods_found))
                                  (Sample.barcode_request "0123456789012") initial_state
                                  "0123456789012" eq_refl)
                           eq_refl)
                    (VStr "tok-1") refreshed _ "tok-1" eq_refl eq_refl eq_refl)).
Defined.

(** Thirteen characters, the last of them of two bytes; twelve
    characters in thirteen bytes. *)
Local Abbreviation barcode_13_units := ("not-a-number" ++ Sample.e_acute).
Local Abbreviation barcode_13_bytes := ("not-a-digit" ++ Sample.e_acute).

Lemma barcode_check_is_length_only_witness :
  barcode_refused decimal_NumberToString (VStr "not-13-digits") = Normal false
  /\ outbound (snd (sample find_food_by_barcode (network_up (Resolved Sample.foods_found))
                      (Sample.barcode_request "not-13-digits") initial_state))
     = [sample_token_request;
        rest_request "food/barcode/find-by-id/v1"
          [("barcode", "not-13-digits"); ("format", "json")] "tok-1"]
  /\ String.length barcode_13_units = 14%nat
  /\ barcode_refused decimal_NumberToString (VStr barcode_13_units) = Normal false
  /\ outbound (snd (sample find_food_by_barcode (network_up (Resolved Sample.foods_found))
                      (Sample.barcode_request barcode_13_units) initial_state))
     = [sample_token_request;
        rest_request "food/barcode/find-by-id/v1"
          [("barcode", barcode_13_units); ("format", "json")] "tok-1"]
  /\ String.length barcode_13_bytes = 13%nat
  /\ barcode_refused decimal_NumberToString (VStr barcode_13_bytes) = Normal true.
Proof.
  pose proof (sample barcode_check_is_length_only (network_up (Resolved Sample.foods_found))
                (Sample.barcode_request "not-13-digits") initial_state "not-13-digits")
    as (Hcheck & Hpass).
  pose proof (sample barcode_check_is_length_only (network_up (Resolved Sample.foods_found))
                (Sample.barcode_request barcode_13_units) initial_state barcode_13_units)
    as (Hcheck' & Hpass').
  pose proof (sample barcode_check_is_length_only (network_up (Resolved Sample.foods_found))
                (Sample.barcode_request barcode_13_bytes) initial_state barcode_13_bytes)
    as (Hcheck'' & _).
  split; [exact Hcheck |].
  split; [exact (proj1 (proj2 (Hpass eq_refl eq_refl)
                          (VStr "tok-1") refreshed _ "tok-1" eq_refl eq_refl eq_refl)) |].
  split; [reflexivity |].
  split; [exact Hcheck' |].
  split; [exact (proj1 (proj2 (Hpass' eq_refl eq_refl)
                          (VStr "tok-1") refreshed _ "tok-1" eq_refl eq_refl eq_refl)) |].
  split; [reflexivity | exact Hcheck''].
Defined.

(** The call the barcode route issues from a warm cache. *)
Local Abbreviation barcode_call_warm :=
  (rest_request "food/barcode/find-by-id/v1"
     [("barcode", "0123456789012"); ("format", "json")] "tok-0").

Lemma upstream_status_relayed_witness :
  fst (sample find_food_by_barcode (network_up (Resolved Sample.food_not_found))
         (Sample.barcode_request "0123456789012") Sample.warm_cache)
  = Normal (mkReply 404 Sample.not_found_body)
  /\ exists msg,
       fst (sample find_food_by_barcode (network_up (Resolved Sample.bad_gateway))
              (Sample.barcode_request "0123456789012") Sample.warm_cache)
       = Normal (mkReply 500 (error_body msg)).
Proof.
  split.
  - destruct (sample upstream_status_relayed (network_up (Resolved Sample.food_not_found))
                "GET" "/find-food-by-barcode" _
                (or_intror (or_intror (or_introl eq_refl))))
      as (msg & Hrelay).
    exact (proj1 (Hrelay (Sample.barcode_request "0123456789012") Sample.warm_cache
                    [barcode_call_warm] barcode_call_warm Sample.food_not_found
                    eq_refl (or_introl eq_refl) eq_refl eq_refl)
             Sample.not_found_body eq_refl).
  - destruct (sample upstream_status_relayed (network_up (Resolved Sample.bad_gateway))
                "GET" "/find-food-by-barcode" _
                (or_intror (or_intror (or_introl eq_refl))))
      as (msg & Hrelay).
    exists msg.
    exact (proj2 (Hrelay (Sample.barcode_request "0123456789012") Sample.warm_cache
                    [barcode_call_warm] barcode_call_warm Sample.bad_gateway
                    eq_refl (or_introl eq_refl) eq_refl eq_refl)
             _ eq_refl).
Defined.

(** C6 does not hold as stated: a non-2xx answer is relayed only when
    its body parses as JSON.  Here the call to the REST API is answered
    502 with an HTML page; [response.json()] throws at line 71 and the
    client is sent the 500 of the route, not the 502. *)
Lemma upstream_502_page_becomes_500 :
  outbound (snd (sample find_food_by_barcode (network_up (Resolved Sample.bad_gateway))
                   (Sample.barcode_request "0123456789012") Sample.warm_cache))
  = [barcode_call_warm]
  /\ network_up (Resolved Sample.bad_gateway) barcode_call_warm
     = Resolved Sample.bad_gateway
  /\ status Sample.bad_gateway = 502
  /\ ok Sample.bad_gateway = false
  /\ fst (sample find_food_by_barcode (network_up (Resolved Sample.bad_gateway))
            (Sample.barcode_request "0123456789012") Sample.warm_cache)
     = Normal (mkReply 500 (error_body "Internal error while finding food by barcode"))
  /\ fst (sample find_food_by_barcode (network_up (Resolved Sample.bad_gateway))
            (Sample.barcode_request "0123456789012") Sample.warm_cache)
     <> Normal (mkReply (status Sample.bad_gateway)
                        (VStr "<html>502 Bad Gateway</html>")).
Proof.
  repeat split. discriminate.
Qed.

Lemma upstream_exception_concealed_witness :
  exists label msg,
    fst (sample search_foods (network_up (Rejected Sample.connection_refused))
           Sample.search_apple Sample.warm_cache)
    = Normal (mkReply 500 (error_body msg))
    /\ console (snd (sample search_foods (network_up (Rejected Sample.connection_refused))
                       Sample.search_apple Sample.warm_cache))
       = [(label, Sample.connection_refused)].
Proof.
  destruct (sample upstream_exception_concealed
              (network_up (Rejected Sample.connection_refused))
              "GET" "/search-foods" _ (or_introl eq_refl))
    as (label & msg & Hconceal).
  exists label, msg.
  apply (Hconceal Sample.search_apple Sample.warm_cache
           [rest_request "foods/search/v3"
              [("search_expression", "apple"); ("page_number", "0");
               ("max_results", "20"); ("format", "json")] "tok-0"]
           _ Sample.connection_refused eq_refl (or_introl eq_refl) eq_refl
           (or_introl eq_refl)).
Defined.

Lemma required_parameters_checked_first_witness :
  sample search_foods network_down Sample.no_parameters initial_state
  = (Normal (mkReply 400 (error_body "Missing search query (?q=)")), initial_state)
  /\ sample autocomplete_foods network_down Sample.no_parameters initial_state
     = (Normal (mkReply 400 (error_body "Missing query (?q=)")), initial_state)
  /\ sample nlp network_down (mkInRequest [] (VObj [("user_input", VNum (num 7))]))
       initial_state
     = (Normal (mkReply 400 (error_body "Missing or invalid user_input (required)")),
        initial_state).
Proof.
  pose proof (sample required_parameters_checked_first network_down
                Sample.no_parameters initial_state)
    as (Hfoods & Hauto & _).
  split; [exact (Hfoods eq_refl) | split; [exact (Hauto eq_refl) |]].
  exact (proj1 (proj2 (proj2 (proj2 (proj2 (proj2 (proj2 (proj2
           (sample required_parameters_checked_first network_down
              (mkInRequest [] (VObj [("user_input", VNum (num 7))])) initial_state))))))))
           (VNum (num 7)) eq_refl (or_intror eq_refl)).
Defined.

(** C8 does not hold as stated: [/search-recipes] checks nothing.  A
    recipe search without [q] is not answered with a 400; a token is
    fetched and the search is sent upstream, without
    [search_expression]. *)
Lemma search_recipes_forwards_without_q :
  lookup "q" (query Sample.no_parameters) = VUndefined
  /\ fst (sample search_recipes (network_up (Resolved Sample.foods_found))
            Sample.no_parameters initial_state)
     = Normal (mkReply 200 Sample.foods_body)
  /\ outbound (snd (sample search_recipes (network_up (Resolved Sample.foods_found))
                      Sample.no_parameters initial_state))
     = [sample_token_request;
        rest_request "recipes/search/v3"
          [("page_number", "0"); ("max_results", "20"); ("format", "json")] "tok-1"]
  /\ ~ (exists payload,
          fst (sample search_recipes (network_up (Resolved Sample.foods_found))
                 Sample.no_parameters initial_state)
          = Normal (mkReply 400 payload))
  /\ outbound (snd (sample search_recipes (network_up (Resolved Sample.foods_found))
                      Sample.no_parameters initial_state))
     <> outbound initial_state.
Proof.
  repeat split.
  - intros [payload H]. discriminate H.
  - discriminate.
Qed.

(** *** Runs for the further properties *)

(** The token is denied, the REST API would answer. *)
Local Abbreviation network_denied :=
  (Sample.network (Resolved Sample.token_denied) (Resolved Sample.foods_found)).

Lemma token_reused_until_margin_witness :
  sample getAccessToken (network_up (Resolved Sample.foods_found))
    refreshed
  = (Normal (VStr "tok-1"), refreshed)
  /\ outbound (snd (getAccessToken Sample.client_id Sample.client_secret Sample.oauth_url
                      Sample.scope decimal_StringToNumber decimal_NumberToString
                      (Sample.now + 86390000)
                      (network_up (Resolved Sample.foods_found)) refreshed))
     = [sample_token_request; sample_token_request].
Proof.
  split.
  - exact (proj1 (sample token_reused_until_margin Sample.now
                    (network_up (Resolved Sample.foods_found))
                    (network_up (Resolved Sample.foods_found))
                    initial_state Sample.token_granted _ 86400
                    eq_refl eq_refl eq_refl eq_refl eq_refl eq_refl)
             eq_refl).
  - exact (proj2 (sample token_reused_until_margin (Sample.now + 86390000)
                    (network_up (Resolved Sample.foods_found))
                    (network_up (Resolved Sample.foods_found))
                    initial_state Sample.token_granted _ 86400
                    eq_refl eq_refl eq_refl eq_refl eq_refl eq_refl)
             ltac:(discriminate)).
Defined.

Lemma token_without_lifetime_never_reused_witness :
  fst (sample getAccessToken
         (Sample.network (Resolved token_without_lifetime) (Resolved Sample.foods_found))
         initial_state) = Normal (VStr "tok-2")
  /\ outbound (snd (sample getAccessToken
                      (network_up (Resolved Sample.foods_found))
                      (snd (sample getAccessToken
                              (Sample.network (Resolved token_without_lifetime)
                                              (Resolved Sample.foods_found))
                              initial_state))))
     = [sample_token_request; sample_token_request].
Proof.
  destruct (sample token_without_lifetime_never_reused
              (Sample.network (Resolved token_without_lifetime)
                              (Resolved Sample.foods_found))
              initial_state token_without_lifetime _ NaN
              eq_refl eq_refl eq_refl eq_refl eq_refl (or_intror eq_refl))
    as [Hret Hlater].
  split; [exact Hret |].
  exact (Hlater Sample.now (network_up (Resolved Sample.foods_found))).
Defined.

Lemma getAccessToken_fetches_token_request_only_witness :
  console (snd (sample getAccessToken network_denied initial_state)) = []
  /\ exists calls,
       outbound (snd (sample getAccessToken network_denied initial_state)) = calls
       /\ (calls = [] \/ calls = [sample_token_request]).
Proof.
  destruct (sample getAccessToken_fetches_token_request_only network_denied initial_state)
    as (Hconsole & calls & Hout & Hform & _).
  split; [exact Hconsole |]. exists calls. split; [exact Hout | exact Hform].
Defined.

Lemma failed_conversion_leaves_new_token_with_old_expiry_witness :
  cachedToken (snd (sample getAccessToken
                      (Sample.network (Resolved token_with_odd_lifetime)
                                      (Resolved Sample.foods_found))
                      initial_state)) = VStr "tok-3"
  /\ tokenExpiresAt (snd (sample getAccessToken
                      (Sample.network (Resolved token_with_odd_lifetime)
                                      (Resolved Sample.foods_found))
                      initial_state)) = num 0.
Proof.
  exact (proj2 (sample failed_conversion_leaves_new_token_with_old_expiry
                  (Sample.network (Resolved token_with_odd_lifetime)
                                  (Resolved Sample.foods_found))
                  initial_state token_with_odd_lifetime _
                  (TypeError "Cannot convert object to primitive value")
                  eq_refl eq_refl eq_refl eq_refl eq_refl)).
Defined.

Lemma set_query_keeps_defined_entries_witness :
  Forall2 (fun kv ks => fst ks = fst kv
                        /\ ToString decimal_NumberToString (snd kv) = Normal (snd ks))
    [("region", VStr "US"); ("max_results", VNum (num 20))]
    [("region", "US"); ("max_results", "20")].
Proof.
  apply (set_query_keeps_defined_entries decimal_NumberToString
           [("region", VStr "US"); ("language", VUndefined); ("max_results", VNum (num 20))]
           [("region", "US"); ("max_results", "20")]).
  - repeat constructor; simpl; intuition discriminate.
  - reflexivity.
Defined.

(** The call food search issues for [q=apple], with the token [bearer]. *)
Local Abbreviation search_apple_default_call bearer :=
  (rest_request "foods/search/v3"
     [("search_expression", "apple"); ("page_number", "0");
      ("max_results", "20"); ("format", "json")] bearer).

(** [GET /search-foods?q=apple&max_results=...] *)
Local Abbreviation search_apple_sized size :=
  (mkInRequest [("q", VStr "apple"); ("max_results", VStr size)] VUndefined).

Lemma token_failure_answered_with_500_witness :
  exists label msg,
    fst (sample search_foods network_denied Sample.search_apple initial_state)
    = Normal (mkReply 500 (error_body msg))
    /\ console (snd (sample search_foods network_denied Sample.search_apple initial_state))
       = [(label, new_Error "Failed to fetch token: 401 invalid_client")]
    /\ outbound (snd (sample search_foods network_denied Sample.search_apple initial_state))
       = [sample_token_request].
Proof.
  destruct (sample token_failure_answered_with_500 network_denied
              "GET" "/search-foods" _ (or_introl eq_refl))
    as (label & msg & H).
  exists label, msg.
  destruct (H Sample.search_apple initial_state [sample_token_request] Sample.token_denied
              eq_refl (or_introl eq_refl) eq_refl eq_refl)
    as (Hreply & Hconsole & _).
  split; [exact Hreply | split; [exact (Hconsole "invalid_client" eq_refl) | reflexivity]].
Defined.

Lemma at_most_one_upstream_call_witness :
  exists calls,
    outbound (snd (sample search_foods (network_up (Resolved Sample.foods_found))
                     Sample.search_apple initial_state))
    = calls
    /\ (calls = [] \/ calls = [sample_token_request]
        \/ exists u, is_upstream u = true
                     /\ (calls = [u] \/ calls = [sample_token_request; u])).
Proof.
  destruct (sample at_most_one_upstream_call (network_up (Resolved Sample.foods_found))
              "GET" "/search-foods" _ (or_introl eq_refl)
              Sample.search_apple initial_state)
    as (calls & Hout & Hform).
  exists calls. split; [exact Hout | exact Hform].
Defined.

Lemma console_written_only_with_500_witness :
  exists label msg,
    console (snd (sample search_foods (network_up (Resolved Sample.foods_found))
                    Sample.search_apple initial_state)) = []
    \/ exists e,
         console (snd (sample search_foods (network_up (Resolved Sample.foods_found))
                         Sample.search_apple initial_state)) = [(label, e)]
         /\ fst (sample search_foods (network_up (Resolved Sample.foods_found))
                   Sample.search_apple initial_state)
            = Normal (mkReply 500 (error_body msg)).
Proof.
  destruct (sample console_written_only_with_500 (network_up (Resolved Sample.foods_found))
              "GET" "/search-foods" _ (or_introl eq_refl))
    as (label & msg & H).
  exists label, msg. exact (H Sample.search_apple initial_state).
Defined.

Lemma routes_write_cache_only_on_success_witness :
  exists r,
    network_up (Resolved Sample.foods_found) sample_token_request = Resolved r
    /\ ok r = true.
Proof.
  apply (sample routes_write_cache_only_on_success
           (network_up (Resolved Sample.foods_found))
           "GET" "/search-foods" _ (or_introl eq_refl)
           Sample.search_apple initial_state).
  discriminate.
Defined.

Lemma upstream_call_carries_current_token_witness :
  exists token st1 bearer,
    sample getAccessToken (network_up (Resolved Sample.foods_found)) initial_state
    = (Normal token, st1)
    /\ ToString decimal_NumberToString token = Normal bearer
    /\ hd_error (headers (search_apple_default_call "tok-1"))
       = Some ("Authorization", "Bearer " ++ bearer).
Proof.
  apply (sample upstream_call_carries_current_token
           (network_up (Resolved Sample.foods_found))
           "GET" "/search-foods" _ (or_introl eq_refl)
           Sample.search_apple initial_state
           [sample_token_request; search_apple_default_call "tok-1"]
           (search_apple_default_call "tok-1")
           eq_refl (or_intror (or_introl eq_refl)) eq_refl).
Defined.

Lemma calls_go_to_fixed_addresses_witness :
  exists address,
    starts_with "https://platform.fatsecret.com/rest/" address = true
    /\ (search_apple_default_call "tok-1" = sample_token_request
        \/ href (url (search_apple_default_call "tok-1")) = address).
Proof.
  destruct (sample calls_go_to_fixed_addresses (network_up (Resolved Sample.foods_found))
              "GET" "/search-foods" _ (or_introl eq_refl))
    as (address & Hbase & H).
  exists address. split; [exact Hbase |].
  exact (H Sample.search_apple initial_state
           [sample_token_request; search_apple_default_call "tok-1"]
           (search_apple_default_call "tok-1")
           eq_refl (or_intror (or_introl eq_refl))).
Defined.

Lemma plain_requests_are_answered_witness :
  exists reply,
    fst (sample search_foods network_down Sample.search_apple initial_state) = Normal reply.
Proof.
  apply (sample plain_requests_are_answered network_down
           "GET" "/search-foods" _ (or_introl eq_refl)
           Sample.search_apple initial_state).
  - repeat constructor.
  - discriminate.
Defined.

Lemma errors_before_try_are_not_caught_witness :
  sample search_foods (network_up (Resolved Sample.foods_found))
    (mkInRequest [("q", VStr "apple");
                  ("max_results", VObj [("toString", VStr "x")])] VUndefined)
    initial_state
  = (Throw (TypeError "Cannot convert object to primitive value"), initial_state)
  /\ exists msg,
       sample nlp (network_up (Resolved Sample.foods_found))
         (mkInRequest [] VUndefined) initial_state
       = (Throw (TypeError msg), initial_state).
Proof.
  split.
  - exact (proj1 (sample errors_before_try_are_not_caught
                    (network_up (Resolved Sample.foods_found))
                    (mkInRequest [("q", VStr "apple");
                                  ("max_results", VObj [("toString", VStr "x")])]
                                 VUndefined)
                    initial_state (TypeError "Cannot convert object to primitive value"))
             eq_refl eq_refl).
  - exact (proj1 (proj2 (proj2 (proj2 (proj2
             (sample errors_before_try_are_not_caught
                (network_up (Resolved Sample.foods_found))
                (mkInRequest [] VUndefined) initial_state
                (TypeError ""))))))
             (or_introl eq_refl)).
Defined.

(** [GET /food-details?id=33691] and [GET /search-recipes?q=soup&page=3] *)
Local Abbreviation details_request := (mkInRequest [("id", VStr "33691")] VUndefined).
Local Abbreviation soup_request :=
  (mkInRequest [("q", VStr "soup"); ("page", VStr "3")] VUndefined).

Lemma details_request_prints : printable_query decimal_NumberToString (query details_request).
Proof.
  repeat (apply Forall_cons; [eexists; reflexivity |]). apply Forall_nil.
Defined.

Lemma soup_request_prints : printable_query decimal_NumberToString (query soup_request).
Proof.
  repeat (apply Forall_cons; [eexists; reflexivity |]). apply Forall_nil.
Defined.

Lemma barcode_request_prints barcode :
  printable_query decimal_NumberToString (query (Sample.barcode_request barcode)).
Proof.
  repeat (apply Forall_cons; [eexists; reflexivity |]). apply Forall_nil.
Defined.

Lemma parameters_renamed_for_upstream_witness :
  searchParams_get "search_expression" (searchParams (url (search_apple_default_call "tok-1")))
  = Some "apple"
  /\ (exists params,
        outbound (snd (sample search_foods (network_up (Resolved Sample.foods_found))
                         Sample.search_apple initial_state))
        = ([sample_token_request] ++ [rest_request "foods/search/v3" params "tok-1"])%list
        /\ searchParams_get "search_expression" params = Some "apple")
  /\ (exists params,
        outbound (snd (sample autocomplete_foods (network_up (Resolved Sample.foods_found))
                         Sample.search_apple initial_state))
        = ([sample_token_request]
           ++ [rest_request "food/autocomplete/v2" params "tok-1"])%list
        /\ searchParams_get "expression" params = Some "apple")
  /\ (exists params,
        outbound (snd (sample find_food_by_barcode (network_up (Resolved Sample.foods_found))
                         (Sample.barcode_request "0123456789012") initial_state))
        = ([sample_token_request]
           ++ [rest_request "food/barcode/find-by-id/v1" params "tok-1"])%list
        /\ searchParams_get "barcode" params = Some "0123456789012")
  /\ (exists params,
        outbound (snd (sample food_details (network_up (Resolved Sample.foods_found))
                         details_request initial_state))
        = ([sample_token_request] ++ [rest_request "food/v4" params "tok-1"])%list
        /\ searchParams_get "food_id" params = Some "33691")
  /\ (exists params,
        outbound (snd (sample recipe_details (network_up (Resolved Sample.foods_found))
                         details_request initial_state))
        = ([sample_token_request] ++ [rest_request "recipe/v2" params "tok-1"])%list
        /\ searchParams_get "recipe_id" params = Some "33691")
  /\ (exists params,
        outbound (snd (sample search_recipes (network_up (Resolved Sample.foods_found))
                         soup_request initial_state))
        = ([sample_token_request] ++ [rest_request "recipes/search/v3" params "tok-1"])%list
        /\ searchParams_get "page_number" params = Some "3").
Proof.
  split.
  { exact (proj1 (sample parameters_renamed_for_upstream
                    (network_up (Resolved Sample.foods_found))
                    Sample.search_apple initial_state "apple")
             eq_refl
             [sample_token_request; search_apple_default_call "tok-1"]
             (search_apple_default_call "tok-1")
             eq_refl (or_intror (or_introl eq_refl)) eq_refl). }
  assert (Hne : forall c rest, String c rest <> "") by discriminate.
  destruct (sample parameters_renamed_for_upstream
              (network_up (Resolved Sample.foods_found))
              Sample.search_apple initial_state "apple")
    as (_ & _ & _ & _ & _ & _ & _ & _ & _ & _ & Hcalls).
  destruct (Hcalls search_apple_prints (Hne _ _)) as (Hfoods & _ & Hauto & _).
  destruct (sample parameters_renamed_for_upstream
              (network_up (Resolved Sample.foods_found))
              (Sample.barcode_request "0123456789012") initial_state "0123456789012")
    as (_ & _ & _ & _ & _ & _ & _ & _ & _ & _ & Hcalls1).
  destruct (Hcalls1 (barcode_request_prints _) (Hne _ _)) as (_ & _ & _ & Hbarcode & _).
  destruct (sample parameters_renamed_for_upstream
              (network_up (Resolved Sample.foods_found))
              details_request initial_state "33691")
    as (_ & _ & _ & _ & _ & _ & _ & _ & _ & _ & Hcalls2).
  destruct (Hcalls2 details_request_prints (Hne _ _))
    as (_ & _ & _ & _ & Hfood & _ & _ & Hrecipe & _).
  destruct (sample parameters_renamed_for_upstream
              (network_up (Resolved Sample.foods_found))
              soup_request initial_state "3")
    as (_ & _ & _ & _ & _ & _ & _ & _ & _ & _ & Hcalls3).
  destruct (Hcalls3 soup_request_prints (Hne _ _))
    as (_ & _ & _ & _ & _ & _ & _ & _ & _ & Hpage).
  split; [exact (Hfoods eq_refl (VStr "tok-1") refreshed "tok-1" eq_refl eq_refl) |].
  split; [exact (Hauto eq_refl (VStr "tok-1") refreshed "tok-1" eq_refl eq_refl) |].
  split; [exact (Hbarcode eq_refl eq_refl (VStr "tok-1") refreshed "tok-1" eq_refl eq_refl) |].
  split; [exact (Hfood eq_refl (VStr "tok-1") refreshed "tok-1" eq_refl eq_refl) |].
  split; [exact (Hrecipe eq_refl (VStr "tok-1") refreshed "tok-1" eq_refl eq_refl) |].
  exact (Hpage eq_refl (VStr "tok-1") refreshed "tok-1" eq_refl eq_refl).
Defined.

Lemma absent_parameters_not_forwarded_witness :
  searchParams_get "region" (searchParams (url (search_apple_default_call "tok-1"))) = None.
Proof.
  refine (proj1 (sample absent_parameters_not_forwarded
                   (network_up (Resolved Sample.foods_found))
                   Sample.search_apple initial_state "region" eq_refl)
            _
            [sample_token_request; search_apple_default_call "tok-1"]
            (search_apple_default_call "tok-1")
            eq_refl (or_intror (or_introl eq_refl)) eq_refl).
  simpl. intuition discriminate.
Defined.

Lemma max_results_never_above_cap_witness :
  exists m,
    searchParams_get "max_results" (searchParams (url (search_apple_default_call "tok-1")))
    = Some (decimal_NumberToString m)
    /\ num_le m (num 50) = true.
Proof.
  exact (proj1 (sample max_results_never_above_cap
                  (network_up (Resolved Sample.foods_found))
                  Sample.search_apple initial_state)
           [sample_token_request; search_apple_default_call "tok-1"]
           (search_apple_default_call "tok-1")
           eq_refl (or_intror (or_introl eq_refl)) eq_refl).
Defined.

Lemma search_apple_sized_prints size :
  printable_query decimal_NumberToString (query (search_apple_sized size)).
Proof.
  repeat (apply Forall_cons; [eexists; reflexivity |]). apply Forall_nil.
Defined.

Lemma max_results_below_cap_or_falsy_witness :
  (exists params,
     outbound (snd (sample search_foods (network_up (Resolved Sample.foods_found))
                      (search_apple_sized "7") initial_state))
     = ([sample_token_request] ++ [rest_request "foods/search/v3" params "tok-1"])%list
     /\ searchParams_get "max_results" params = Some "7")
  /\ (exists params,
        outbound (snd (sample search_foods (network_up (Resolved Sample.foods_found))
                         (search_apple_sized "0") initial_state))
        = ([sample_token_request] ++ [rest_request "foods/search/v3" params "tok-1"])%list
        /\ searchParams_get "max_results" params = Some "20")
  /\ (exists params,
        outbound (snd (sample autocomplete_foods (network_up (Resolved Sample.foods_found))
                         (search_apple_sized "many") initial_state))
        = ([sample_token_request]
           ++ [rest_request "food/autocomplete/v2" params "tok-1"])%list
        /\ searchParams_get "max_results" params = Some "4")
  /\ (exists params,
        outbound (snd (sample search_recipes (network_up (Resolved Sample.foods_found))
                         (search_apple_sized "7") initial_state))
        = ([sample_token_request] ++ [rest_request "recipes/search/v3" params "tok-1"])%list
        /\ searchParams_get "max_results" params = Some "7")
  /\ sends (sample search_foods (network_up (Resolved Sample.foods_found)))
       (search_apple_sized "7") initial_state "max_results" "7".
Proof.
  destruct (sample max_results_below_cap_or_falsy
              (network_up (Resolved Sample.foods_found))
              (search_apple_sized "7") initial_state (num 7) eq_refl)
    as (Hsends & _ & _ & _ & _ & _ & Hcalls7).
  destruct (Hcalls7 (search_apple_sized_prints "7")) as (Hfoods7 & Hrecipes7 & _).
  destruct (sample max_results_below_cap_or_falsy
              (network_up (Resolved Sample.foods_found))
              (search_apple_sized "0") initial_state (num 0) eq_refl)
    as (_ & _ & _ & _ & _ & _ & Hcalls0).
  destruct (Hcalls0 (search_apple_sized_prints "0")) as (Hfoods0 & _).
  destruct (sample max_results_below_cap_or_falsy
              (network_up (Resolved Sample.foods_found))
              (search_apple_sized "many") initial_state NaN eq_refl)
    as (_ & _ & _ & _ & _ & _ & Hcalls_nan).
  destruct (Hcalls_nan (search_apple_sized_prints "many")) as (Hfoods_nan & _).
  split; [exact (proj1 (Hfoods7 eq_refl) eq_refl eq_refl
                   (VStr "tok-1") refreshed "tok-1" eq_refl eq_refl) |].
  split; [exact (proj1 (proj2 (Hfoods0 eq_refl)) eq_refl
                   (VStr "tok-1") refreshed "tok-1" eq_refl eq_refl) |].
  split; [exact (proj2 (proj2 (proj2 (Hfoods_nan eq_refl))) eq_refl
                   (VStr "tok-1") refreshed "tok-1" eq_refl eq_refl) |].
  split; [exact (Hrecipes7 eq_refl eq_refl
                   (VStr "tok-1") refreshed "tok-1" eq_refl eq_refl) |].
  exact (Hsends eq_refl eq_refl).
Defined.

(** [POST /nlp] with a body that has one property the route does not
    know. *)
Local Abbreviation nlp_fields :=
  [("user_input", VStr "two eggs"); ("region", VStr "US"); ("debug", VBool true)].

Local Abbreviation nlp_call :=
  (post_request "https://platform.fatsecret.com/rest/natural-language-processing/v1"
     "tok-1"
     [("user_input", VStr "two eggs");
      ("include_food_data", VUndefined);
      ("eaten_foods", VUndefined);
      ("region", VStr "US");
      ("language", VUndefined)]).

Lemma post_routes_forward_known_fields_witness :
  outbound (snd (sample nlp (network_up (Resolved Sample.foods_found))
                   (mkInRequest [] (VObj nlp_fields)) initial_state))
  = ([sample_token_request] ++ [nlp_call])%list
  /\ body nlp_call
     = JsonBody (VObj [("user_input", VStr "two eggs"); ("region", VStr "US")])
  /\ exists forwarded,
       body nlp_call = JsonBody (VObj forwarded)
       /\ In ("user_input", VStr "two eggs") forwarded
       /\ forall k v, In (k, v) forwarded <->
            (In k ("user_input" :: optional_fields)
             /\ v = lookup k nlp_fields /\ v <> VUndefined).
Proof.
  destruct (sample post_routes_forward_known_fields
              (network_up (Resolved Sample.foods_found))
              (mkInRequest [] (VObj nlp_fields)) initial_state nlp_fields eq_refl)
    as (Hbody & _ & Hcall & _).
  split; [exact (Hcall eq_refl eq_refl (VStr "tok-1") refreshed "tok-1" eq_refl eq_refl) |].
  split; [reflexivity |].
  exact (proj2 (Hbody [sample_token_request; nlp_call] nlp_call
                  eq_refl (or_intror (or_introl eq_refl)) eq_refl)).
Defined.

(** [GET /find-food-by-barcode?barcode=012345&barcode=678901] *)
Local Abbreviation barcode_twice :=
  (mkInRequest [("barcode", VArr [VStr "012345"; VStr "678901"])] VUndefined).

Lemma repeated_barcode_is_joined_witness :
  outbound (snd (sample find_food_by_barcode (network_up (Resolved Sample.foods_found))
                   barcode_twice initial_state))
  = [sample_token_request;
     rest_request "food/barcode/find-by-id/v1"
       [("barcode", "012345,678901"); ("format", "json")] "tok-1"]
  /\ sends (sample find_food_by_barcode (network_up (Resolved Sample.foods_found)))
       barcode_twice initial_state "barcode" "012345,678901".
Proof.
  split; [reflexivity |].
  exact (proj2 (proj2 (sample repeated_barcode_is_joined
                         (network_up (Resolved Sample.foods_found))
                         barcode_twice initial_state
                         [VStr "012345"; VStr "678901"] "012345,678901"
                         eq_refl eq_refl)
                  eq_refl)).
Defined.
